(** * Health insights engine (frontend/src/lib/healthInsights.ts)

    A shallow embedding of the normalizer, the risk scorer, the insight
    generator and the recommendation generator, together with the parts
    of the JavaScript runtime they call: IEEE 754 binary64 numbers,
    strings, [Number] on strings and [String] on numbers. *)

From Stdlib Require Import ZArith Lia List Bool Ascii String.
From Stdlib Require Import Floats.SpecFloat.
From Stdlib Require Import DecimalString DecimalN.
From stdpp Require Import base gmap strings.
Import ListNotations.

Local Open Scope string_scope.
Local Open Scope Z_scope.

(** ** JavaScript numbers

    A JS number is an IEEE 754 binary64 value.  [spec_float] is the
    Standard Library's model of it: signed zeros, infinities, one NaN and
    finite values [(-1)^s * m * 2^e].  All arithmetic below is the
    correctly rounded one of [SpecFloat] at precision 53.  The numbers of
    a program are the canonical values ([valid_binary]); the theorems of
    this file hold for every [spec_float], canonical or not. *)
Module Js.

Definition prec : Z := 53.
Definition emax : Z := 1024.

Abbreviation number := spec_float.

Definition NaN : number := S754_nan.

(** [Number.isFinite] on a value already known to be a number. *)
Definition isFinite (x : number) : bool :=
  match x with
  | S754_zero _ | S754_finite _ _ _ => true
  | S754_infinity _ | S754_nan => false
  end.

(** The number nearest to the rational [num / den] (ties to even), signed. *)
Definition ofRatio (neg : bool) (num den : positive) : number :=
  SFdiv prec emax (S754_finite neg num 0) (S754_finite false den 0).

(** The number nearest to [m * 10^e], the value of a decimal literal. *)
Definition ofDecimal (neg : bool) (m : N) (e : Z) : number :=
  match m with
  | N0 => S754_zero neg
  | Npos p => ofRatio neg (p * Z.to_pos (10 ^ Z.max e 0)) (Z.to_pos (10 ^ Z.max (- e) 0))
  end.

Definition ofZ (z : Z) : number :=
  match z with
  | Z0 => S754_zero false
  | Zpos p => ofRatio false p 1
  | Zneg p => ofRatio true p 1
  end.

Definition div (x y : number) : number := SFdiv prec emax x y.
Definition mul (x y : number) : number := SFmul prec emax x y.
Definition ltb (x y : number) : bool := SFltb x y.
Definition leb (x y : number) : bool := SFleb x y.
Definition gtb (x y : number) : bool := SFltb y x.
Definition geb (x y : number) : bool := SFleb y x.

(** ToBoolean on a number: [0], [-0] and [NaN] are falsy. *)
Definition truthy (x : number) : bool :=
  match x with
  | S754_zero _ | S754_nan => false
  | _ => true
  end.

(** ** JavaScript strings

    A string is held as the bytes of its UTF-8 encoding, so the literals
    of the source are written as they are.  Substring search on the bytes
    of well-formed text agrees with the search on its code units. *)

Definition code (c : ascii) : N := N_of_ascii c.

(** WhiteSpace and LineTerminator code points, by the length of their
    encoding: TAB LF VT FF CR SP; U+00A0; U+1680, U+2000..U+200A, U+2028,
    U+2029, U+202F, U+205F, U+3000, U+FEFF. *)
Definition ws1 (c : ascii) : bool :=
  let n := code c in ((9 <=? n) && (n <=? 13) || (n =? 32))%N.

Definition ws2 (c1 c2 : ascii) : bool :=
  ((code c1 =? 194) && (code c2 =? 160))%N.

Definition ws3 (c1 c2 c3 : ascii) : bool :=
  let a := code c1 in let b := code c2 in let c := code c3 in
  ((a =? 225) && (b =? 154) && (c =? 128)
   || (a =? 226) && (b =? 128)
        && ((128 <=? c) && (c <=? 138) || (c =? 168) || (c =? 169) || (c =? 175))
   || (a =? 226) && (b =? 129) && (c =? 159)
   || (a =? 227) && (b =? 128) && (c =? 128)
   || (a =? 239) && (b =? 187) && (c =? 191))%N.

(** Drops every white-space code point at the head of the bytes.  With
    [back] the list is read from the end of the string, so the bytes of a
    code point come in reverse. *)
Fixpoint dropWs (back : bool) (l : list ascii) : list ascii :=
  match l with
  | [] => []
  | c1 :: l1 =>
      if ws1 c1 then dropWs back l1 else
      match l1 with
      | [] => l
      | c2 :: l2 =>
          if (if back then ws2 c2 c1 else ws2 c1 c2) then dropWs back l2 else
          match l2 with
          | [] => l
          | c3 :: l3 =>
              if (if back then ws3 c3 c2 c1 else ws3 c1 c2 c3)
              then dropWs back l3 else l
          end
      end
  end.

Definition trimList (l : list ascii) : list ascii :=
  rev (dropWs true (rev (dropWs false l))).

(** [String.prototype.trim]. *)
Definition trim (s : string) : string :=
  string_of_list_ascii (trimList (list_ascii_of_string s)).

(** [String.prototype.toLowerCase].  ASCII letters are folded; of the
    other code points only the two whose lower case holds an ASCII letter
    are mapped (U+212A KELVIN SIGN to k, U+0130 to i followed by U+0307):
    this is what a search for an ASCII keyword can observe. *)
Definition lowerAscii (c : ascii) : ascii :=
  let n := code c in
  if ((65 <=? n) && (n <=? 90))%N then ascii_of_N (n + 32) else c.

Fixpoint toLowerList (l : list ascii) : list ascii :=
  match l with
  | [] => []
  | c1 :: l1 =>
      match l1 with
      | c2 :: l2 =>
          if ((code c1 =? 196) && (code c2 =? 176))%N
          then "i"%char :: ascii_of_N 204 :: ascii_of_N 135 :: toLowerList l2
          else
            match l2 with
            | c3 :: l3 =>
                if ((code c1 =? 226) && (code c2 =? 132) && (code c3 =? 170))%N
                then "k"%char :: toLowerList l3
                else lowerAscii c1 :: toLowerList l1
            | [] => lowerAscii c1 :: toLowerList l1
            end
      | [] => [lowerAscii c1]
      end
  end.

Definition toLowerCase (s : string) : string :=
  string_of_list_ascii (toLowerList (list_ascii_of_string s)).

(** [s.includes(k)]: [k] occurs in [s] as a substring. *)
Fixpoint includes (s k : string) : bool :=
  String.prefix k s ||
  match s with
  | EmptyString => false
  | String _ s' => includes s' k
  end.

(** [s.replace(pat, rep)] with a string pattern: the first occurrence only. *)
Fixpoint replace (s pat rep : string) : string :=
  if String.prefix pat s
  then rep ++ String.substring (String.length pat) (String.length s - String.length pat) s
  else match s with
       | EmptyString => EmptyString
       | String c s' => String c (replace s' pat rep)
       end.

(** ** [Number(s)] on a string: StringToNumber

    White space is stripped at both ends; the empty string is [+0]; a
    signed decimal literal ([Infinity], digits with an optional fraction
    and exponent) or an unsigned binary, octal or hexadecimal integer
    literal has its value rounded to the nearest number; anything else is
    [NaN]. *)

Definition isDigit (c : ascii) : bool := ((48 <=? code c) && (code c <=? 57))%N.

Definition hexVal (c : ascii) : option N :=
  let n := code c in
  if ((48 <=? n) && (n <=? 57))%N then Some (n - 48)%N
  else if ((97 <=? n) && (n <=? 102))%N then Some (n - 87)%N
  else if ((65 <=? n) && (n <=? 70))%N then Some (n - 55)%N
  else None.

Fixpoint spanDigits (l : list ascii) : list ascii * list ascii :=
  match l with
  | c :: l' =>
      if isDigit c then let '(ds, r) := spanDigits l' in (c :: ds, r) else ([], l)
  | [] => ([], [])
  end.

Definition digitsVal (ds : list ascii) : N :=
  fold_left (fun a c => (10 * a + (code c - 48))%N) ds 0%N.

(** Digits of an integer literal in base [b]; [None] on a foreign digit. *)
Fixpoint radixVal (b : N) (acc : N) (l : list ascii) : option N :=
  match l with
  | [] => Some acc
  | c :: l' =>
      match hexVal c with
      | Some d => if (d <? b)%N then radixVal b (b * acc + d)%N l' else None
      | None => None
      end
  end.

Definition isChar (c : ascii) (s : string) : bool :=
  existsb (fun d => (code c =? code d)%N) (list_ascii_of_string s).

(** ExponentPart: [e] or [E], an optional sign, at least one digit, and
    nothing after it. *)
Definition parseExponent (l : list ascii) : option Z :=
  match l with
  | [] => Some 0
  | c :: l1 =>
      if isChar c "eE" then
        let '(neg, l2) :=
          match l1 with
          | d :: l2 => if isChar d "-" then (true, l2)
                       else if isChar d "+" then (false, l2) else (false, l1)
          | [] => (false, l1)
          end in
        let '(ds, r) := spanDigits l2 in
        match ds, r with
        | _ :: _, [] => Some (if neg then - Z.of_N (digitsVal ds) else Z.of_N (digitsVal ds))
        | _, _ => None
        end
      else None
  end.

(** StrUnsignedDecimalLiteral. *)
Definition parseUnsignedDecimal (neg : bool) (l : list ascii) : number :=
  if String.eqb (string_of_list_ascii l) "Infinity" then S754_infinity neg else
  let '(ip, r1) := spanDigits l in
  let '(fp, r2) :=
    match r1 with
    | c :: r => if isChar c "." then spanDigits r else ([], r1)
    | [] => ([], r1)
    end in
  match (ip ++ fp)%list with
  | [] => NaN
  | _ :: _ =>
      match parseExponent r2 with
      | Some e => ofDecimal neg (digitsVal (ip ++ fp)%list) (e - Z.of_nat (List.length fp))
      | None => NaN
      end
  end.

Definition parseNonDecimal (l : list ascii) : option number :=
  match l with
  | z :: x :: ((_ :: _) as ds) =>
      if isChar z "0" then
        let b := if isChar x "xX" then 16%N else if isChar x "oO" then 8%N
                 else if isChar x "bB" then 2%N else 0%N in
        match radixVal b 0 ds with
        | Some v => if (b =? 0)%N then None else Some (ofZ (Z.of_N v))
        | None => None
        end
      else None
  | _ => None
  end.

Definition stringToNumber (s : string) : number :=
  match trimList (list_ascii_of_string s) with
  | [] => S754_zero false
  | (c :: l') as l =>
      match parseNonDecimal l with
      | Some v => v
      | None =>
          if isChar c "-" then parseUnsignedDecimal true l'
          else if isChar c "+" then parseUnsignedDecimal false l'
          else parseUnsignedDecimal false l
      end
  end.

(** ** [String(x)] on a number: Number::toString in radix 10

    For a finite non-zero [x] the digits are the shortest decimal
    [s * 10^(n-k)], [10^(k-1) <= s < 10^k], that [Number] reads back as
    [x]; of two such decimals of the same length the one nearer to [x]. *)

Definition decimalDigits (n : N) : string := NilZero.string_of_uint (N.to_uint n).

Fixpoint zeros (n : nat) : string :=
  match n with O => "" | S n' => String "0" (zeros n') end.

Definition pow10 (e : Z) : Z := 10 ^ Z.max e 0.

(** The least [n] in the range of binary64 with [m * 2^e < 10^n]. *)
Definition decimalExponent (m : positive) (e : Z) : Z :=
  let lt10 (n : Z) := (Z.pos m * 2 ^ Z.max e 0 * pow10 (- n) <? pow10 n * 2 ^ Z.max (- e) 0) in
  match List.find lt10 (List.map (fun i => Z.of_nat i - 323) (seq 0 633)) with
  | Some n => n
  | None => 309
  end.

(** The [k]-digit decimals next to [m * 2^e]: the one that reads back as
    the number, if any, as [(s, n)]. *)
Definition digitsOfLength (m : positive) (e : Z) (n0 : Z) (k : Z) : option (N * Z) :=
  let scale := n0 - k in
  let num := Z.pos m * 2 ^ Z.max e 0 * pow10 (- scale) in
  let den := 2 ^ Z.max (- e) 0 * pow10 scale in
  let lo := Z.to_N (num / den) in
  let hi := (lo + 1)%N in
  let r := num mod den in
  let reads (s : N) :=
    match ofDecimal false s scale with
    | S754_finite false m' e' => Pos.eqb m m' && Z.eqb e e'
    | _ => false
    end in
  let norm (s : N) := if (Z.of_N s =? 10 ^ k) then ((s / 10)%N, n0 + 1) else (s, n0) in
  match reads lo, reads hi with
  | true, true =>
      if (2 * r <? den) || (2 * r =? den) && N.even lo then Some (norm lo) else Some (norm hi)
  | true, false => Some (norm lo)
  | false, true => Some (norm hi)
  | false, false => None
  end.

Fixpoint shortestDigits (m : positive) (e : Z) (n0 : Z) (fuel : nat) (k : Z) : N * Z * Z :=
  match digitsOfLength m e n0 k, fuel with
  | Some (s, n), _ => (s, k, n)
  | None, S fuel' => shortestDigits m e n0 fuel' (k + 1)
  | None, O =>
      (Z.to_N (Z.pos m * 2 ^ Z.max e 0 * pow10 (k - n0) / (2 ^ Z.max (- e) 0 * pow10 (n0 - k))), k, n0)
  end.

Definition formatDigits (ds : string) (k n : Z) : string :=
  if (k <=? n) && (n <=? 21) then ds ++ zeros (Z.to_nat (n - k))
  else if (0 <? n) && (n <=? 21) then
    String.substring 0 (Z.to_nat n) ds ++ "." ++ String.substring (Z.to_nat n) (Z.to_nat (k - n)) ds
  else if (-6 <? n) && (n <=? 0) then "0." ++ zeros (Z.to_nat (- n)) ++ ds
  else
    let ex := (if n - 1 <? 0 then "-" else "+") ++ decimalDigits (Z.to_N (Z.abs (n - 1))) in
    if k =? 1 then ds ++ "e" ++ ex
    else String.substring 0 1 ds ++ "." ++ String.substring 1 (Z.to_nat (k - 1)) ds ++ "e" ++ ex.

Definition numberToString (x : number) : string :=
  match x with
  | S754_nan => "NaN"
  | S754_zero _ => "0"
  | S754_infinity s => (if s then "-" else "") ++ "Infinity"
  | S754_finite s m e =>
      let '(d, k, n) := shortestDigits m e (decimalExponent m e) 16 1 in
      (if s then "-" else "") ++ formatDigits (decimalDigits d) k n
  end.

(** ** [Number(x.toFixed(1))]

    [toFixed(1)] writes the integer [n] nearest to [10 * |x|] (the larger
    one on a tie) with one digit after the point and the sign of [x], and
    [Number] reads [n / 10] back; from [10^21] on [toFixed] writes
    [String(x)], which [Number] reads back as [x] (ECMAScript,
    Number::toString, note 1).  [roundTenths] is the number read back;
    [ParseFacts.stringToNumber_toFixed1] proves that it is
    [stringToNumber (toFixed1 x)] below [10^21]. *)
Definition tenths (m : positive) (e : Z) : Z :=
  if 0 <=? e then 10 * Z.pos m * 2 ^ e
  else (20 * Z.pos m + 2 ^ (- e)) / 2 ^ (1 - e).

(** [x.toFixed(1)]: the digits of the integer nearest to [10 * |x|], the
    last of them after the point; [String(x)] from [10^21] on. *)
Definition toFixed1 (x : number) : string :=
  match x with
  | S754_finite s m e =>
      if leb (ofZ (10 ^ 21)) (SFabs x) then numberToString x
      else
        let n := Z.to_N (tenths m e) in
        (if s then "-" else "") ++ decimalDigits (n / 10)%N ++ "." ++ decimalDigits (n mod 10)%N
  | S754_zero _ => "0.0"
  | _ => numberToString x
  end.

Definition roundTenths (x : number) : number :=
  match x with
  | S754_finite s m e =>
      if leb (ofZ (10 ^ 21)) (SFabs x) then x
      else match tenths m e with
           | Zpos n => ofRatio s n 10
           | _ => S754_zero s
           end
  | S754_zero _ => S754_zero false
  | _ => x
  end.

End Js.

(** ** Values of type [unknown] and raw records *)

(** A JavaScript value as [typeof] tells them apart.  [VObject] stands
    for every value that is neither nullish, a boolean, a number nor a
    string: objects, arrays, functions, symbols, bigints. *)
Inductive value : Type :=
  | VUndefined
  | VNull
  | VBoolean (b : bool)
  | VNumber (x : Js.number)
  | VString (s : string)
  | VObject.

(** [Record<string, unknown>]: reading a key that is not there gives
    [undefined]. *)
Abbreviation RawRecord := (gmap string value).

Definition prop (data : RawRecord) (key : string) : value :=
  default VUndefined (data !! key).

(** ** The data model *)

Inductive Severity : Type := low | medium | high.

Inductive Level : Type := good | watch | action.

(** [HealthOnboardingPayload] of components/MultiStepOnboarding; an
    optional field that is [undefined] is [None]. *)
Record HealthSnapshot : Type := mkSnapshot {
  full_name : string;
  age : option Js.number;
  sex : option string;
  height : option Js.number;
  weight : option Js.number;
  blood_type : option string;
  allergies : option string;
  conditions : option string;
  medications : option string;
  medical_history : option string;
  past_reports : option string;
  prescriptions : option string;
  symptoms_current : option string;
  symptoms_past : option string;
  location : option string;
  smoking_status : option string;
  alcohol_consumption : option string;
  exercise_frequency : option string;
  diet_type : option string;
  sleep_hours : option Js.number;
  stress_level : option string;
  family_history : option string;
  health_goals : option string;
  emergency_contact_name : option string;
  emergency_contact_phone : option string;
  blood_pressure : option string;
  heart_rate : option Js.number;
  temperature_c : option Js.number;
  spo2 : option Js.number;
  diagnosis : option string;
  treatment_plan : option string;
  doctor_notes : option string
}.

Module HealthInsight.
Record t : Type := mk {
  title : string;
  detail : string;
  action : string;
  severity : Severity
}.
End HealthInsight.

Module Recommendation.
Record t : Type := mk {
  specialty : string;
  title : string;
  reason : string;
  urgency : Severity
}.
End Recommendation.

(** The object returned by [summarizeStatus]. *)
Record Status : Type := mkStatus {
  level : Level;
  summary : string;
  bmi : option Js.number;
  reasons : list string
}.

(** ** Normalizer *)

(** [x || undefined] on a string: the empty string is falsy. *)
Definition nonEmpty (s : string) : option string :=
  if String.eqb s "" then None else Some s.

Definition stringVal (v : value) : option string :=
  match v with
  | VString s => nonEmpty (Js.trim s)
  | VNumber x => if Js.isFinite x then Some (Js.numberToString x) else None
  | _ => None
  end.

Definition numberVal (v : value) : option Js.number :=
  match v with
  | VNumber x => if Js.isFinite x then Some x else None
  | VString s =>
      let num := Js.stringToNumber (Js.trim s) in
      if Js.isFinite num then Some num else None
  | _ => None
  end.

Definition normalizeOnboardingData (raw : option RawRecord) : HealthSnapshot :=
  let data : RawRecord := default ∅ raw in
  {| full_name := default "" (stringVal (prop data "full_name"));
     age := numberVal (prop data "age");
     sex := stringVal (prop data "sex");
     height := numberVal (prop data "height");
     weight := numberVal (prop data "weight");
     blood_type := stringVal (prop data "blood_type");
     allergies := stringVal (prop data "allergies");
     conditions := stringVal (prop data "conditions");
     medications := stringVal (prop data "medications");
     medical_history := stringVal (prop data "medical_history");
     past_reports := stringVal (prop data "past_reports");
     prescriptions := stringVal (prop data "prescriptions");
     symptoms_current := stringVal (prop data "symptoms_current");
     symptoms_past := stringVal (prop data "symptoms_past");
     location := stringVal (prop data "location");
     smoking_status := stringVal (prop data "smoking_status");
     alcohol_consumption := stringVal (prop data "alcohol_consumption");
     exercise_frequency := stringVal (prop data "exercise_frequency");
     diet_type := stringVal (prop data "diet_type");
     sleep_hours := numberVal (prop data "sleep_hours");
     stress_level := stringVal (prop data "stress_level");
     family_history := stringVal (prop data "family_history");
     health_goals := stringVal (prop data "health_goals");
     emergency_contact_name := stringVal (prop data "emergency_contact_name");
     emergency_contact_phone := stringVal (prop data "emergency_contact_phone");
     blood_pressure := stringVal (prop data "blood_pressure");
     heart_rate := numberVal (prop data "heart_rate");
     temperature_c := numberVal (prop data "temperature_c");
     spo2 := numberVal (prop data "spo2");
     diagnosis := None;
     treatment_plan := None;
     doctor_notes := None |}.

(** ** Risk scorer *)

(** Truthiness of an optional number: [undefined], [null], [0], [-0] and
    [NaN] are falsy. *)
Definition truthyNumber (o : option Js.number) : bool :=
  match o with
  | Some x => Js.truthy x
  | None => false
  end.

Definition computeBMI (heightCm weightKg : option Js.number) : option Js.number :=
  match heightCm, weightKg with
  | Some h, Some w =>
      if negb (Js.truthy h) || negb (Js.truthy w) then None else
      let heightM := Js.div h (Js.ofZ 100) in
      if Js.leb heightM (Js.ofZ 0) then None else
      let bmi := Js.div w (Js.mul heightM heightM) in
      if Js.isFinite bmi then Some (Js.roundTenths bmi) else None
  | _, _ => None
  end.

Definition hasKeyword (text : option string) (keywords : list string) : bool :=
  match text with
  | None => false
  | Some t =>
      if String.eqb t "" then false else
      let lower := Js.toLowerCase t in
      existsb (fun k => Js.includes lower k) keywords
  end.

(** [field === s] on an optional string. *)
Definition strictEq (field : option string) (s : string) : bool :=
  match field with
  | Some t => String.eqb t s
  | None => false
  end.

(** [field !== undefined && test field] on an optional number. *)
Definition defined (field : option Js.number) (test : Js.number -> bool) : bool :=
  match field with
  | Some x => test x
  | None => false
  end.

(** The two variables [score] and [reasons] of [summarizeStatus]. *)
Definition Tally : Type := Z * list string.

(** [score += delta; reasons.push(reason)]. *)
Definition flag (delta : Z) (reason : string) (t : Tally) : Tally :=
  (fst t + delta, (snd t ++ [reason])%list).

Definition checkBmi (bmi : option Js.number) (t : Tally) : Tally :=
  match bmi with
  | Some b =>
      if Js.truthy b then
        if Js.geb b (Js.ofZ 30) then flag 2 "BMI in obese range" t
        else if Js.geb b (Js.ofZ 25) then flag 1 "BMI in overweight range" t
        else t
      else t
  | None => t
  end.

Definition checkSleep (data : HealthSnapshot) (t : Tally) : Tally :=
  if defined (sleep_hours data) (fun x => Js.ltb x (Js.ofZ 6))
  then flag 1 "Low sleep (<6h)" t else t.

Definition checkStress (data : HealthSnapshot) (t : Tally) : Tally :=
  if strictEq (stress_level data) "high" || strictEq (stress_level data) "very_high"
  then flag 1 "Elevated stress" t else t.

Definition checkSmoking (data : HealthSnapshot) (t : Tally) : Tally :=
  if strictEq (smoking_status data) "regular" then flag 2 "Smoking habit" t
  else if strictEq (smoking_status data) "occasional" || strictEq (smoking_status data) "former"
  then flag 1 "Smoking history" t else t.

Definition checkAlcohol (data : HealthSnapshot) (t : Tally) : Tally :=
  if strictEq (alcohol_consumption data) "heavy" then flag 2 "Heavy alcohol intake" t
  else if strictEq (alcohol_consumption data) "moderate"
  then flag 1 "Moderate alcohol intake" t else t.

Definition checkHeartRate (data : HealthSnapshot) (t : Tally) : Tally :=
  if defined (heart_rate data) (fun x => Js.gtb x (Js.ofZ 100))
  then flag 1 "Elevated heart rate" t else t.

Definition checkTemperature (data : HealthSnapshot) (t : Tally) : Tally :=
  if defined (temperature_c data) (fun x => Js.geb x (Js.ofDecimal false 378 (-1)))
  then flag 1 "Fever-range temperature" t else t.

Definition checkSpo2 (data : HealthSnapshot) (t : Tally) : Tally :=
  if defined (spo2 data) (fun x => Js.ltb x (Js.ofZ 94))
  then flag 1 "Low oxygen saturation" t else t.

Definition checkFamilyHistory (data : HealthSnapshot) (t : Tally) : Tally :=
  if hasKeyword (family_history data) ["heart"; "cardiac"; "stroke"]
  then flag 1 "Cardiovascular family history" t else t.

Definition checkConditions (data : HealthSnapshot) (t : Tally) : Tally :=
  if hasKeyword (conditions data) ["diab"; "hypertension"; "bp"; "blood pressure"]
  then flag 1 "Chronic condition risk" t else t.

(** The ten [if] statements of [summarizeStatus], in the order of the
    source, from [score = 0] and [reasons = []]. *)
Definition tallyStatus (data : HealthSnapshot) (bmi : option Js.number) : Tally :=
  let t : Tally := (0, []) in
  let t := checkBmi bmi t in
  let t := checkSleep data t in
  let t := checkStress data t in
  let t := checkSmoking data t in
  let t := checkAlcohol data t in
  let t := checkHeartRate data t in
  let t := checkTemperature data t in
  let t := checkSpo2 data t in
  let t := checkFamilyHistory data t in
  let t := checkConditions data t in
  t.

Definition levelOf (score : Z) : Level :=
  if 4 <=? score then action else if 2 <=? score then watch else good.

Definition summaryOf (l : Level) : string :=
  match l with
  | good => "Stable baseline with no major red flags detected."
  | watch => "Some risk factors detected. Monitor and address them proactively."
  | action => "Multiple risk factors detected. Consider clinician follow-up."
  end.

Definition summarizeStatus (data : HealthSnapshot) : Status :=
  let bmi := computeBMI (height data) (weight data) in
  let '(score, reasons) := tallyStatus data bmi in
  let level := levelOf score in
  {| level := level; summary := summaryOf level; bmi := bmi; reasons := reasons |}.

(** ** Insight generator *)

(** Truthiness of an optional string: [undefined] and [""] are falsy. *)
Definition truthyString (o : option string) : bool :=
  match o with
  | Some s => negb (String.eqb s "")
  | None => false
  end.

(** The text a template literal puts for an optional field. *)
Definition showString (o : option string) : string := default "undefined" o.
Definition showNumber (o : option Js.number) : string :=
  match o with
  | Some x => Js.numberToString x
  | None => "undefined"
  end.

(** [if (c) insights.push(x)]. *)
Definition pushIf {A : Type} (c : bool) (x : A) (l : list A) : list A :=
  if c then (l ++ [x])%list else l.

Definition overallInsight (status : Status) : HealthInsight.t :=
  {| HealthInsight.title := "Overall status";
     HealthInsight.detail := summary status;
     HealthInsight.action :=
       match level status with
       | action => "Schedule a clinician review to address the highlighted risks."
       | watch => "Track metrics weekly and adjust lifestyle factors."
       | good => "Maintain current habits and continue periodic check-ins."
       end;
     HealthInsight.severity :=
       match level status with action => high | watch => medium | good => low end |}.

Inductive BmiCategory : Type := obese | overweight | underweight | healthy.

Definition bmiCategory (b : Js.number) : BmiCategory :=
  if Js.geb b (Js.ofZ 30) then obese
  else if Js.geb b (Js.ofZ 25) then overweight
  else if Js.ltb b (Js.ofDecimal false 185 (-1)) then underweight
  else healthy.

Definition categoryName (cat : BmiCategory) : string :=
  match cat with
  | obese => "obese"
  | overweight => "overweight"
  | underweight => "underweight"
  | healthy => "healthy"
  end.

Definition bodyInsight (b : Js.number) : HealthInsight.t :=
  let cat := bmiCategory b in
  {| HealthInsight.title := "Body composition";
     HealthInsight.detail := "BMI " ++ Js.numberToString b ++ " (" ++ categoryName cat ++ ").";
     HealthInsight.action :=
       match cat with
       | healthy => "Keep balanced nutrition and activity levels."
       | _ => "Aim for gradual changes (sleep, nutrition, activity); consider a clinician or dietitian check-in."
       end;
     HealthInsight.severity :=
       match cat with healthy => low | overweight => medium | _ => high end |}.

Definition buildInsights (data : HealthSnapshot) : list HealthInsight.t :=
  let status := summarizeStatus data in
  let insights := [overallInsight status] in
  let insights :=
    match bmi status with
    | Some b => pushIf (Js.truthy b) (bodyInsight b) insights
    | None => insights
    end in
  let insights :=
    pushIf (defined (sleep_hours data) (fun x => Js.ltb x (Js.ofZ 7)))
      {| HealthInsight.title := "Sleep hygiene";
         HealthInsight.detail :=
           "Average sleep " ++ showNumber (sleep_hours data) ++ "h — below the 7–9h target.";
         HealthInsight.action :=
           "Set a regular schedule, reduce caffeine late day, and wind-down 60 minutes before bed.";
         HealthInsight.severity :=
           if defined (sleep_hours data) (fun x => Js.ltb x (Js.ofZ 6)) then high else medium |}
      insights in
  let insights :=
    pushIf (defined (heart_rate data) (fun x => Js.gtb x (Js.ofZ 100)))
      {| HealthInsight.title := "Heart rate";
         HealthInsight.detail :=
           "Resting heart rate " ++ showNumber (heart_rate data) ++ " bpm — above normal range.";
         HealthInsight.action :=
           "If persistent, discuss with a clinician; check hydration, caffeine, and stress.";
         HealthInsight.severity := medium |}
      insights in
  let insights :=
    pushIf (defined (temperature_c data) (fun x => Js.geb x (Js.ofDecimal false 378 (-1))))
      {| HealthInsight.title := "Fever signal";
         HealthInsight.detail := "Temperature " ++ showNumber (temperature_c data) ++ "°C.";
         HealthInsight.action := "Monitor symptoms and seek care if fever persists or worsens.";
         HealthInsight.severity := medium |}
      insights in
  let insights :=
    pushIf (defined (spo2 data) (fun x => Js.ltb x (Js.ofZ 94)))
      {| HealthInsight.title := "Oxygen saturation";
         HealthInsight.detail := "SpO₂ " ++ showNumber (spo2 data) ++ "% — below typical baseline.";
         HealthInsight.action := "If symptomatic (e.g., breathlessness), consider urgent evaluation.";
         HealthInsight.severity := high |}
      insights in
  let insights :=
    pushIf (truthyString (symptoms_current data))
      {| HealthInsight.title := "Current symptoms";
         HealthInsight.detail := default "" (symptoms_current data);
         HealthInsight.action := "Used to triage and tailor recommendations.";
         HealthInsight.severity := medium |}
      insights in
  let insights :=
    pushIf (strictEq (stress_level data) "high" || strictEq (stress_level data) "very_high")
      {| HealthInsight.title := "Stress load";
         HealthInsight.detail :=
           "Reported stress: "
           ++ showString (option_map (fun s => Js.replace s "_" " ") (stress_level data));
         HealthInsight.action :=
           "Integrate brief daily decompression (breathing, walks) and consider speaking with a counselor.";
         HealthInsight.severity := medium |}
      insights in
  let insights :=
    pushIf (truthyString (exercise_frequency data)
            && (strictEq (exercise_frequency data) "sedentary"
                || strictEq (exercise_frequency data) "light"))
      {| HealthInsight.title := "Activity level";
         HealthInsight.detail := "Exercise: " ++ showString (exercise_frequency data) ++ ".";
         HealthInsight.action :=
           "Target 150 minutes/week of moderate activity; start with 10–20 minute walks most days.";
         HealthInsight.severity := medium |}
      insights in
  let insights :=
    pushIf (strictEq (smoking_status data) "regular" || strictEq (smoking_status data) "occasional")
      {| HealthInsight.title := "Tobacco risk";
         HealthInsight.detail := "Smoking status: " ++ showString (smoking_status data) ++ ".";
         HealthInsight.action :=
           "Discuss cessation aids and lung screening timeline with a clinician.";
         HealthInsight.severity :=
           if strictEq (smoking_status data) "regular" then high else medium |}
      insights in
  let insights :=
    pushIf (strictEq (alcohol_consumption data) "heavy"
            || strictEq (alcohol_consumption data) "moderate")
      {| HealthInsight.title := "Alcohol use";
         HealthInsight.detail := "Alcohol intake: " ++ showString (alcohol_consumption data) ++ ".";
         HealthInsight.action :=
           "Limit to within recommended guidelines; consider alcohol-free days each week.";
         HealthInsight.severity :=
           if strictEq (alcohol_consumption data) "heavy" then high else medium |}
      insights in
  let insights :=
    pushIf (hasKeyword (family_history data) ["heart"; "stroke"; "cancer"])
      {| HealthInsight.title := "Family history flags";
         HealthInsight.detail := "Family history includes cardiovascular or cancer risk.";
         HealthInsight.action :=
           "Share this with your primary doctor; adhere to screening intervals earlier where indicated.";
         HealthInsight.severity := medium |}
      insights in
  let insights :=
    pushIf (truthyString (conditions data))
      {| HealthInsight.title := "Chronic conditions";
         HealthInsight.detail := "Reported: " ++ showString (conditions data) ++ ".";
         HealthInsight.action :=
           "Ensure medications are reconciled and monitoring plans are in place.";
         HealthInsight.severity := medium |}
      insights in
  insights.

(** ** Recommendation generator *)

(** The closure [add]: pushes [rec] unless an entry of [recs] has its
    specialty already. *)
Definition add (rec : Recommendation.t) (recs : list Recommendation.t) : list Recommendation.t :=
  match List.find (fun r => String.eqb (Recommendation.specialty r) (Recommendation.specialty rec)) recs with
  | Some _ => recs
  | None => (recs ++ [rec])%list
  end.

(** [a ?? b] on an optional string. *)
Definition orElse (a b : option string) : option string :=
  match a with
  | Some _ => a
  | None => b
  end.

Definition symptomText (data : HealthSnapshot) : string :=
  default "" (orElse (symptoms_current data) (orElse (conditions data) (symptoms_past data))).

Definition cardiologyRec (symptoms : string) : Recommendation.t :=
  {| Recommendation.specialty := "Cardiology";
     Recommendation.title := "Cardiology consult";
     Recommendation.reason := "Cardio risk signals (symptoms or family history).";
     Recommendation.urgency :=
       if hasKeyword (Some symptoms) ["chest pain"; "shortness of breath"] then high else medium |}.

Definition pulmonologyRec (data : HealthSnapshot) : Recommendation.t :=
  {| Recommendation.specialty := "Pulmonology";
     Recommendation.title := "Lung health review";
     Recommendation.reason := "Respiratory symptoms or smoking history.";
     Recommendation.urgency := if strictEq (smoking_status data) "regular" then medium else low |}.

Definition endocrinologyRec : Recommendation.t :=
  {| Recommendation.specialty := "Endocrinology";
     Recommendation.title := "Metabolic check";
     Recommendation.reason := "Metabolic flags (diabetes or glucose concerns).";
     Recommendation.urgency := medium |}.

Definition behavioralRec : Recommendation.t :=
  {| Recommendation.specialty := "Behavioral Health";
     Recommendation.title := "Stress & mood support";
     Recommendation.reason := "Elevated stress reported.";
     Recommendation.urgency := medium |}.

Definition cardiologyTrigger (data : HealthSnapshot) : bool :=
  hasKeyword (Some (symptomText data)) ["chest pain"; "shortness of breath"; "palpitations"]
  || hasKeyword (family_history data) ["heart"; "cardiac"]
  || hasKeyword (conditions data) ["hypertension"].

Definition pulmonologyTrigger (data : HealthSnapshot) : bool :=
  hasKeyword (Some (symptomText data)) ["cough"; "wheez"; "asthma"]
  || strictEq (smoking_status data) "regular".

Definition endocrinologyTrigger (data : HealthSnapshot) : bool :=
  hasKeyword (Some (symptomText data)) ["blood sugar"; "glucose"]
  || hasKeyword (conditions data) ["diab"].

Definition behavioralTrigger (data : HealthSnapshot) : bool :=
  strictEq (stress_level data) "high" || strictEq (stress_level data) "very_high".

(** The array [recs] when the four rules have run, before [slice]. *)
Definition collectRecommendations (data : HealthSnapshot) : list Recommendation.t :=
  let recs := [] in
  let symptoms := symptomText data in
  let recs := if cardiologyTrigger data then add (cardiologyRec symptoms) recs else recs in
  let recs := if pulmonologyTrigger data then add (pulmonologyRec data) recs else recs in
  let recs := if endocrinologyTrigger data then add endocrinologyRec recs else recs in
  let recs := if behavioralTrigger data then add behavioralRec recs else recs in
  recs.

Definition buildRecommendations (data : HealthSnapshot) : list Recommendation.t :=
  firstn 4 (collectRecommendations data).

(** ** The numeric coercion of the onboarding form

    [numberOrUndefined] of components/MultiStepOnboarding, which feeds the
    same numeric fields from the form's inputs. *)
Definition numberOrUndefined (v : string) : option Js.number :=
  let cleaned := Js.trim v in
  if String.eqb cleaned "" then None else
  let num := Js.stringToNumber cleaned in
  if Js.isFinite num then Some num else None.


(** ** The health dashboard (components/HealthDashboard)

    The texts the component computes for its cells, from the snapshot
    [normalizeOnboardingData(onboardingRaw)]. *)
Module Dashboard.

(** [formatNumber(value, suffix)]; [undefined] and [null] are [None]. *)
Definition formatNumber (v : option Js.number) (suffix : option string) : string :=
  match v with
  | None => "Not provided"
  | Some x =>
      match suffix with
      | Some sfx =>
          if String.eqb sfx "" then Js.numberToString x
          else Js.numberToString x ++ " " ++ sfx
      | None => Js.numberToString x
      end
  end.

Definition fieldText (v : option string) : string := default "Not provided" v.

(** [data.full_name || user.name || 'Your profile']. *)
Definition heading (data : HealthSnapshot) (userName : option string) : string :=
  if negb (String.eqb (full_name data) "") then full_name data
  else if truthyString userName then default "" userName
  else "Your profile".

Definition statusLabel (l : Level) : string :=
  match l with
  | good => "Stable"
  | watch => "Watch"
  | action => "Action needed"
  end.

(** [{bmi ? bmi : 'Not enough data'}] with [bmi = computeBMI(data.height,
    data.weight)]. *)
Definition bmiCell (data : HealthSnapshot) : string :=
  match computeBMI (height data) (weight data) with
  | Some b => if Js.truthy b then Js.numberToString b else "Not enough data"
  | None => "Not enough data"
  end.

(** [{data.sleep_hours ? `${data.sleep_hours}h` : 'Not provided'}]. *)
Definition sleepCell (data : HealthSnapshot) : string :=
  match sleep_hours data with
  | Some x => if Js.truthy x then Js.numberToString x ++ "h" else "Not provided"
  | None => "Not provided"
  end.

Definition temperatureCell (data : HealthSnapshot) : string :=
  match temperature_c data with
  | Some x => Js.numberToString x ++ "°C"
  | None => "Not provided"
  end.

Definition spo2Cell (data : HealthSnapshot) : string :=
  match spo2 data with
  | Some x => Js.numberToString x ++ "%"
  | None => "Not provided"
  end.

(** The text cells of the profile card, in the order of the markup. *)
Definition cells (data : HealthSnapshot) (userName userEmail : option string) : list string :=
  [ heading data userName; statusLabel (level (summarizeStatus data));
    default "Not provided" userEmail; formatNumber (age data) None; fieldText (sex data);
    formatNumber (height data) (Some "cm"); formatNumber (weight data) (Some "kg");
    bmiCell data; fieldText (location data);
    fieldText (medical_history data); fieldText (past_reports data);
    fieldText (prescriptions data); fieldText (conditions data); fieldText (medications data);
    fieldText (allergies data); fieldText (blood_type data); fieldText (family_history data);
    fieldText (exercise_frequency data); fieldText (diet_type data);
    fieldText (smoking_status data); fieldText (alcohol_consumption data); sleepCell data;
    fieldText (stress_level data);
    fieldText (symptoms_current data); fieldText (symptoms_past data);
    fieldText (blood_pressure data); formatNumber (heart_rate data) (Some "bpm");
    temperatureCell data; spo2Cell data;
    fieldText (health_goals data); fieldText (emergency_contact_name data);
    fieldText (emergency_contact_phone data) ].

End Dashboard.

(** ** The overview page (components/OverviewPage)

    The page has a BMI and a health status of its own, computed from the
    normalized snapshot the application passes it, or from [null]. *)
Module Overview.

(** The local [computeBMI]: a text, or [null]. *)
Definition computeBMI (height weight : option Js.number) : option string :=
  match height, weight with
  | Some h, Some w =>
      if negb (Js.truthy h) || negb (Js.truthy w) then None else
      let heightM := Js.div h (Js.ofZ 100) in
      Some (Js.toFixed1 (Js.div w (Js.mul heightM heightM)))
  | _, _ => None
  end.

Record HealthStatus : Type := mkHealthStatus { status : string; color : string }.

Definition getHealthStatus (onboardingData : option HealthSnapshot) : HealthStatus :=
  if truthyString (onboardingData ≫= symptoms_current)
  then mkHealthStatus "Needs Attention" "attention"
  else if truthyString (onboardingData ≫= conditions)
  then mkHealthStatus "Under Care" "watch"
  else mkHealthStatus "Stable" "good".

(** [bmi || '—'] of the statistics row. *)
Definition bmiStat (onboardingData : option HealthSnapshot) : string :=
  match computeBMI (onboardingData ≫= height) (onboardingData ≫= weight) with
  | Some s => if String.eqb s "" then "—" else s
  | None => "—"
  end.

End Overview.

(** ** The onboarding questionnaire (components/MultiStepOnboarding)

    The state of [HealthQuestionnaire] that its handlers read and write:
    [currentStep], [data] and [error].  The form is taken as enabled
    ([disabled] false). *)
Module Questionnaire.

(** [STEPS.length]: Essentials, Medical history, Symptoms & location. *)
Definition stepCount : Z := 3.

Record Form : Type := mkForm {
  currentStep : Z;
  data : HealthSnapshot;
  error : option string
}.

(** [{ full_name: name }] with every other field [undefined]. *)
Definition emptyData (name : string) : HealthSnapshot :=
  {| full_name := name; age := None; sex := None; height := None; weight := None;
     blood_type := None; allergies := None; conditions := None; medications := None;
     medical_history := None; past_reports := None; prescriptions := None;
     symptoms_current := None; symptoms_past := None; location := None;
     smoking_status := None; alcohol_consumption := None; exercise_frequency := None;
     diet_type := None; sleep_hours := None; stress_level := None; family_history := None;
     health_goals := None; emergency_contact_name := None; emergency_contact_phone := None;
     blood_pressure := None; heart_rate := None; temperature_c := None; spo2 := None;
     diagnosis := None; treatment_plan := None; doctor_notes := None |}.

(** The three [useState] initial values. *)
Definition initial : Form := mkForm 0 (emptyData "") None.

(** [{ ...prev, field: x }] for the fields the steps write. *)
Definition with_full_name (x : string) (d : HealthSnapshot) : HealthSnapshot :=
  mkSnapshot
    x (age d) (sex d) (height d) (weight d) (blood_type d) (allergies d) (conditions d)
    (medications d) (medical_history d) (past_reports d) (prescriptions d) (symptoms_current d)
    (symptoms_past d) (location d) (smoking_status d) (alcohol_consumption d)
    (exercise_frequency d) (diet_type d) (sleep_hours d) (stress_level d) (family_history d)
    (health_goals d) (emergency_contact_name d) (emergency_contact_phone d) (blood_pressure d)
    (heart_rate d) (temperature_c d) (spo2 d) (diagnosis d) (treatment_plan d) (doctor_notes d).

Definition with_age (x : option Js.number) (d : HealthSnapshot) : HealthSnapshot :=
  mkSnapshot
    (full_name d) x (sex d) (height d) (weight d) (blood_type d) (allergies d) (conditions d)
    (medications d) (medical_history d) (past_reports d) (prescriptions d) (symptoms_current d)
    (symptoms_past d) (location d) (smoking_status d) (alcohol_consumption d)
    (exercise_frequency d) (diet_type d) (sleep_hours d) (stress_level d) (family_history d)
    (health_goals d) (emergency_contact_name d) (emergency_contact_phone d) (blood_pressure d)
    (heart_rate d) (temperature_c d) (spo2 d) (diagnosis d) (treatment_plan d) (doctor_notes d).

Definition with_sex (x : option string) (d : HealthSnapshot) : HealthSnapshot :=
  mkSnapshot
    (full_name d) (age d) x (height d) (weight d) (blood_type d) (allergies d) (conditions d)
    (medications d) (medical_history d) (past_reports d) (prescriptions d) (symptoms_current d)
    (symptoms_past d) (location d) (smoking_status d) (alcohol_consumption d)
    (exercise_frequency d) (diet_type d) (sleep_hours d) (stress_level d) (family_history d)
    (health_goals d) (emergency_contact_name d) (emergency_contact_phone d) (blood_pressure d)
    (heart_rate d) (temperature_c d) (spo2 d) (diagnosis d) (treatment_plan d) (doctor_notes d).

Definition with_height (x : option Js.number) (d : HealthSnapshot) : HealthSnapshot :=
  mkSnapshot
    (full_name d) (age d) (sex d) x (weight d) (blood_type d) (allergies d) (conditions d)
    (medications d) (medical_history d) (past_reports d) (prescriptions d) (symptoms_current d)
    (symptoms_past d) (location d) (smoking_status d) (alcohol_consumption d)
    (exercise_frequency d) (diet_type d) (sleep_hours d) (stress_level d) (family_history d)
    (health_goals d) (emergency_contact_name d) (emergency_contact_phone d) (blood_pressure d)
    (heart_rate d) (temperature_c d) (spo2 d) (diagnosis d) (treatment_plan d) (doctor_notes d).

Definition with_weight (x : option Js.number) (d : HealthSnapshot) : HealthSnapshot :=
  mkSnapshot
    (full_name d) (age d) (sex d) (height d) x (blood_type d) (allergies d) (conditions d)
    (medications d) (medical_history d) (past_reports d) (prescriptions d) (symptoms_current d)
    (symptoms_past d) (location d) (smoking_status d) (alcohol_consumption d)
    (exercise_frequency d) (diet_type d) (sleep_hours d) (stress_level d) (family_history d)
    (health_goals d) (emergency_contact_name d) (emergency_contact_phone d) (blood_pressure d)
    (heart_rate d) (temperature_c d) (spo2 d) (diagnosis d) (treatment_plan d) (doctor_notes d).

Definition with_blood_type (x : option string) (d : HealthSnapshot) : HealthSnapshot :=
  mkSnapshot
    (full_name d) (age d) (sex d) (height d) (weight d) x (allergies d) (conditions d)
    (medications d) (medical_history d) (past_reports d) (prescriptions d) (symptoms_current d)
    (symptoms_past d) (location d) (smoking_status d) (alcohol_consumption d)
    (exercise_frequency d) (diet_type d) (sleep_hours d) (stress_level d) (family_history d)
    (health_goals d) (emergency_contact_name d) (emergency_contact_phone d) (blood_pressure d)
    (heart_rate d) (temperature_c d) (spo2 d) (diagnosis d) (treatment_plan d) (doctor_notes d).

Definition with_medical_history (x : option string) (d : HealthSnapshot) : HealthSnapshot :=
  mkSnapshot
    (full_name d) (age d) (sex d) (height d) (weight d) (blood_type d) (allergies d)
    (conditions d) (medications d) x (past_reports d) (prescriptions d) (symptoms_current d)
    (symptoms_past d) (location d) (smoking_status d) (alcohol_consumption d)
    (exercise_frequency d) (diet_type d) (sleep_hours d) (stress_level d) (family_history d)
    (health_goals d) (emergency_contact_name d) (emergency_contact_phone d) (blood_pressure d)
    (heart_rate d) (temperature_c d) (spo2 d) (diagnosis d) (treatment_plan d) (doctor_notes d).

Definition with_past_reports (x : option string) (d : HealthSnapshot) : HealthSnapshot :=
  mkSnapshot
    (full_name d) (age d) (sex d) (height d) (weight d) (blood_type d) (allergies d)
    (conditions d) (medications d) (medical_history d) x (prescriptions d) (symptoms_current d)
    (symptoms_past d) (location d) (smoking_status d) (alcohol_consumption d)
    (exercise_frequency d) (diet_type d) (sleep_hours d) (stress_level d) (family_history d)
    (health_goals d) (emergency_contact_name d) (emergency_contact_phone d) (blood_pressure d)
    (heart_rate d) (temperature_c d) (spo2 d) (diagnosis d) (treatment_plan d) (doctor_notes d).

Definition with_prescriptions (x : option string) (d : HealthSnapshot) : HealthSnapshot :=
  mkSnapshot
    (full_name d) (age d) (sex d) (height d) (weight d) (blood_type d) (allergies d)
    (conditions d) (medications d) (medical_history d) (past_reports d) x (symptoms_current d)
    (symptoms_past d) (location d) (smoking_status d) (alcohol_consumption d)
    (exercise_frequency d) (diet_type d) (sleep_hours d) (stress_level d) (family_history d)
    (health_goals d) (emergency_contact_name d) (emergency_contact_phone d) (blood_pressure d)
    (heart_rate d) (temperature_c d) (spo2 d) (diagnosis d) (treatment_plan d) (doctor_notes d).

Definition with_medications (x : option string) (d : HealthSnapshot) : HealthSnapshot :=
  mkSnapshot
    (full_name d) (age d) (sex d) (height d) (weight d) (blood_type d) (allergies d)
    (conditions d) x (medical_history d) (past_reports d) (prescriptions d)
    (symptoms_current d) (symptoms_past d) (location d) (smoking_status d)
    (alcohol_consumption d) (exercise_frequency d) (diet_type d) (sleep_hours d)
    (stress_level d) (family_history d) (health_goals d) (emergency_contact_name d)
    (emergency_contact_phone d) (blood_pressure d) (heart_rate d) (temperature_c d) (spo2 d)
    (diagnosis d) (treatment_plan d) (doctor_notes d).

Definition with_allergies (x : option string) (d : HealthSnapshot) : HealthSnapshot :=
  mkSnapshot
    (full_name d) (age d) (sex d) (height d) (weight d) (blood_type d) x (conditions d)
    (medications d) (medical_history d) (past_reports d) (prescriptions d) (symptoms_current d)
    (symptoms_past d) (location d) (smoking_status d) (alcohol_consumption d)
    (exercise_frequency d) (diet_type d) (sleep_hours d) (stress_level d) (family_history d)
    (health_goals d) (emergency_contact_name d) (emergency_contact_phone d) (blood_pressure d)
    (heart_rate d) (temperature_c d) (spo2 d) (diagnosis d) (treatment_plan d) (doctor_notes d).

Definition with_conditions (x : option string) (d : HealthSnapshot) : HealthSnapshot :=
  mkSnapshot
    (full_name d) (age d) (sex d) (height d) (weight d) (blood_type d) (allergies d) x
    (medications d) (medical_history d) (past_reports d) (prescriptions d) (symptoms_current d)
    (symptoms_past d) (location d) (smoking_status d) (alcohol_consumption d)
    (exercise_frequency d) (diet_type d) (sleep_hours d) (stress_level d) (family_history d)
    (health_goals d) (emergency_contact_name d) (emergency_contact_phone d) (blood_pressure d)
    (heart_rate d) (temperature_c d) (spo2 d) (diagnosis d) (treatment_plan d) (doctor_notes d).

Definition with_symptoms_current (x : option string) (d : HealthSnapshot) : HealthSnapshot :=
  mkSnapshot
    (full_name d) (age d) (sex d) (height d) (weight d) (blood_type d) (allergies d)
    (conditions d) (medications d) (medical_history d) (past_reports d) (prescriptions d) x
    (symptoms_past d) (location d) (smoking_status d) (alcohol_consumption d)
    (exercise_frequency d) (diet_type d) (sleep_hours d) (stress_level d) (family_history d)
    (health_goals d) (emergency_contact_name d) (emergency_contact_phone d) (blood_pressure d)
    (heart_rate d) (temperature_c d) (spo2 d) (diagnosis d) (treatment_plan d) (doctor_notes d).

Definition with_symptoms_past (x : option string) (d : HealthSnapshot) : HealthSnapshot :=
  mkSnapshot
    (full_name d) (age d) (sex d) (height d) (weight d) (blood_type d) (allergies d)
    (conditions d) (medications d) (medical_history d) (past_reports d) (prescriptions d)
    (symptoms_current d) x (location d) (smoking_status d) (alcohol_consumption d)
    (exercise_frequency d) (diet_type d) (sleep_hours d) (stress_level d) (family_history d)
    (health_goals d) (emergency_contact_name d) (emergency_contact_phone d) (blood_pressure d)
    (heart_rate d) (temperature_c d) (spo2 d) (diagnosis d) (treatment_plan d) (doctor_notes d).

Definition with_location (x : option string) (d : HealthSnapshot) : HealthSnapshot :=
  mkSnapshot
    (full_name d) (age d) (sex d) (height d) (weight d) (blood_type d) (allergies d)
    (conditions d) (medications d) (medical_history d) (past_reports d) (prescriptions d)
    (symptoms_current d) (symptoms_past d) x (smoking_status d) (alcohol_consumption d)
    (exercise_frequency d) (diet_type d) (sleep_hours d) (stress_level d) (family_history d)
    (health_goals d) (emergency_contact_name d) (emergency_contact_phone d) (blood_pressure d)
    (heart_rate d) (temperature_c d) (spo2 d) (diagnosis d) (treatment_plan d) (doctor_notes d).

(** The inputs of [StepIntro], [StepMedical] and [StepSymptoms]. *)
Inductive Control : Type :=
  | FullName | Age | Sex | Height | Weight | BloodType
  | MedicalHistory | PastReports | Prescriptions | Medications | Allergies | Conditions
  | SymptomsCurrent | SymptomsPast | Location.

(** The index in [STEPS] of the component that renders the input. *)
Definition stepOf (c : Control) : Z :=
  match c with
  | FullName | Age | Sex | Height | Weight | BloodType => 0
  | MedicalHistory | PastReports | Prescriptions | Medications | Allergies | Conditions => 1
  | SymptomsCurrent | SymptomsPast | Location => 2
  end.

(** The [onChange] of an input with [e.target.value = v], as the update
    of [setData]: [text(v)], [numberOrUndefined(v)] or [v || undefined]. *)
Definition onChange (c : Control) (v : string) : HealthSnapshot -> HealthSnapshot :=
  match c with
  | FullName => with_full_name v
  | Age => with_age (numberOrUndefined v)
  | Sex => with_sex (nonEmpty v)
  | Height => with_height (numberOrUndefined v)
  | Weight => with_weight (numberOrUndefined v)
  | BloodType => with_blood_type (nonEmpty v)
  | MedicalHistory => with_medical_history (nonEmpty v)
  | PastReports => with_past_reports (nonEmpty v)
  | Prescriptions => with_prescriptions (nonEmpty v)
  | Medications => with_medications (nonEmpty v)
  | Allergies => with_allergies (nonEmpty v)
  | Conditions => with_conditions (nonEmpty v)
  | SymptomsCurrent => with_symptoms_current (nonEmpty v)
  | SymptomsPast => with_symptoms_past (nonEmpty v)
  | Location => with_location (nonEmpty v)
  end.

(** [!s.trim()]. *)
Definition blankText (s : string) : bool := String.eqb (Js.trim s) "".

(** [!o?.trim()]. *)
Definition blankField (o : option string) : bool :=
  match o with
  | Some s => blankText s
  | None => true
  end.

Definition validateStep (d : HealthSnapshot) (stepIndex : Z) : option string :=
  if (stepIndex =? 0) && blankText (full_name d) then Some "Full name is required"
  else if stepIndex =? 2 then
    if blankField (symptoms_current d) then Some "Please describe your current symptoms"
    else None
  else None.

Definition handleNext (f : Form) : Form :=
  match validateStep (data f) (currentStep f) with
  | Some validationError => mkForm (currentStep f) (data f) (Some validationError)
  | None => mkForm (Z.min (currentStep f + 1) (stepCount - 1)) (data f) None
  end.

Definition handleBack (f : Form) : Form :=
  mkForm (Z.max (currentStep f - 1) 0) (data f) None.

(** [updateData(updates)]: [setData(prev => ({...prev, ...updates}))]. *)
Definition updateData (updates : HealthSnapshot -> HealthSnapshot) (f : Form) : Form :=
  mkForm (currentStep f) (updates (data f)) (error f).

(** What happens to the form.  [VoiceSummary] and [Located] are the
    updates of [generateVoiceSummary] and [useCurrentLocation], which
    arrive when their requests answer, on whatever step is shown then. *)
Inductive Event : Type :=
  | Continue
  | Back
  | Change (c : Control) (v : string)
  | VoiceSummary (chief_complaint : string)
  | Located (place : string).

(** One event handled by the render it arrives in.  An input is there
    only while its step is shown, the Continue button only before the
    last step, where the submit button takes its place, and the Back
    button is disabled on the first step. *)
Definition react (f : Form) (e : Event) : Form :=
  match e with
  | Continue => if currentStep f =? stepCount - 1 then f else handleNext f
  | Back => if currentStep f =? 0 then f else handleBack f
  | Change c v => if currentStep f =? stepOf c then updateData (onChange c v) f else f
  | VoiceSummary chief_complaint => updateData (with_symptoms_current (Some chief_complaint)) f
  | Located place => updateData (with_location (Some place)) f
  end.

Definition run (events : list Event) (f : Form) : Form := fold_left react events f.

(** The two refs of the voice input when [handleSubmit] runs: nothing
    recorded, or a [generateSummary] whose promise resolves or rejects. *)
Inductive Voice : Type := NoVoice | VoiceResolves | VoiceRejects.

(** What [handleSubmit] does with the [currentStep] and [data] of its
    render: nothing before the last step, an error message, a call of
    [onSubmit] with a payload, or a rejected promise with neither.  The
    summary it awaits goes to the state of a later render: the [data] it
    validates after the [await] is the one it started with. *)
Inductive Outcome : Type :=
  | Ignored
  | Rejected (message : string)
  | Submitted (payload : HealthSnapshot)
  | Thrown.

Definition handleSubmit (voice : Voice) (f : Form) : Outcome :=
  if negb (currentStep f =? stepCount - 1) then Ignored else
  let generates :=
    match voice with
    | NoVoice => false
    | _ => blankField (symptoms_current (data f))
    end in
  if generates && match voice with VoiceRejects => true | _ => false end then Thrown else
  match validateStep (data f) (currentStep f) with
  | Some validationError => Rejected validationError
  | None =>
      let normalizedName := Js.trim (full_name (data f)) in
      if String.eqb normalizedName "" then Rejected "Full name is required" else
      match symptoms_current (data f) with
      | None => Rejected "Please describe your current symptoms"
      | Some s =>
          if blankText s then Rejected "Please describe your current symptoms" else
          let payload :=
            with_full_name normalizedName
              (with_symptoms_current (Some (Js.trim s))
                 (with_location (location (data f) ≫= fun l => nonEmpty (Js.trim l)) (data f))) in
          Submitted payload
      end
  end.

(** The events of the test "collects data across steps and submits", each
    field typed in one go, and the payload the test expects. *)
Definition collectsData : list Event :=
  [ Change FullName "Jane Doe"; Change Age "30"; Continue;
    Change MedicalHistory "Diabetes type 2"; Continue;
    Change SymptomsCurrent "chest pain"; Change Location "Mumbai" ].

Definition collectedPayload : HealthSnapshot :=
  with_full_name "Jane Doe"
    (with_age (Some (Js.ofZ 30))
       (with_medical_history (Some "Diabetes type 2")
          (with_symptoms_current (Some "chest pain")
             (with_location (Some "Mumbai") (emptyData ""))))).

End Questionnaire.

(** ** The specification's risk table

    [containsAny], [riskTable] and [levelMapping] follow the words of the
    specification, to be compared with [summarizeStatus]. *)

(** "contains (case-insensitive substring) any of" a set of keywords. *)
Definition containsAny (text : option string) (keywords : list string) : bool :=
  match text with
  | Some t => existsb (fun k => Js.includes (Js.toLowerCase t) k) keywords
  | None => false
  end.

(** A row of the risk table: condition, score delta, reason. *)
Record RiskRow : Type := mkRow {
  holds : HealthSnapshot -> bool;
  delta : Z;
  reasonText : string
}.

Definition bmiOf (data : HealthSnapshot) : option Js.number :=
  computeBMI (height data) (weight data).

Definition present (field : option Js.number) (test : Js.number -> bool) : bool :=
  match field with
  | Some x => test x
  | None => false
  end.

Definition among (field : option string) (names : list string) : bool :=
  match field with
  | Some s => existsb (String.eqb s) names
  | None => false
  end.

(** Rows 1, 1b, 2, 3, 4, 4b, 5, 5b, 6, 7, 8, 9, 10 of the risk table; an
    "else" row holds when the row above it does not. *)
Definition riskTable : list RiskRow :=
  let obeseRow d := present (bmiOf d) (fun b => Js.geb b (Js.ofZ 30)) in
  let regular d := among (smoking_status d) ["regular"] in
  let heavy d := among (alcohol_consumption d) ["heavy"] in
  [ mkRow obeseRow 2 "BMI in obese range";
    mkRow (fun d => negb (obeseRow d) && present (bmiOf d) (fun b => Js.geb b (Js.ofZ 25)))
      1 "BMI in overweight range";
    mkRow (fun d => present (sleep_hours d) (fun x => Js.ltb x (Js.ofZ 6))) 1 "Low sleep (<6h)";
    mkRow (fun d => among (stress_level d) ["high"; "very_high"]) 1 "Elevated stress";
    mkRow regular 2 "Smoking habit";
    mkRow (fun d => negb (regular d) && among (smoking_status d) ["occasional"; "former"])
      1 "Smoking history";
    mkRow heavy 2 "Heavy alcohol intake";
    mkRow (fun d => negb (heavy d) && among (alcohol_consumption d) ["moderate"])
      1 "Moderate alcohol intake";
    mkRow (fun d => present (heart_rate d) (fun x => Js.gtb x (Js.ofZ 100))) 1 "Elevated heart rate";
    mkRow (fun d => present (temperature_c d) (fun x => Js.geb x (Js.ofDecimal false 378 (-1))))
      1 "Fever-range temperature";
    mkRow (fun d => present (spo2 d) (fun x => Js.ltb x (Js.ofZ 94))) 1 "Low oxygen saturation";
    mkRow (fun d => containsAny (family_history d) ["heart"; "cardiac"; "stroke"])
      1 "Cardiovascular family history";
    mkRow (fun d => containsAny (conditions d) ["diab"; "hypertension"; "bp"; "blood pressure"])
      1 "Chronic condition risk" ].

(** The rows whose condition holds, in the order of the table. *)
Definition triggered (data : HealthSnapshot) : list RiskRow :=
  List.filter (fun r => holds r data) riskTable.

Definition scoreOf (rows : list RiskRow) : Z :=
  fold_right (fun r acc => delta r + acc) 0 rows.

(** "score >= 4 -> action; score >= 2 (and < 4) -> watch; else -> good". *)
Definition levelMapping (score : Z) : Level :=
  if 4 <=? score then action
  else if (2 <=? score) && (score <? 4) then watch
  else good.

(** ** Tables of the generators

    The titles of the conditional insights in their fixed order, each with
    the condition of the [if] that pushes it in [buildInsights]. *)
Definition insightTable : list (string * (HealthSnapshot -> bool)) :=
  [ ("Body composition", fun d => truthyNumber (bmiOf d));
    ("Sleep hygiene", fun d => present (sleep_hours d) (fun x => Js.ltb x (Js.ofZ 7)));
    ("Heart rate", fun d => present (heart_rate d) (fun x => Js.gtb x (Js.ofZ 100)));
    ("Fever signal", fun d => present (temperature_c d) (fun x => Js.geb x (Js.ofDecimal false 378 (-1))));
    ("Oxygen saturation", fun d => present (spo2 d) (fun x => Js.ltb x (Js.ofZ 94)));
    ("Current symptoms", fun d => truthyString (symptoms_current d));
    ("Stress load", fun d => among (stress_level d) ["high"; "very_high"]);
    ("Activity level", fun d => among (exercise_frequency d) ["sedentary"; "light"]);
    ("Tobacco risk", fun d => among (smoking_status d) ["regular"; "occasional"]);
    ("Alcohol use", fun d => among (alcohol_consumption d) ["heavy"; "moderate"]);
    ("Family history flags", fun d => containsAny (family_history d) ["heart"; "stroke"; "cancer"]);
    ("Chronic conditions", fun d => truthyString (conditions d)) ].

(** The thirteen titles an insight can have. *)
Definition allTitles : list string :=
  "Overall status" :: List.map fst insightTable.

(** The four rules of the recommendation generator in evaluation order. *)
Definition recommendationRules (data : HealthSnapshot) : list (bool * Recommendation.t) :=
  [ (cardiologyTrigger data, cardiologyRec (symptomText data));
    (pulmonologyTrigger data, pulmonologyRec data);
    (endocrinologyTrigger data, endocrinologyRec);
    (behavioralTrigger data, behavioralRec) ].

(** The recommendations whose rule fires, in evaluation order. *)
Definition firedRecommendations (data : HealthSnapshot) : list Recommendation.t :=
  List.map snd (List.filter fst (recommendationRules data)).

(** Running [add] over candidates from the empty array: what any list of
    rules leaves in [recs]. *)
Definition addAll (cands : list Recommendation.t) : list Recommendation.t :=
  fold_left (fun recs r => add r recs) cands [].

Definition sameSpecialty (r x : Recommendation.t) : bool :=
  String.eqb (Recommendation.specialty x) (Recommendation.specialty r).

(** ** Snapshots as raw records *)

Definition ofString (o : option string) : value :=
  match o with Some s => VString s | None => VUndefined end.

Definition ofNumber (o : option Js.number) : value :=
  match o with Some x => VNumber x | None => VUndefined end.

(** The object [normalizeOnboardingData] returns, read as a raw record. *)
Definition toRaw (s : HealthSnapshot) : RawRecord :=
  list_to_map
    [ ("full_name", VString (full_name s)); ("age", ofNumber (age s));
      ("sex", ofString (sex s)); ("height", ofNumber (height s));
      ("weight", ofNumber (weight s)); ("blood_type", ofString (blood_type s));
      ("allergies", ofString (allergies s)); ("conditions", ofString (conditions s));
      ("medications", ofString (medications s));
      ("medical_history", ofString (medical_history s));
      ("past_reports", ofString (past_reports s));
      ("prescriptions", ofString (prescriptions s));
      ("symptoms_current", ofString (symptoms_current s));
      ("symptoms_past", ofString (symptoms_past s));
      ("location", ofString (location s));
      ("smoking_status", ofString (smoking_status s));
      ("alcohol_consumption", ofString (alcohol_consumption s));
      ("exercise_frequency", ofString (exercise_frequency s));
      ("diet_type", ofString (diet_type s));
      ("sleep_hours", ofNumber (sleep_hours s));
      ("stress_level", ofString (stress_level s));
      ("family_history", ofString (family_history s));
      ("health_goals", ofString (health_goals s));
      ("emergency_contact_name", ofString (emergency_contact_name s));
      ("emergency_contact_phone", ofString (emergency_contact_phone s));
      ("blood_pressure", ofString (blood_pressure s));
      ("heart_rate", ofNumber (heart_rate s));
      ("temperature_c", ofNumber (temperature_c s));
      ("spo2", ofNumber (spo2 s));
      ("diagnosis", ofString (diagnosis s));
      ("treatment_plan", ofString (treatment_plan s));
      ("doctor_notes", ofString (doctor_notes s)) ].

(** ** The invariant of a snapshot *)

Definition finiteOrAbsent (o : option Js.number) : Prop :=
  match o with
  | Some x => Js.isFinite x = true
  | None => True
  end.

Definition trimmed (s : string) : Prop := s <> "" /\ Js.trim s = s.

Definition trimmedOrAbsent (o : option string) : Prop :=
  match o with
  | Some s => trimmed s
  | None => True
  end.

Definition numericFields (s : HealthSnapshot) : list (option Js.number) :=
  [age s; height s; weight s; sleep_hours s; heart_rate s; temperature_c s; spo2 s].

Definition stringFields (s : HealthSnapshot) : list (option string) :=
  [ sex s; blood_type s; allergies s; conditions s; medications s; medical_history s;
    past_reports s; prescriptions s; symptoms_current s; symptoms_past s; location s;
    smoking_status s; alcohol_consumption s; exercise_frequency s; diet_type s;
    stress_level s; family_history s; health_goals s; emergency_contact_name s;
    emergency_contact_phone s; blood_pressure s; diagnosis s; treatment_plan s;
    doctor_notes s ].

Definition wellFormed (s : HealthSnapshot) : Prop :=
  Forall finiteOrAbsent (numericFields s)
  /\ Forall trimmedOrAbsent (stringFields s)
  /\ (full_name s = "" \/ trimmed (full_name s)).

(** ** Fixtures of the test suite *)

(** [{height:170, weight:95, sleep_hours:5, stress_level:"high",
      smoking_status:"regular", alcohol_consumption:"moderate"}]. *)
Definition riskFixture : RawRecord :=
  list_to_map
    [ ("height", VNumber (Js.ofZ 170)); ("weight", VNumber (Js.ofZ 95));
      ("sleep_hours", VNumber (Js.ofZ 5)); ("stress_level", VString "high");
      ("smoking_status", VString "regular"); ("alcohol_consumption", VString "moderate") ].

(** The record of the test "normalizes onboarding data". *)
Definition normalizeFixture : RawRecord :=
  list_to_map
    [ ("full_name", VString " Jane "); ("age", VString "30"); ("height", VString "170");
      ("symptoms_current", VString "cough"); ("location", VString "Mumbai");
      ("heart_rate", VString "110"); ("temperature_c", VString "38.2");
      ("unknown", VString "x") ].

(** The record of the test "builds insights and recommendations from data". *)
Definition dashboardFixture : RawRecord :=
  list_to_map
    [ ("conditions", VString "hypertension"); ("family_history", VString "heart disease");
      ("smoking_status", VString "regular"); ("sleep_hours", VNumber (Js.ofZ 6));
      ("stress_level", VString "high"); ("symptoms_current", VString "chest pain");
      ("location", VString "Mumbai") ].

(** The record of the test of the dashboard, "renders key patient profile
    fields and AI recommendations". *)
Definition profileFixture : RawRecord :=
  list_to_map
    [ ("full_name", VString "Jane Doe"); ("age", VNumber (Js.ofZ 32)); ("sex", VString "female");
      ("height", VNumber (Js.ofZ 170)); ("weight", VNumber (Js.ofZ 70));
      ("blood_type", VString "O+"); ("medical_history", VString "Diabetes type 2");
      ("past_reports", VString "HbA1c 7.2%"); ("prescriptions", VString "Metformin 500mg BID");
      ("conditions", VString "Hypertension"); ("allergies", VString "Penicillin");
      ("symptoms_current", VString "Chest pain and shortness of breath");
      ("symptoms_past", VString "Occasional dizziness"); ("location", VString "Mumbai");
      ("heart_rate", VNumber (Js.ofZ 105));
      ("temperature_c", VNumber (Js.ofDecimal false 379 (-1)));
      ("spo2", VNumber (Js.ofZ 93)); ("exercise_frequency", VString "light");
      ("diet_type", VString "vegetarian"); ("smoking_status", VString "regular");
      ("alcohol_consumption", VString "moderate"); ("sleep_hours", VNumber (Js.ofZ 6));
      ("stress_level", VString "high") ].

(** A snapshot on which every check of [summarizeStatus] adds its highest
    score. *)
Definition worstCase : HealthSnapshot :=
  {| full_name := ""; age := None; sex := None;
     height := Some (Js.ofZ 170); weight := Some (Js.ofZ 95);
     blood_type := None; allergies := None; conditions := Some "Diabetes";
     medications := None; medical_history := None; past_reports := None;
     prescriptions := None; symptoms_current := None; symptoms_past := None;
     location := None; smoking_status := Some "regular";
     alcohol_consumption := Some "heavy"; exercise_frequency := None; diet_type := None;
     sleep_hours := Some (Js.ofZ 5); stress_level := Some "very_high";
     family_history := Some "Stroke"; health_goals := None;
     emergency_contact_name := None; emergency_contact_phone := None;
     blood_pressure := None; heart_rate := Some (Js.ofZ 101);
     temperature_c := Some (Js.ofDecimal false 378 (-1)); spo2 := Some (Js.ofZ 93);
     diagnosis := None; treatment_plan := None; doctor_notes := None |}.

(** ** What the functions read and what the questionnaire leaves out *)

(** The keys [normalizeOnboardingData] reads. *)
Definition declaredKeys : list string :=
  [ "full_name"; "age"; "sex"; "height"; "weight"; "blood_type"; "allergies"; "conditions";
    "medications"; "medical_history"; "past_reports"; "prescriptions"; "symptoms_current";
    "symptoms_past"; "location"; "smoking_status"; "alcohol_consumption";
    "exercise_frequency"; "diet_type"; "sleep_hours"; "stress_level"; "family_history";
    "health_goals"; "emergency_contact_name"; "emergency_contact_phone"; "blood_pressure";
    "heart_rate"; "temperature_c"; "spo2" ].

(** A raw value with the white space around a string removed. *)
Definition trimValue (v : value) : value :=
  match v with
  | VString s => VString (Js.trim s)
  | _ => v
  end.

(** The fields [summarizeStatus], [buildInsights] and
    [buildRecommendations] read. *)
Definition engineNumbers (d : HealthSnapshot) : list (option Js.number) :=
  [height d; weight d; sleep_hours d; heart_rate d; temperature_c d; spo2 d].

Definition engineStrings (d : HealthSnapshot) : list (option string) :=
  [ stress_level d; smoking_status d; alcohol_consumption d; exercise_frequency d;
    family_history d; conditions d; symptoms_current d; symptoms_past d ].

(** The fields no step of the questionnaire has an input for. *)
Definition unaskedNumbers (d : HealthSnapshot) : list (option Js.number) :=
  [sleep_hours d; heart_rate d; temperature_c d; spo2 d].

Definition unaskedStrings (d : HealthSnapshot) : list (option string) :=
  [ smoking_status d; alcohol_consumption d; exercise_frequency d; diet_type d;
    stress_level d; family_history d; health_goals d; emergency_contact_name d;
    emergency_contact_phone d; blood_pressure d; diagnosis d; treatment_plan d;
    doctor_notes d ].

(** The titles and the specialties of what the generators return. *)
Definition titlesOf (d : HealthSnapshot) : list string :=
  List.map HealthInsight.title (buildInsights d).

Definition specialtiesOf (d : HealthSnapshot) : list string :=
  List.map Recommendation.specialty (buildRecommendations d).

(** ** Definitions used in the proofs *)

(** One row applied to the two variables, and the rows in sequence. *)
Definition applyRow (data : HealthSnapshot) (t : Tally) (r : RiskRow) : Tally :=
  if holds r data then flag (delta r) (reasonText r) t else t.

Definition runTable (data : HealthSnapshot) (rows : list RiskRow) (t : Tally) : Tally :=
  fold_left (applyRow data) rows t.

(** [add] over candidates from an array that holds entries already. *)
Definition addFrom (recs cands : list Recommendation.t) : list Recommendation.t :=
  fold_left (fun recs r => add r recs) cands recs.

(** [{age: "   "}]: a numeric field left blank. *)
Definition blankAge : RawRecord := {[ "age" := VString "   " ]}.



(** No white-space code point starts at the head of the bytes. *)
Definition headClean (back : bool) (l : list ascii) : bool :=
  match l with
  | [] => true
  | c1 :: l1 =>
      negb (Js.ws1 c1) &&
      match l1 with
      | [] => true
      | c2 :: l2 =>
          negb (if back then Js.ws2 c2 c1 else Js.ws2 c1 c2) &&
          match l2 with
          | [] => true
          | c3 :: _ => negb (if back then Js.ws3 c3 c2 c1 else Js.ws3 c1 c2 c3)
          end
      end
  end.

(** Printable ASCII other than the space. *)
Definition plain (c : ascii) : bool := ((33 <=? Js.code c) && (Js.code c <=? 126))%N.

Fixpoint allPlain (s : string) : bool :=
  match s with
  | EmptyString => true
  | String c s' => plain c && allPlain s'
  end.

Definition allDigits (l : list ascii) : bool := forallb Js.isDigit l.

(** One step of [digitsVal]. *)
Definition step (a : N) (c : ascii) : N := (10 * a + (Js.code c - 48))%N.


(** A check adds at most [k] to the score and at most one reason. *)
Definition within (k : Z) (t t' : Tally) : Prop :=
  fst t' <= fst t + k /\ (List.length (snd t') <= List.length (snd t) + 1)%nat.

(** Not NaN and not above zero. *)
Definition nonPositive (x : Js.number) : Prop := Js.leb x (S754_zero false) = true.

(** NaN, or not below zero. *)
Definition positiveOrNaN (y : Js.number) : Prop :=
  match y with
  | S754_nan | S754_infinity false | S754_zero false | S754_finite false _ _ => True
  | _ => False
  end.

(** What every form reached from [Questionnaire.initial] satisfies. *)
Definition reachableShape (f : Questionnaire.Form) : Prop :=
  let d := Questionnaire.data f in
  0 <= Questionnaire.currentStep f <= 2
  /\ (0 < Questionnaire.currentStep f -> Questionnaire.blankText (full_name d) = false)
  /\ Forall finiteOrAbsent (numericFields d)
  /\ Forall (eq None) (unaskedNumbers d)
  /\ Forall (eq None) (unaskedStrings d).


(** * Facts about numbers *)

Module NumberFacts.
Import Js.

Lemma digits2_pos_size (p : positive) : digits2_pos p = Pos.size p.
Proof. induction p; simpl; congruence. Qed.

Lemma Zdigits2_nonneg (m : Z) : 0 <= Zdigits2 m.
Proof. destruct m; simpl; lia. Qed.

Lemma Zdigits2_lt (m : Z) : 0 <= m -> m < 2 ^ Zdigits2 m.
Proof.
  destruct m as [|p|p]; simpl; [lia| |lia]. intros _.
  rewrite digits2_pos_size.
  pose proof (Pos.size_gt p) as H.
  rewrite <- Pos2Z.inj_pow. lia.
Qed.

Lemma Zdigits2_le (m : Z) (d : Z) : 0 <= d -> 0 <= m < 2 ^ d -> Zdigits2 m <= d.
Proof.
  intros Hd [Hm Hlt]. destruct m as [|p|p]; simpl; [lia| |lia].
  rewrite digits2_pos_size.
  pose proof (Pos.size_le p) as H.
  destruct (Z.le_gt_cases (Z.pos (Pos.size p)) d) as [|Hgt]; [assumption|exfalso].
  assert (Hp : 2 ^ d <= 2 ^ (Z.pos (Pos.size p) - 1)) by (apply Z.pow_le_mono_r; lia).
  assert (H2 : 2 ^ Z.pos (Pos.size p) = 2 * 2 ^ (Z.pos (Pos.size p) - 1)).
  { rewrite <- Z.pow_succ_r by lia. f_equal. lia. }
  assert (H3 : (2 ^ Pos.size p <= p~0)%positive) by exact H.
  apply Pos2Z.pos_le_pos in H3. rewrite Pos2Z.inj_pow in H3.
  change (Z.pos p~0) with (2 * Z.pos p) in H3. lia.
Qed.

Lemma shr_1_m (mrs : shr_record) : 0 <= shr_m mrs -> shr_m (shr_1 mrs) = shr_m mrs / 2.
Proof.
  destruct mrs as [m r s]. simpl. intros Hm.
  destruct m as [|[p|p|]|p]; simpl; try lia; try reflexivity.
  - rewrite Pos2Z.inj_xI. apply Z.div_unique with 1; lia.
  - rewrite Pos2Z.inj_xO. apply Z.div_unique with 0; lia.
Qed.

Lemma shr_iter_m (p : positive) (mrs : shr_record) :
  0 <= shr_m mrs -> shr_m (SpecFloat.iter_pos shr_1 p mrs) = shr_m mrs / 2 ^ Z.pos p.
Proof.
  revert mrs. induction p as [p IH|p IH|]; intros mrs Hm; cbn [SpecFloat.iter_pos].
  - assert (H1 : 0 <= shr_m (shr_1 mrs)) by (rewrite shr_1_m by assumption; apply Z.div_pos; lia).
    assert (H2 : 0 <= shr_m (SpecFloat.iter_pos shr_1 p (shr_1 mrs))).
    { rewrite IH by assumption. apply Z.div_pos; [assumption|]. apply Z.pow_pos_nonneg; lia. }
    rewrite IH by assumption. rewrite IH by assumption. rewrite shr_1_m by assumption.
    rewrite !Z.div_div by (try apply Z.pow_pos_nonneg; lia).
    f_equal. rewrite Pos2Z.inj_xI. rewrite <- Z.pow_add_r by lia. rewrite <- Z.pow_succ_r by lia.
    f_equal. lia.
  - assert (H2 : 0 <= shr_m (SpecFloat.iter_pos shr_1 p mrs)).
    { rewrite IH by assumption. apply Z.div_pos; [assumption|]. apply Z.pow_pos_nonneg; lia. }
    rewrite IH by assumption. rewrite IH by assumption.
    rewrite !Z.div_div by (try apply Z.pow_pos_nonneg; lia).
    f_equal. rewrite Pos2Z.inj_xO. rewrite <- Z.pow_add_r by lia. f_equal. lia.
  - rewrite shr_1_m by assumption. reflexivity.
Qed.

Lemma shr_record_of_loc_m (m : Z) (l : SpecFloat.location) : shr_m (shr_record_of_loc m l) = m.
Proof. destruct l as [|[]]; reflexivity. Qed.

(** What [shr_fexp] leaves: the mantissa shifted right by the distance to
    the exponent [fexp] asks for, when that is positive. *)
Lemma shr_fexp_spec (m e : Z) (l : SpecFloat.location) :
  0 <= m ->
  let d := fexp prec emax (Zdigits2 m + e) - e in
  shr_m (fst (shr_fexp prec emax m e l)) = (if 0 <? d then m / 2 ^ d else m)
  /\ snd (shr_fexp prec emax m e l) = (if 0 <? d then e + d else e).
Proof.
  intros Hm d. unfold shr_fexp. fold d. unfold shr.
  destruct d as [|p|p]; simpl; try (rewrite shr_record_of_loc_m; split; reflexivity).
  split; [|reflexivity].
  rewrite shr_iter_m by (rewrite shr_record_of_loc_m; assumption).
  rewrite shr_record_of_loc_m. reflexivity.
Qed.


Lemma fexp_eq (x : Z) : fexp prec emax x = Z.max (x - 53) (-1074).
Proof. reflexivity. Qed.

Lemma round_nearest_even_bounds (m : Z) (l : SpecFloat.location) :
  m <= round_nearest_even m l <= m + 1.
Proof. destruct l as [|[]]; simpl; try lia. destruct (Z.even m); lia. Qed.

Lemma pow2_div_lt (m a b : Z) : 0 <= m < 2 ^ a -> 0 <= b <= a -> m / 2 ^ b < 2 ^ (a - b).
Proof.
  intros [Hm Hlt] [Hb Hab].
  apply Z.div_lt_upper_bound; [apply Z.pow_pos_nonneg; lia|].
  rewrite <- Z.pow_add_r by lia. replace (b + (a - b)) with a by lia. assumption.
Qed.

Lemma pow2_div_small (m a b : Z) : 0 <= m < 2 ^ a -> 0 <= a <= b -> m / 2 ^ b = 0.
Proof.
  intros [Hm Hlt] [Ha Hab]. apply Z.div_small. split; [assumption|].
  apply Z.lt_le_trans with (2 ^ a); [assumption|]. apply Z.pow_le_mono_r; lia.
Qed.

(** The shape of a rounded result: the sign is the one asked for, the
    mantissa is below [2^53], and the exponent stays in range when the
    value rounded is far from the overflow threshold. *)
Lemma binary_round_aux_spec (s : bool) (m e : Z) (l : SpecFloat.location) :
  0 <= m ->
  exists m2 e2 : Z,
    binary_round_aux prec emax s m e l =
      match m2 with
      | Z0 => S754_zero s
      | Zpos p => if e2 <=? emax - prec then S754_finite s p e2 else S754_infinity s
      | Zneg _ => S754_nan
      end
    /\ 0 <= m2 < 2 ^ 53
    /\ (e <= 0 -> Zdigits2 m + e <= 1000 -> e2 <= 971).
Proof.
  intros Hm. unfold binary_round_aux.
  destruct (shr_fexp_spec m e l Hm) as [Hm1 He1].
  destruct (shr_fexp prec emax m e l) as [mrs1 e1]. cbn [fst snd] in Hm1, He1.
  set (m1 := round_nearest_even (shr_m mrs1) (loc_of_shr_record mrs1)).
  pose proof (round_nearest_even_bounds (shr_m mrs1) (loc_of_shr_record mrs1)) as Hr.
  fold m1 in Hr.
  set (d1 := fexp prec emax (Zdigits2 m + e) - e) in *.
  pose proof (Zdigits2_lt m Hm) as Hdm. pose proof (Zdigits2_nonneg m) as Hdm0.
  assert (Hm' : 0 <= shr_m mrs1).
  { rewrite Hm1. destruct (Z.ltb_spec 0 d1); [|assumption].
    apply Z.div_pos; [assumption|]. apply Z.pow_pos_nonneg; lia. }
  assert (Hm1' : 0 <= m1) by lia.
  destruct (shr_fexp_spec m1 e1 loc_Exact Hm1') as [Hm2 He2].
  destruct (shr_fexp prec emax m1 e1 loc_Exact) as [mrs2 e2]. cbn [fst snd] in Hm2, He2.
  set (d2 := fexp prec emax (Zdigits2 m1 + e1) - e1) in *.
  pose proof (Zdigits2_lt m1 Hm1') as Hd1. pose proof (Zdigits2_nonneg m1) as Hd10.
  exists (shr_m mrs2), e2. split; [reflexivity|].
  subst d1 d2. rewrite !fexp_eq in *.
  set (x1 := Z.max (Zdigits2 m + e - 53) (-1074) - e) in *.
  set (x2 := Z.max (Zdigits2 m1 + e1 - 53) (-1074) - e1) in *.
  assert (Hx1 : Zdigits2 m - 53 <= x1) by (subst x1; lia).
  assert (Hx2 : Zdigits2 m1 - 53 <= x2) by (subst x2; lia).
  split.
  - rewrite Hm2. destruct (Z.ltb_spec 0 x2) as [Hd2|Hd2].
    + split; [apply Z.div_pos; [assumption|apply Z.pow_pos_nonneg; lia]|].
      apply Z.div_lt_upper_bound; [apply Z.pow_pos_nonneg; lia|].
      rewrite <- Z.pow_add_r by lia.
      apply Z.lt_le_trans with (2 ^ Zdigits2 m1); [assumption|].
      apply Z.pow_le_mono_r; lia.
    + split; [assumption|].
      apply Z.lt_le_trans with (2 ^ Zdigits2 m1); [assumption|].
      apply Z.pow_le_mono_r; lia.
  - intros He Hde.
    assert (Hbound : Zdigits2 m1 + e1 <= 1001 /\ e1 <= 947).
    { rewrite He1. rewrite Hm1 in Hr.
      destruct (Z.ltb_spec 0 x1) as [Hd|Hd].
      - destruct (Z.le_gt_cases x1 (Zdigits2 m)) as [Hle|Hgt].
        + pose proof (pow2_div_lt m (Zdigits2 m) x1 (conj Hm Hdm) (conj (Z.lt_le_incl _ _ Hd) Hle)) as Hq.
          assert (Hdg : Zdigits2 m1 <= Zdigits2 m - x1 + 1).
          { apply Zdigits2_le; [lia|]. split; [assumption|].
            replace (Zdigits2 m - x1 + 1) with (Z.succ (Zdigits2 m - x1)) by lia.
            rewrite Z.pow_succ_r by lia. lia. }
          subst x1. lia.
        + rewrite (pow2_div_small m (Zdigits2 m)) in Hr by (split; first [assumption | lia]).
          assert (Hdg : Zdigits2 m1 <= 1).
          { apply Zdigits2_le; [lia|]. change (2 ^ 1) with 2. lia. }
          subst x1. lia.
      - assert (Hdg : Zdigits2 m1 <= Zdigits2 m + 1).
        { apply Zdigits2_le; [lia|]. split; [assumption|].
          replace (Zdigits2 m + 1) with (Z.succ (Zdigits2 m)) by lia.
          rewrite Z.pow_succ_r by lia. lia. }
        lia. }
    rewrite He2. destruct (Z.ltb_spec 0 x2); subst x2; lia.
Qed.


Lemma div_core_spec (m1 m2 : positive) (e1 e2 : Z) :
  exists (q e' : Z) (l : SpecFloat.location),
    SFdiv_core_binary prec emax (Z.pos m1) e1 (Z.pos m2) e2 = (q, e', l)
    /\ 0 <= q /\ e' <= e1 - e2 /\ Zdigits2 q + e' <= Zdigits2 (Z.pos m1) + (e1 - e2).
Proof.
  unfold SFdiv_core_binary.
  set (e' := Z.min _ (e1 - e2)).
  set (sh := e1 - e2 - e').
  assert (Hsh : 0 <= sh) by (subst sh e'; lia).
  set (m' := match sh with Z.pos _ => Z.shiftl (Z.pos m1) sh | Z0 => Z.pos m1 | Z.neg _ => 0 end).
  assert (Hm' : m' = Z.pos m1 * 2 ^ sh).
  { subst m'. destruct sh as [|p|p]; [rewrite Z.mul_1_r; reflexivity| |lia].
    apply Z.shiftl_mul_pow2. lia. }
  pose proof (Z_div_mod m' (Z.pos m2) (eq_refl : Z.pos m2 > 0)%Z) as Hdm.
  destruct (Z.div_eucl m' (Z.pos m2)) as [q r]. destruct Hdm as [Heq Hr].
  exists q, e', (new_location (Z.pos m2) r). split; [reflexivity|].
  assert (H2 : 0 < 2 ^ sh) by (apply Z.pow_pos_nonneg; lia).
  assert (Hq : 0 <= q <= m') by nia.
  split; [lia|]. split; [subst e'; lia|].
  assert (Hd : Zdigits2 q <= Zdigits2 (Z.pos m1) + sh).
  { pose proof (Zdigits2_nonneg (Z.pos m1)).
    apply Zdigits2_le; [lia|]. split; [lia|].
    rewrite Z.pow_add_r by lia.
    pose proof (Zdigits2_lt (Z.pos m1) ltac:(lia)). nia. }
  subst sh. lia.
Qed.

(** A finite quotient has a mantissa below [2^53]. *)
Lemma div_mantissa (x y : number) (s : bool) (m : positive) (e : Z) :
  div x y = S754_finite s m e -> Z.pos m < 2 ^ 53.
Proof.
  unfold div, SFdiv.
  destruct x as [sx|sx| |sx mx ex], y as [sy|sy| |sy my ey]; try discriminate.
  destruct (div_core_spec mx my ex ey) as (q & e' & l & Hc & Hq & _).
  rewrite Hc.
  destruct (binary_round_aux_spec (xorb sx sy) q e' l Hq) as (m2 & e2 & Hr & Hm2 & _).
  rewrite Hr. destruct m2 as [|p|p]; try discriminate.
  destruct (e2 <=? emax - prec); [|discriminate].
  intros H. injection H as _ <- _. lia.
Qed.

(** Dividing a negative number by a positive finite one gives a number
    that is not above zero. *)
Lemma div_negative (x : number) (my : positive) (ey : Z) :
  ltb x (S754_zero false) = true ->
  leb (div x (S754_finite false my ey)) (S754_zero false) = true.
Proof.
  unfold ltb, leb, div, SFdiv, SFltb, SFleb.
  destruct x as [sx|sx| |sx mx ex]; simpl; try discriminate.
  - destruct sx; [reflexivity|discriminate].
  - destruct sx; [intros _|discriminate].
    destruct (div_core_spec mx my ex ey) as (q & e' & l & Hc & Hq & _).
    rewrite Hc.
    destruct (binary_round_aux_spec (xorb true false) q e' l Hq) as (m2 & e2 & Hr & Hm2 & _).
    rewrite Hr. destruct m2 as [|p|p]; [reflexivity| |lia].
    destruct (e2 <=? emax - prec); reflexivity.
Qed.

(** A ratio with a numerator far below the overflow threshold is finite. *)
Lemma ofRatio_finite (s : bool) (n den : positive) :
  Z.pos n < 2 ^ 1000 -> isFinite (ofRatio s n den) = true.
Proof.
  intros Hn. unfold ofRatio, SFdiv.
  destruct (div_core_spec n den 0 0) as (q & e' & l & Hc & Hq & He & Hd).
  rewrite Hc.
  destruct (binary_round_aux_spec (xorb s false) q e' l Hq) as (m2 & e2 & Hr & Hm2 & Hfin).
  rewrite Hr.
  assert (Hdn : Zdigits2 (Z.pos n) <= 1000) by (apply Zdigits2_le; lia).
  specialize (Hfin ltac:(lia) ltac:(lia)).
  destruct m2 as [|p|p]; [reflexivity| |lia].
  replace (e2 <=? emax - prec) with true; [reflexivity|].
  symmetry. apply Z.leb_le. unfold emax, prec. lia.
Qed.

Lemma tenths_bounds (m : positive) (e : Z) :
  Z.pos m < 2 ^ 53 -> e <= 17 -> 0 <= tenths m e < 2 ^ 1000.
Proof.
  intros Hm He. unfold tenths. destruct (Z.leb_spec 0 e) as [Hpos|Hneg].
  - assert (H2 : 0 < 2 ^ e <= 2 ^ 17).
    { split; [apply Z.pow_pos_nonneg; lia|apply Z.pow_le_mono_r; lia]. }
    assert (Hb : 10 * 2 ^ 53 * 2 ^ 17 < 2 ^ 1000) by (vm_compute; reflexivity).
    nia.
  - assert (Hp : 0 < 2 ^ (- e)) by (apply Z.pow_pos_nonneg; lia).
    assert (Hpp : 2 ^ (1 - e) = 2 * 2 ^ (- e)).
    { replace (1 - e) with (Z.succ (- e)) by lia. apply Z.pow_succ_r. lia. }
    rewrite Hpp. split; [apply Z.div_pos; lia|].
    apply Z.div_lt_upper_bound; [lia|].
    assert (Hb : 20 * 2 ^ 53 + 1 <= 2 ^ 1000) by (vm_compute; discriminate).
    nia.
Qed.

Lemma ofZ_1e21 : ofZ (10 ^ 21) = S754_finite false 7629394531250000 17.
Proof. vm_compute. reflexivity. Qed.

(** [Number(x.toFixed(1))] is finite for a finite quotient [x]. *)
Lemma roundTenths_finite (x : number) :
  isFinite x = true ->
  (forall s m e, x = S754_finite s m e -> Z.pos m < 2 ^ 53) ->
  isFinite (roundTenths x) = true.
Proof.
  intros Hfin Hm. destruct x as [s|s| |s m e]; try discriminate; [reflexivity|].
  specialize (Hm s m e eq_refl).
  unfold roundTenths.
  destruct (leb (ofZ (10 ^ 21)) (SFabs (S754_finite s m e))) eqn:Hcmp; [reflexivity|].
  assert (He : e <= 17).
  { rewrite ofZ_1e21 in Hcmp. unfold leb, SFleb, SFabs, SFcompare in Hcmp.
    destruct (Z.compare_spec 17 e); [lia|discriminate|lia]. }
  pose proof (tenths_bounds m e Hm He) as Hb.
  destruct (tenths m e) as [|n|n]; [reflexivity| |reflexivity].
  apply ofRatio_finite. lia.
Qed.

End NumberFacts.

(** * Facts about strings *)

Module StringFacts.
Import Js.

Section DropWs.
Variable back : bool.

Lemma dropWs_spec (n : nat) :
  forall l : list ascii, (List.length l <= n)%nat ->
    headClean back (dropWs back l) = true /\ exists p, l = (p ++ dropWs back l)%list.
Proof.
  induction n as [|n IH]; intros l Hlen.
  - destruct l; [split; [reflexivity|exists []; reflexivity]|simpl in Hlen; lia].
  - destruct l as [|c1 l1]; [split; [reflexivity|exists []; reflexivity]|].
    cbn [dropWs]. destruct (ws1 c1) eqn:H1.
    { destruct (IH l1) as [Hc [p Hp]]; [simpl in Hlen; lia|].
      split; [assumption|]. exists (c1 :: p). simpl. congruence. }
    destruct l1 as [|c2 l2].
    { split; [simpl; rewrite H1; reflexivity|exists []; reflexivity]. }
    destruct (if back then ws2 c2 c1 else ws2 c1 c2) eqn:H2.
    { destruct (IH l2) as [Hc [p Hp]]; [simpl in Hlen; lia|].
      split; [assumption|]. exists (c1 :: c2 :: p). simpl. congruence. }
    destruct l2 as [|c3 l3].
    { split; [simpl; rewrite H1, H2; reflexivity|exists []; reflexivity]. }
    destruct (if back then ws3 c3 c2 c1 else ws3 c1 c2 c3) eqn:H3.
    { destruct (IH l3) as [Hc [p Hp]]; [simpl in Hlen; lia|].
      split; [assumption|]. exists (c1 :: c2 :: c3 :: p). simpl. congruence. }
    split; [simpl; rewrite H1, H2, H3; reflexivity|exists []; reflexivity].
Qed.

Lemma dropWs_clean (l : list ascii) : headClean back (dropWs back l) = true.
Proof. exact (proj1 (dropWs_spec (List.length l) l (le_n _))). Qed.

Lemma dropWs_suffix (l : list ascii) : exists p, l = (p ++ dropWs back l)%list.
Proof. exact (proj2 (dropWs_spec (List.length l) l (le_n _))). Qed.

Lemma dropWs_fixed (l : list ascii) : headClean back l = true -> dropWs back l = l.
Proof.
  destruct l as [|c1 [|c2 [|c3 l3]]]; cbn [headClean dropWs]; intros H;
    repeat (apply andb_prop in H; destruct H as [?%negb_true_iff H]);
    try apply negb_true_iff in H;
    repeat match goal with Heq : _ = false |- _ => rewrite Heq; clear Heq end;
    reflexivity.
Qed.

Lemma headClean_prefix (l r : list ascii) :
  headClean back (l ++ r)%list = true -> headClean back l = true.
Proof.
  destruct l as [|c1 [|c2 [|c3 l3]]]; cbn [headClean app]; intros H;
    try reflexivity.
  - apply andb_prop in H. destruct H as [-> _]. reflexivity.
  - apply andb_prop in H. destruct H as [-> H].
    destruct r; [assumption|]. apply andb_prop in H. destruct H as [-> _]. reflexivity.
  - assumption.
Qed.
End DropWs.

Lemma trimList_idem (l : list ascii) : trimList (trimList l) = trimList l.
Proof.
  unfold trimList.
  set (a := dropWs false l). set (b := dropWs true (rev a)).
  assert (Ha : headClean false a = true) by apply dropWs_clean.
  destruct (dropWs_suffix true (rev a)) as [p Hp]. fold b in Hp.
  assert (Hab : a = (rev b ++ rev p)%list).
  { rewrite <- rev_app_distr, <- Hp, rev_involutive. reflexivity. }
  assert (Hb : dropWs false (rev b) = rev b).
  { apply dropWs_fixed. apply headClean_prefix with (rev p). rewrite <- Hab. assumption. }
  rewrite Hb, rev_involutive. f_equal. apply dropWs_fixed. apply dropWs_clean.
Qed.

Lemma trim_idem (s : string) : trim (trim s) = trim s.
Proof.
  unfold trim. rewrite list_ascii_of_string_of_list_ascii, trimList_idem. reflexivity.
Qed.

Lemma plain_code (c : ascii) : plain c = true -> (33 <= code c <= 126)%N.
Proof. unfold plain. intros H. apply andb_prop in H. destruct H as [?%N.leb_le ?%N.leb_le]. lia. Qed.

Ltac off_range :=
  repeat match goal with
  | |- context [N.eqb ?a ?b] =>
      replace (N.eqb a b) with false by (symmetry; apply N.eqb_neq; lia)
  | |- context [N.leb ?a ?b] =>
      replace (N.leb a b) with false by (symmetry; apply N.leb_gt; lia)
  end.

Lemma plain_headClean (back : bool) (l : list ascii) :
  forallb plain l = true -> headClean back l = true.
Proof.
  destruct l as [|c1 l1]; [reflexivity|]. cbn [forallb headClean]. intros H.
  apply andb_prop in H. destruct H as [H1%plain_code H].
  assert (Hw1 : ws1 c1 = false).
  { unfold ws1. cbv zeta. destruct (N.leb_spec 9 (code c1)), (N.leb_spec (code c1) 13); simpl;
      try lia; apply N.eqb_neq; lia. }
  rewrite Hw1. cbn [negb andb].
  destruct l1 as [|c2 l2]; [reflexivity|].
  assert (Hw2 : (if back then ws2 c2 c1 else ws2 c1 c2) = false).
  { unfold ws2. destruct back; off_range; rewrite ?andb_false_r; reflexivity. }
  rewrite Hw2. cbn [negb andb].
  destruct l2 as [|c3 l3]; [reflexivity|].
  cbn [forallb] in H. apply andb_prop in H. destruct H as [H2%plain_code H].
  apply andb_prop in H. destruct H as [H3%plain_code H].
  apply negb_true_iff. unfold ws3. cbv zeta. destruct back.
  - replace (code c1 =? 128)%N with false by (symmetry; apply N.eqb_neq; lia).
    replace (128 <=? code c1)%N with false by (symmetry; apply N.leb_gt; lia).
    replace (code c1 =? 168)%N with false by (symmetry; apply N.eqb_neq; lia).
    replace (code c1 =? 169)%N with false by (symmetry; apply N.eqb_neq; lia).
    replace (code c1 =? 175)%N with false by (symmetry; apply N.eqb_neq; lia).
    replace (code c1 =? 159)%N with false by (symmetry; apply N.eqb_neq; lia).
    replace (code c1 =? 191)%N with false by (symmetry; apply N.eqb_neq; lia).
    rewrite ?andb_false_r. reflexivity.
  - replace (code c1 =? 225)%N with false by (symmetry; apply N.eqb_neq; lia).
    replace (code c1 =? 226)%N with false by (symmetry; apply N.eqb_neq; lia).
    replace (code c1 =? 227)%N with false by (symmetry; apply N.eqb_neq; lia).
    replace (code c1 =? 239)%N with false by (symmetry; apply N.eqb_neq; lia).
    reflexivity.
Qed.


Lemma allPlain_list (s : string) : forallb plain (list_ascii_of_string s) = allPlain s.
Proof. induction s as [|c s IH]; simpl; [reflexivity|]. rewrite IH. reflexivity. Qed.

Lemma allPlain_app (s1 s2 : string) : allPlain (s1 ++ s2) = allPlain s1 && allPlain s2.
Proof. induction s1 as [|c s1 IH]; simpl; [reflexivity|]. rewrite IH, andb_assoc. reflexivity. Qed.

Lemma allPlain_substring (s : string) :
  allPlain s = true -> forall n m, allPlain (String.substring n m s) = true.
Proof.
  induction s as [|c s IH]; intros H n m.
  - destruct n, m; reflexivity.
  - simpl in H. apply andb_prop in H. destruct H as [Hc Hs].
    destruct n as [|n]; simpl.
    + destruct m as [|m]; [reflexivity|]. simpl. rewrite Hc. apply IH. assumption.
    + apply IH. assumption.
Qed.

Lemma allPlain_zeros (n : nat) : allPlain (zeros n) = true.
Proof. induction n as [|n IH]; [reflexivity|exact IH]. Qed.

Lemma allPlain_uint (d : Decimal.uint) : allPlain (NilEmpty.string_of_uint d) = true.
Proof. induction d; simpl; assumption || reflexivity. Qed.

Lemma allPlain_decimalDigits (n : N) : allPlain (decimalDigits n) = true.
Proof.
  unfold decimalDigits, NilZero.string_of_uint.
  destruct (N.to_uint n); try reflexivity; apply allPlain_uint.
Qed.

Lemma decimalDigits_nonempty (n : N) : decimalDigits n <> "".
Proof.
  unfold decimalDigits, NilZero.string_of_uint.
  destruct (N.to_uint n); discriminate.
Qed.

Lemma append_nonempty_l (s1 s2 : string) : s1 <> "" -> s1 ++ s2 <> "".
Proof. destruct s1; [congruence|discriminate]. Qed.

Lemma append_nonempty_r (s1 s2 : string) : s2 <> "" -> s1 ++ s2 <> "".
Proof. destruct s1; [trivial|discriminate]. Qed.

Lemma formatDigits_plain (ds : string) (k n : Z) :
  allPlain ds = true -> ds <> "" ->
  allPlain (formatDigits ds k n) = true /\ formatDigits ds k n <> "".
Proof.
  intros Hp Hne. unfold formatDigits.
  destruct ((k <=? n) && (n <=? 21)).
  { split; [rewrite allPlain_app, Hp, allPlain_zeros; reflexivity|].
    apply append_nonempty_l. assumption. }
  destruct ((0 <? n) && (n <=? 21)).
  { split; [rewrite !allPlain_app, !allPlain_substring by assumption; reflexivity|].
    apply append_nonempty_r. discriminate. }
  destruct ((-6 <? n) && (n <=? 0)).
  { split; [rewrite !allPlain_app, Hp, allPlain_zeros; reflexivity|discriminate]. }
  cbv zeta. destruct (k =? 1).
  - split; [|apply append_nonempty_l; assumption].
    rewrite !allPlain_app, Hp, allPlain_decimalDigits. destruct (n - 1 <? 0); reflexivity.
  - split; [|apply append_nonempty_r; discriminate].
    rewrite !allPlain_app, !allPlain_substring, allPlain_decimalDigits by assumption.
    destruct (n - 1 <? 0); reflexivity.
Qed.

(** [String(x)] of a finite [x] is made of digits, signs, a point and an
    [e]. *)
Lemma numberToString_plain (x : number) :
  isFinite x = true -> allPlain (numberToString x) = true /\ numberToString x <> "".
Proof.
  destruct x as [s|s| |s m e]; try discriminate; intros _.
  - split; [reflexivity|discriminate].
  - cbn [numberToString].
    destruct (shortestDigits m e (decimalExponent m e) 16 1) as [[d k] n].
    destruct (formatDigits_plain (decimalDigits d) k n
                (allPlain_decimalDigits d) (decimalDigits_nonempty d)) as [Hp Hne].
    split.
    + rewrite allPlain_app, Hp. destruct s; reflexivity.
    + apply append_nonempty_r. assumption.
Qed.

Lemma plain_trim (s : string) : allPlain s = true -> trim s = s.
Proof.
  intros H. unfold trim, trimList. rewrite <- allPlain_list in H.
  rewrite (dropWs_fixed false) by (apply plain_headClean; assumption).
  rewrite (dropWs_fixed true), rev_involutive.
  - apply string_of_list_ascii_of_string.
  - apply plain_headClean. rewrite forallb_forall in *. intros c Hc. apply H.
    apply in_rev. assumption.
Qed.

End StringFacts.

(** * Facts about [Number] on the text of [toFixed] *)

Module ParseFacts.
Import Js.

Lemma digitsVal_fold (l : list ascii) : digitsVal l = fold_left step l 0%N.
Proof. reflexivity. Qed.

Lemma chars_app (s1 s2 : string) :
  list_ascii_of_string (s1 ++ s2) = (list_ascii_of_string s1 ++ list_ascii_of_string s2)%list.
Proof.
  induction s1 as [|c s1 IH]; [reflexivity|].
  change (String c s1 ++ s2) with (String c (s1 ++ s2)).
  cbn [list_ascii_of_string List.app]. f_equal. exact IH.
Qed.

Ltac digit_step :=
  unfold step;
  match goal with
  | |- context [code ?c] =>
      let v := eval vm_compute in (code c) in change (code c) with v
  end.

Lemma fold_uint_acc (u : Decimal.uint) :
  forall acc : positive,
    fold_left step (list_ascii_of_string (NilEmpty.string_of_uint u)) (N.pos acc)
    = N.pos (Pos.of_uint_acc u acc).
Proof.
  induction u; intros acc;
    cbn [NilEmpty.string_of_uint list_ascii_of_string fold_left Pos.of_uint_acc];
    [reflexivity|..]; rewrite <- IHu; f_equal; digit_step; lia.
Qed.

Lemma fold_uint (u : Decimal.uint) :
  fold_left step (list_ascii_of_string (NilEmpty.string_of_uint u)) 0%N = N.of_uint u.
Proof.
  unfold N.of_uint.
  induction u; cbn [NilEmpty.string_of_uint list_ascii_of_string fold_left Pos.of_uint];
    [reflexivity|exact IHu|..]; rewrite <- fold_uint_acc; f_equal.
Qed.

Lemma digitsVal_decimalDigits (n : N) :
  digitsVal (list_ascii_of_string (decimalDigits n)) = n.
Proof.
  rewrite digitsVal_fold. unfold decimalDigits, NilZero.string_of_uint.
  rewrite <- (DecimalN.Unsigned.of_to n) at 2.
  destruct (N.to_uint n) eqn:Hu; rewrite <- fold_uint; reflexivity.
Qed.

Lemma allDigits_uint (u : Decimal.uint) :
  allDigits (list_ascii_of_string (NilEmpty.string_of_uint u)) = true.
Proof. induction u; cbn; assumption || reflexivity. Qed.

Lemma allDigits_decimalDigits (n : N) :
  allDigits (list_ascii_of_string (decimalDigits n)) = true.
Proof.
  unfold decimalDigits, NilZero.string_of_uint.
  destruct (N.to_uint n); try reflexivity; apply allDigits_uint.
Qed.

Lemma single_digit (d : N) :
  (d < 10)%N ->
  exists c, list_ascii_of_string (decimalDigits d) = [c] /\ isDigit c = true
            /\ forall a, step a c = (10 * a + d)%N.
Proof.
  intros Hd.
  assert (H : (d = 0 \/ d = 1 \/ d = 2 \/ d = 3 \/ d = 4 \/ d = 5 \/ d = 6 \/ d = 7
              \/ d = 8 \/ d = 9)%N) by lia.
  repeat (destruct H as [->|H]); try subst d;
    (eexists; split; [vm_compute; reflexivity|split; [reflexivity|]]);
    intros a; digit_step; lia.
Qed.

Lemma spanDigits_app (ds r : list ascii) :
  allDigits ds = true ->
  match r with [] => True | c :: _ => isDigit c = false end ->
  spanDigits (ds ++ r) = (ds, r).
Proof.
  intros Hds Hr. induction ds as [|c ds IH]; cbn [List.app spanDigits].
  - destruct r as [|c r]; [reflexivity|]. cbn [spanDigits]. rewrite Hr. reflexivity.
  - cbn [allDigits forallb] in Hds. apply andb_prop in Hds. destruct Hds as [Hc Hds].
    rewrite Hc, IH by assumption. reflexivity.
Qed.


Lemma trimList_plain (l : list ascii) : forallb plain l = true -> trimList l = l.
Proof.
  intros H. unfold trimList.
  rewrite (StringFacts.dropWs_fixed false) by (apply StringFacts.plain_headClean; assumption).
  rewrite (StringFacts.dropWs_fixed true), rev_involutive; [reflexivity|].
  apply StringFacts.plain_headClean. rewrite forallb_forall in *. intros c Hc. apply H.
  apply in_rev. assumption.
Qed.

Lemma digit_code (c : ascii) : isDigit c = true -> (48 <= code c <= 57)%N.
Proof. unfold isDigit. intros H. apply andb_prop in H. destruct H as [?%N.leb_le ?%N.leb_le]. lia. Qed.

Lemma digit_plain (c : ascii) : isDigit c = true -> plain c = true.
Proof.
  intros H%digit_code. unfold plain. apply andb_true_intro. split; apply N.leb_le; lia.
Qed.

Lemma digits_plain (l : list ascii) : allDigits l = true -> forallb plain l = true.
Proof.
  unfold allDigits. rewrite !forallb_forall. intros H c Hc. apply digit_plain. auto.
Qed.

(** A digit is none of the characters of [chars]. *)
Lemma digit_isChar (c : ascii) (chars : string) :
  isDigit c = true -> forallb (fun d => negb (isDigit d)) (list_ascii_of_string chars) = true ->
  isChar c chars = false.
Proof.
  intros Hc Hall. unfold isChar. induction (list_ascii_of_string chars) as [|d l IH]; [reflexivity|].
  cbn [forallb existsb] in *. apply andb_prop in Hall. destruct Hall as [Hd Hl].
  rewrite IH by assumption. rewrite orb_false_r. apply N.eqb_neq. intros Heq.
  apply negb_true_iff in Hd. unfold isDigit in Hc, Hd. rewrite Heq in Hc. congruence.
Qed.

Lemma digit_not_Infinity (c : ascii) (l : list ascii) :
  isDigit c = true -> String.eqb (string_of_list_ascii (c :: l)) "Infinity" = false.
Proof.
  intros Hc. cbn [string_of_list_ascii String.eqb].
  destruct (Ascii.eqb_spec c "I") as [->|]; [discriminate|reflexivity].
Qed.

(** A literal that starts with a digit followed by a digit or a point is
    not a binary, octal or hexadecimal one. *)
Lemma parseNonDecimal_decimal (c x : ascii) (l : list ascii) :
  isDigit x = true \/ x = "."%char -> parseNonDecimal (c :: x :: l) = None.
Proof.
  intros Hx. unfold parseNonDecimal. destruct l as [|y l]; [reflexivity|].
  destruct (isChar c "0"); [|reflexivity].
  assert (Hb : isChar x "xX" = false /\ isChar x "oO" = false /\ isChar x "bB" = false).
  { destruct Hx as [Hx| ->]; [|repeat split; reflexivity].
    repeat split; apply digit_isChar; (assumption || reflexivity). }
  destruct Hb as (-> & -> & ->).
  destruct (radixVal 0 0 (y :: l)); reflexivity.
Qed.

(** Reading the integer part [a], a point and one digit [d]. *)
Lemma parseUnsignedDecimal_fixed (neg : bool) (a d : N) :
  (d < 10)%N ->
  parseUnsignedDecimal neg
    (list_ascii_of_string (decimalDigits a) ++ "."%char :: list_ascii_of_string (decimalDigits d))
  = ofDecimal neg (10 * a + d) (-1).
Proof.
  intros Hd. destruct (single_digit d Hd) as (cd & Hcd & Hdig & Hstep). rewrite Hcd.
  pose proof (allDigits_decimalDigits a) as Ha.
  pose proof (digitsVal_decimalDigits a) as Hval.
  pose proof (StringFacts.decimalDigits_nonempty a) as Hne.
  destruct (list_ascii_of_string (decimalDigits a)) as [|c1 A] eqn:HA.
  { exfalso. apply Hne. rewrite <- (string_of_list_ascii_of_string (decimalDigits a)), HA. reflexivity. }
  assert (Hc1 : isDigit c1 = true).
  { cbn [allDigits forallb] in Ha. apply andb_prop in Ha. tauto. }
  unfold parseUnsignedDecimal.
  change ((c1 :: A) ++ "."%char :: [cd])%list with (c1 :: (A ++ "."%char :: [cd]))%list.
  rewrite digit_not_Infinity by assumption.
  change (c1 :: (A ++ "."%char :: [cd]))%list with ((c1 :: A) ++ "."%char :: [cd])%list.
  rewrite spanDigits_app by (assumption || reflexivity).
  change (isChar "." ".") with true. cbv iota.
  change [cd] with ([cd] ++ [])%list at 1.
  rewrite spanDigits_app by (cbn [allDigits forallb]; rewrite ?Hdig; auto).
  cbn [List.app parseExponent List.length].
  change (c1 :: A ++ [cd])%list with ((c1 :: A) ++ [cd])%list.
  rewrite digitsVal_fold, fold_left_app, <- digitsVal_fold, Hval. cbn [fold_left].
  rewrite Hstep. reflexivity.
Qed.

Lemma ofDecimal_tenths (neg : bool) (n : N) :
  ofDecimal neg n (-1) =
  match n with
  | N0 => S754_zero neg
  | Npos p => ofRatio neg p 10
  end.
Proof.
  destruct n as [|p]; [reflexivity|]. unfold ofDecimal.
  change (Z.to_pos (10 ^ Z.max (-1) 0)) with 1%positive.
  change (Z.to_pos (10 ^ Z.max (- -1) 0)) with 10%positive.
  rewrite Pos.mul_1_r. reflexivity.
Qed.

(** Below [10^21], reading [x.toFixed(1)] back with [Number] is
    [roundTenths x]. *)
Lemma stringToNumber_toFixed1 (x : number) :
  isFinite x = true -> leb (ofZ (10 ^ 21)) (SFabs x) = false ->
  stringToNumber (toFixed1 x) = roundTenths x.
Proof.
  intros Hfin Hlt. destruct x as [s|s| |s m e]; try discriminate Hfin; [vm_compute; reflexivity|].
  clear Hfin. unfold toFixed1, roundTenths. rewrite Hlt.
  set (n := Z.to_N (tenths m e)).
  assert (Hd : (n mod 10 < 10)%N) by (apply N.mod_lt; discriminate).
  assert (Hn : (10 * (n / 10) + n mod 10 = n)%N) by (symmetry; apply N.div_mod; discriminate).
  assert (Hround : ofDecimal s n (-1) =
                   match tenths m e with Z.pos p => ofRatio s p 10 | _ => S754_zero s end).
  { rewrite ofDecimal_tenths. subst n. destruct (tenths m e); reflexivity. }
  rewrite <- Hround.
  replace (ofDecimal s n (-1)) with (ofDecimal s (10 * (n / 10) + n mod 10) (-1))
    by (rewrite Hn; reflexivity).
  rewrite <- (parseUnsignedDecimal_fixed s _ _ Hd).
  unfold stringToNumber.
  rewrite (chars_app (if s then "-" else "")), (chars_app (decimalDigits (n / 10))),
    (chars_app ".").
  pose proof (allDigits_decimalDigits (n / 10)) as Ha.
  pose proof (allDigits_decimalDigits (n mod 10)) as Hb.
  pose proof (StringFacts.decimalDigits_nonempty (n / 10)) as Hne.
  set (A := list_ascii_of_string (decimalDigits (n / 10))) in *.
  set (B := list_ascii_of_string (decimalDigits (n mod 10))) in *.
  change (list_ascii_of_string ".") with ["."%char].
  assert (Hplain : forallb plain (A ++ ["."%char] ++ B)%list = true).
  { rewrite !forallb_app, (digits_plain A Ha), (digits_plain B Hb). reflexivity. }
  destruct A as [|c1 A'] eqn:HA.
  { exfalso. apply Hne. rewrite <- (string_of_list_ascii_of_string (decimalDigits (n / 10))).
    fold A. rewrite HA. reflexivity. }
  assert (Hc1 : isDigit c1 = true).
  { cbn [allDigits forallb] in Ha. apply andb_prop in Ha. tauto. }
  destruct s.
  - change (list_ascii_of_string "-") with ["-"%char].
    rewrite trimList_plain by (cbn [List.app forallb] in *; rewrite Hplain; reflexivity).
    cbn [List.app]. unfold parseNonDecimal.
    destruct (A' ++ "."%char :: B)%list; reflexivity.
  - change (list_ascii_of_string "") with (@nil ascii).
    rewrite trimList_plain by exact Hplain.
    assert (Hnd : parseNonDecimal ((c1 :: A') ++ ["."%char] ++ B)%list = None).
    { destruct A' as [|c2 A'']; cbn [List.app]; apply parseNonDecimal_decimal;
        [right; reflexivity|left].
      cbn [allDigits forallb] in Ha. apply andb_prop in Ha. destruct Ha as [_ Ha].
      apply andb_prop in Ha. tauto. }
    change ([] ++ (c1 :: A') ++ ["."%char] ++ B)%list with (c1 :: (A' ++ ["."%char] ++ B))%list.
    cbv iota.
    change (c1 :: (A' ++ ["."%char] ++ B))%list with ((c1 :: A') ++ ["."%char] ++ B)%list.
    rewrite Hnd.
    rewrite (digit_isChar c1 "-"), (digit_isChar c1 "+") by (assumption || reflexivity).
    reflexivity.
Qed.

End ParseFacts.

(** * Facts about the risk scorer *)

Module ScorerFacts.

Lemma strictEq_among1 (o : option string) (a : string) : among o [a] = strictEq o a.
Proof. destruct o; simpl; [apply orb_false_r|reflexivity]. Qed.

Lemma strictEq_among2 (o : option string) (a b : string) :
  among o [a; b] = strictEq o a || strictEq o b.
Proof. destruct o; simpl; [rewrite orb_false_r; reflexivity|reflexivity]. Qed.

Lemma prefix_empty (k : string) : k <> "" -> String.prefix k "" = false.
Proof. destruct k; [congruence|reflexivity]. Qed.

(** The guard [!text] of [hasKeyword] changes nothing when no keyword is
    the empty string. *)
Lemma hasKeyword_containsAny (text : option string) (keywords : list string) :
  forallb (fun k => negb (String.eqb k "")) keywords = true ->
  hasKeyword text keywords = containsAny text keywords.
Proof.
  intros Hk. destruct text as [t|]; [|reflexivity]. unfold hasKeyword, containsAny.
  destruct (String.eqb_spec t "") as [->|Hne]; [|reflexivity].
  symmetry. induction keywords as [|k ks IH]; [reflexivity|].
  cbn [forallb] in Hk. apply andb_prop in Hk. destruct Hk as [Hk Hks].
  cbn [existsb]. rewrite IH by assumption.
  change (Js.toLowerCase "") with "". cbn [Js.includes].
  rewrite prefix_empty; [reflexivity|].
  intros ->. discriminate.
Qed.

Lemma geb_falsy (b k : Js.number) :
  Js.truthy b = false -> Js.isFinite k = true -> Js.truthy k = true ->
  Js.ltb k (Js.ofZ 0) = false -> Js.geb b k = false.
Proof.
  destruct b as [s|s| |s m e]; try discriminate; intros _;
    destruct k as [sk|sk| |sk mk ek]; try discriminate; intros _ _.
  - destruct sk; [discriminate|reflexivity].
  - reflexivity.
Qed.

Lemma checkBmi_rows (data : HealthSnapshot) (t : Tally) :
  checkBmi (bmiOf data) t = runTable data (firstn 2 riskTable) t.
Proof.
  unfold runTable, applyRow, checkBmi. cbn [firstn riskTable fold_left holds delta reasonText].
  destruct (bmiOf data) as [b|]; [|reflexivity]. cbn [present].
  destruct (Js.truthy b) eqn:Hb.
  - destruct (Js.geb b (Js.ofZ 30)); [reflexivity|].
    destruct (Js.geb b (Js.ofZ 25)); reflexivity.
  - rewrite !geb_falsy by (assumption || (vm_compute; reflexivity)). reflexivity.
Qed.

Lemma tallyStatus_table (data : HealthSnapshot) :
  tallyStatus data (bmiOf data) = runTable data riskTable (0, []).
Proof.
  unfold tallyStatus. cbv zeta. rewrite checkBmi_rows.
  generalize (0, @nil string). intros t.
  unfold runTable. rewrite <- (firstn_skipn 2 riskTable) at 2. rewrite fold_left_app.
  generalize (fold_left (applyRow data) (firstn 2 riskTable) t). clear t. intros t.
  cbn [skipn riskTable fold_left].
  unfold applyRow. cbn [holds delta reasonText].
  unfold checkConditions, checkFamilyHistory, checkSpo2, checkTemperature, checkHeartRate,
    checkAlcohol, checkSmoking, checkStress, checkSleep.
  rewrite !strictEq_among1, !strictEq_among2.
  rewrite <- !hasKeyword_containsAny by reflexivity.
  change present with defined.
  destruct (defined (sleep_hours data) _); destruct (_ || _);
    destruct (strictEq (smoking_status data) "regular");
    destruct (strictEq (alcohol_consumption data) "heavy"); reflexivity.
Qed.

Lemma runTable_filter (data : HealthSnapshot) (rows : list RiskRow) :
  forall t : Tally,
    runTable data rows t =
    (fst t + scoreOf (List.filter (fun r => holds r data) rows),
     (snd t ++ List.map reasonText (List.filter (fun r => holds r data) rows))%list).
Proof.
  unfold runTable. induction rows as [|r rows IH]; intros [sc rs].
  - cbn. rewrite Z.add_0_r, app_nil_r. reflexivity.
  - cbn [fold_left List.filter]. rewrite IH. unfold applyRow.
    destruct (holds r data); [|reflexivity].
    cbn [fst snd flag List.map]. rewrite <- app_assoc. f_equal.
    unfold scoreOf. cbn [fold_right]. lia.
Qed.

Lemma tallyStatus_triggered (data : HealthSnapshot) :
  tallyStatus data (bmiOf data) =
  (scoreOf (triggered data), List.map reasonText (triggered data)).
Proof. rewrite tallyStatus_table, runTable_filter. reflexivity. Qed.

Lemma levelOf_mapping (score : Z) : levelOf score = levelMapping score.
Proof.
  unfold levelOf, levelMapping.
  destruct (4 <=? score) eqn:H4; [reflexivity|].
  destruct (2 <=? score); [|reflexivity].
  replace (score <? 4) with true; [reflexivity|]. symmetry. apply Z.ltb_lt.
  apply Z.leb_gt in H4. assumption.
Qed.

Lemma summarizeStatus_tally (data : HealthSnapshot) :
  summarizeStatus data =
  let t := tallyStatus data (bmiOf data) in
  {| level := levelOf (fst t); summary := summaryOf (levelOf (fst t));
     bmi := bmiOf data; reasons := snd t |}.
Proof.
  unfold summarizeStatus. fold (bmiOf data). destruct (tallyStatus data (bmiOf data)). reflexivity.
Qed.

Lemma score_bounds (rows : list RiskRow) :
  Forall (fun r => delta r = 1 \/ delta r = 2) rows ->
  Z.of_nat (List.length (List.map reasonText rows)) <= scoreOf rows
  <= 2 * Z.of_nat (List.length (List.map reasonText rows)).
Proof.
  induction 1 as [|r rows Hr _ IH]; [cbn; lia|].
  cbn [List.map List.length scoreOf fold_right]. fold (scoreOf rows). lia.
Qed.

Lemma riskTable_deltas : Forall (fun r => delta r = 1 \/ delta r = 2) riskTable.
Proof. unfold riskTable. repeat (apply List.Forall_cons; [cbn; lia|]). apply List.Forall_nil. Qed.

Lemma triggered_deltas (data : HealthSnapshot) :
  Forall (fun r => delta r = 1 \/ delta r = 2) (triggered data).
Proof.
  apply List.Forall_forall. intros r Hr. apply List.filter_In in Hr. destruct Hr as [Hr _].
  exact (proj1 (List.Forall_forall _ _) riskTable_deltas r Hr).
Qed.

End ScorerFacts.

(** * Facts about the insight generator *)

Module InsightFacts.

Lemma pushIf_cons {A : Type} (c : bool) (x a : A) (l : list A) :
  pushIf c x (a :: l) = a :: pushIf c x l.
Proof. destruct c; reflexivity. Qed.

Lemma map_pushIf {A B : Type} (f : A -> B) (c : bool) (x : A) (l : list A) :
  List.map f (pushIf c x l) = (List.map f l ++ (if c then [f x] else []))%list.
Proof. destruct c; cbn [pushIf]; [apply List.map_app|symmetry; apply app_nil_r]. Qed.

Lemma titles_filter_cons (data : HealthSnapshot) (r : string * (HealthSnapshot -> bool))
    (rows : list (string * (HealthSnapshot -> bool))) :
  List.map fst (List.filter (fun r => snd r data) (r :: rows)) =
  ((if snd r data then [fst r] else []) ++ List.map fst (List.filter (fun r => snd r data) rows))%list.
Proof. cbn [List.filter]. destruct (snd r data); reflexivity. Qed.

Lemma activity_condition (o : option string) :
  truthyString o && (strictEq o "sedentary" || strictEq o "light") = among o ["sedentary"; "light"].
Proof.
  rewrite ScorerFacts.strictEq_among2. destruct o as [s|]; [|reflexivity].
  cbn [truthyString strictEq]. destruct (String.eqb_spec s "") as [->|]; reflexivity.
Qed.

Lemma bmi_summarizeStatus (data : HealthSnapshot) : bmi (summarizeStatus data) = bmiOf data.
Proof. rewrite ScorerFacts.summarizeStatus_tally. reflexivity. Qed.

(** The insights after the first one, as the source pushes them. *)
Lemma buildInsights_head (data : HealthSnapshot) :
  exists rest, buildInsights data = overallInsight (summarizeStatus data) :: rest.
Proof.
  unfold buildInsights. cbv zeta.
  destruct (bmi (summarizeStatus data)) as [b|]; rewrite !pushIf_cons; eexists; reflexivity.
Qed.

Lemma buildInsights_titles (data : HealthSnapshot) :
  List.map HealthInsight.title (buildInsights data) =
  "Overall status" :: List.map fst (List.filter (fun r => snd r data) insightTable).
Proof.
  unfold buildInsights. cbv zeta. rewrite !map_pushIf. cbn [HealthInsight.title].
  rewrite bmi_summarizeStatus.
  unfold insightTable. rewrite !titles_filter_cons. cbn [fst snd List.filter List.map].
  rewrite activity_condition, <- !ScorerFacts.strictEq_among2.
  rewrite <- !ScorerFacts.hasKeyword_containsAny by reflexivity.
  change present with defined. rewrite <- !app_assoc, app_nil_r.
  unfold truthyNumber.
  destruct (bmiOf data) as [b|]; [rewrite map_pushIf|]; reflexivity.
Qed.

Lemma NoDup_map_filter {A B : Type} (f : A -> B) (P : A -> bool) (l : list A) :
  List.NoDup (List.map f l) -> List.NoDup (List.map f (List.filter P l)).
Proof.
  induction l as [|a l IH]; cbn [List.map List.filter]; intros H; [constructor|].
  inversion H as [|? ? Hnot Hnd]; subst.
  destruct (P a); [|auto]. cbn [List.map]. constructor; [|auto].
  intros Hin. apply Hnot. apply List.in_map_iff in Hin. destruct Hin as (x & Hx & Hin).
  apply List.filter_In in Hin. apply List.in_map_iff. exists x. tauto.
Qed.

Lemma allTitles_NoDup : List.NoDup allTitles.
Proof.
  unfold allTitles, insightTable. cbn [List.map fst].
  repeat (constructor; [cbn [In]; intuition discriminate|]). constructor.
Qed.

Lemma titles_incl (data : HealthSnapshot) :
  incl (List.map HealthInsight.title (buildInsights data)) allTitles.
Proof.
  rewrite buildInsights_titles. unfold allTitles. intros t [<-|Hin]; [left; reflexivity|right].
  apply List.in_map_iff in Hin. destruct Hin as (r & <- & Hin). apply List.filter_In in Hin.
  apply List.in_map. tauto.
Qed.

End InsightFacts.

(** * Facts about the recommendation generator *)

Module RecommendationFacts.
Import Recommendation.

Section Add.
Variable r : Recommendation.t.

Lemma add_spec (recs : list Recommendation.t) :
  (exists x, In x recs /\ specialty x = specialty r) /\ add r recs = recs
  \/ (forall x, In x recs -> specialty x <> specialty r) /\ add r recs = (recs ++ [r])%list.
Proof.
  unfold add.
  destruct (List.find (fun r0 => String.eqb (specialty r0) (specialty r)) recs) as [x|] eqn:Hf.
  - left. apply List.find_some in Hf. destruct Hf as [Hin Heq%String.eqb_eq]. eauto.
  - right. split; [|reflexivity]. intros x Hin Heq.
    pose proof (List.find_none _ _ Hf x Hin) as Hx. cbn in Hx.
    apply String.eqb_neq in Hx. contradiction.
Qed.

Lemma add_NoDup (recs : list Recommendation.t) :
  List.NoDup (List.map specialty recs) -> List.NoDup (List.map specialty (add r recs)).
Proof.
  intros Hnd. destruct (add_spec recs) as [[_ ->]|[Hnew ->]]; [assumption|].
  rewrite List.map_app. cbn [List.map].
  apply List.NoDup_app; [assumption|repeat constructor; intros []|].
  intros s Hin [<-|[]]. apply List.in_map_iff in Hin. destruct Hin as (x & Hx & Hin).
  exact (Hnew x Hin Hx).
Qed.
End Add.

Lemma addFrom_NoDup (cands : list Recommendation.t) :
  forall recs, List.NoDup (List.map specialty recs) ->
    List.NoDup (List.map specialty (addFrom recs cands)).
Proof.
  unfold addFrom. induction cands as [|a cands IH]; intros recs Hnd; [assumption|].
  cbn [fold_left]. apply IH. apply add_NoDup. assumption.
Qed.

(** First writer wins: an entry is in the array when it was there from
    the start, or no entry had its specialty and it is the first candidate
    with it. *)
Lemma addFrom_first (cands : list Recommendation.t) (r : Recommendation.t) :
  forall recs,
    In r (addFrom recs cands) <->
    In r recs \/
    ((forall x, In x recs -> specialty x <> specialty r)
     /\ List.find (sameSpecialty r) cands = Some r).
Proof.
  unfold addFrom. induction cands as [|a cands IH]; intros recs.
  - cbn. split; [auto|]. intros [H|[_ H]]; [assumption|discriminate].
  - cbn [fold_left List.find]. rewrite IH. unfold sameSpecialty at 2.
    destruct (add_spec a recs) as [[(x0 & Hx0 & Hs0) ->]|[Hnew ->]];
      destruct (String.eqb_spec (specialty a) (specialty r)) as [Heq|Hne].
    + split; (intros [H|[Hno H]]; [left; assumption|]); exfalso; apply (Hno x0 Hx0); congruence.
    + reflexivity.
    + split.
      * intros [H|[Hno _]].
        -- apply List.in_app_iff in H. destruct H as [H|[<-|[]]]; [left; assumption|].
           right. split; [assumption|reflexivity].
        -- exfalso. apply (Hno a); [apply List.in_app_iff; right; left; reflexivity|assumption].
      * intros [H|[Hno H]]; [left; apply List.in_app_iff; left; assumption|].
        injection H as <-. left. apply List.in_app_iff. right. left. reflexivity.
    + split.
      * intros [H|[Hno H]].
        -- apply List.in_app_iff in H. destruct H as [H|[<-|[]]]; [left; assumption|congruence].
        -- right. split; [|assumption]. intros x Hx. apply Hno. apply List.in_app_iff. left. assumption.
      * intros [H|[Hno H]]; [left; apply List.in_app_iff; left; assumption|].
        right. split; [|assumption]. intros x Hx.
        apply List.in_app_iff in Hx. destruct Hx as [Hx|[<-|[]]]; [auto|assumption].
Qed.

Lemma addAll_first (cands : list Recommendation.t) (r : Recommendation.t) :
  In r (addAll cands) <-> List.find (sameSpecialty r) cands = Some r.
Proof.
  change (addAll cands) with (addFrom [] cands). rewrite addFrom_first. cbn [In].
  split; [intros [[]|[_ H]]; assumption|]. intros H. right. split; [intros x []|assumption].
Qed.

Lemma addAll_NoDup (cands : list Recommendation.t) :
  List.NoDup (List.map specialty (addAll cands)).
Proof. apply (addFrom_NoDup cands []). constructor. Qed.

Lemma NoDup_firstn {A : Type} (n : nat) (l : list A) : List.NoDup l -> List.NoDup (firstn n l).
Proof.
  revert n. induction l as [|a l IH]; intros [|n] H; cbn [firstn]; try constructor.
  - inversion H as [|? ? Hnot Hnd]; subst. intros Hin. apply Hnot.
    rewrite <- (firstn_skipn n l). apply List.in_app_iff. left. assumption.
  - inversion H; subst. auto.
Qed.

Lemma collect_addAll (data : HealthSnapshot) :
  collectRecommendations data = addAll (firedRecommendations data).
Proof.
  unfold collectRecommendations, firedRecommendations, recommendationRules, addAll.
  cbv zeta. cbn [List.filter fst].
  destruct (cardiologyTrigger data), (pulmonologyTrigger data),
    (endocrinologyTrigger data), (behavioralTrigger data); reflexivity.
Qed.

(** The entries of the result: one per rule that fires. *)
Lemma in_buildRecommendations (data : HealthSnapshot) (r : Recommendation.t) :
  In r (buildRecommendations data) <->
  (cardiologyTrigger data = true /\ r = cardiologyRec (symptomText data))
  \/ (pulmonologyTrigger data = true /\ r = pulmonologyRec data)
  \/ (endocrinologyTrigger data = true /\ r = endocrinologyRec)
  \/ (behavioralTrigger data = true /\ r = behavioralRec).
Proof.
  unfold buildRecommendations, collectRecommendations. cbv zeta.
  destruct (cardiologyTrigger data), (pulmonologyTrigger data),
    (endocrinologyTrigger data), (behavioralTrigger data);
    cbn -[hasKeyword strictEq symptomText]; intuition (discriminate || auto).
Qed.

Lemma cardiologyTrigger_spec (data : HealthSnapshot) :
  cardiologyTrigger data = true <->
  containsAny (Some (symptomText data)) ["chest pain"; "shortness of breath"; "palpitations"] = true
  \/ containsAny (family_history data) ["heart"; "cardiac"] = true
  \/ containsAny (conditions data) ["hypertension"] = true.
Proof.
  unfold cardiologyTrigger. rewrite !ScorerFacts.hasKeyword_containsAny by reflexivity.
  rewrite !orb_true_iff. tauto.
Qed.

End RecommendationFacts.

(** * Facts about the normalizer *)

Module NormalizerFacts.

Lemma nonEmpty_spec (s : string) : nonEmpty s = if String.eqb s "" then None else Some s.
Proof. reflexivity. Qed.

Lemma stringVal_trimmed (v : value) : trimmedOrAbsent (stringVal v).
Proof.
  destruct v as [| |b|x|s|]; cbn [stringVal trimmedOrAbsent]; trivial.
  - destruct (Js.isFinite x) eqn:Hfin; cbn; [|trivial].
    destruct (StringFacts.numberToString_plain x Hfin) as [Hp Hne].
    split; [assumption|]. apply StringFacts.plain_trim. assumption.
  - unfold nonEmpty. destruct (String.eqb_spec (Js.trim s) "") as [|Hne]; cbn; [trivial|].
    split; [assumption|apply StringFacts.trim_idem].
Qed.

Lemma numberVal_finite (v : value) : finiteOrAbsent (numberVal v).
Proof.
  destruct v as [| |b|x|s|]; cbn [numberVal finiteOrAbsent]; trivial.
  - destruct (Js.isFinite x) eqn:Hfin; cbn; trivial.
  - destruct (Js.isFinite (Js.stringToNumber (Js.trim s))) eqn:Hfin; cbn; trivial.
Qed.

(** [numberVal] by cases: a number passes when it is finite, a string
    when [Number] reads a finite number in what [trim] leaves of it, and
    no other value does. *)
Lemma numberVal_cases (v : value) :
  match v with
  | VNumber x => numberVal v = if Js.isFinite x then Some x else None
  | VString s =>
      numberVal v =
      if Js.isFinite (Js.stringToNumber (Js.trim s)) then Some (Js.stringToNumber (Js.trim s))
      else None
  | _ => numberVal v = None
  end.
Proof. destruct v; reflexivity. Qed.

Lemma normalize_wellFormed (raw : option RawRecord) : wellFormed (normalizeOnboardingData raw).
Proof.
  unfold wellFormed, numericFields, stringFields, normalizeOnboardingData. cbv zeta.
  cbn [full_name age sex height weight blood_type allergies conditions medications
       medical_history past_reports prescriptions symptoms_current symptoms_past location
       smoking_status alcohol_consumption exercise_frequency diet_type sleep_hours
       stress_level family_history health_goals emergency_contact_name
       emergency_contact_phone blood_pressure heart_rate temperature_c spo2 diagnosis
       treatment_plan doctor_notes].
  split; [|split].
  - repeat (apply List.Forall_cons; [apply numberVal_finite|]). apply List.Forall_nil.
  - repeat (apply List.Forall_cons; [apply stringVal_trimmed || exact I|]). apply List.Forall_nil.
  - pose proof (stringVal_trimmed (prop (default ∅ raw) "full_name")) as H.
    destruct (stringVal (prop (default ∅ raw) "full_name")); [right; exact H|left; reflexivity].
Qed.

Lemma stringVal_ofString (o : option string) : trimmedOrAbsent o -> stringVal (ofString o) = o.
Proof.
  destruct o as [s|]; [|reflexivity]. intros [Hne Htrim].
  cbn [ofString stringVal]. rewrite Htrim. unfold nonEmpty.
  destruct (String.eqb_spec s ""); [contradiction|reflexivity].
Qed.

Lemma numberVal_ofNumber (o : option Js.number) : finiteOrAbsent o -> numberVal (ofNumber o) = o.
Proof.
  destruct o as [x|]; [|reflexivity]. cbn [finiteOrAbsent ofNumber numberVal]. intros ->. reflexivity.
Qed.

Lemma full_name_fixed (n : string) :
  n = "" \/ trimmed n -> default "" (stringVal (VString n)) = n.
Proof.
  intros [->|H]; [reflexivity|]. change (VString n) with (ofString (Some n)).
  rewrite stringVal_ofString by exact H. reflexivity.
Qed.

(** A snapshot that satisfies the invariant, and has none of the three
    fields the normalizer does not write, is its own normal form. *)
Lemma normalize_fixed (s : HealthSnapshot) :
  wellFormed s -> diagnosis s = None -> treatment_plan s = None -> doctor_notes s = None ->
  normalizeOnboardingData (Some (toRaw s)) = s.
Proof.
  unfold wellFormed, numericFields, stringFields.
  intros (Hn & Hs & Hf) Hd Ht Hn'.
  repeat match goal with H : List.Forall _ (_ :: _) |- _ =>
    apply List.Forall_cons_iff in H; destruct H as [? H] end.
  unfold normalizeOnboardingData. cbv zeta.
  change (default ∅ (Some (toRaw s))) with (toRaw s).
  repeat match goal with
  | |- context [prop (toRaw s) ?k] =>
      let v := eval vm_compute in (prop (toRaw s) k) in
      change (prop (toRaw s) k) with v
  end.
  destruct s. cbn in *. subst.
  f_equal; solve [ apply full_name_fixed; assumption
                 | apply stringVal_ofString; assumption
                 | apply numberVal_ofNumber; assumption ].
Qed.

End NormalizerFacts.

(** * Facts about the body mass index *)

Module BmiFacts.

Lemma computeBMI_finite (h w : option Js.number) (b : Js.number) :
  computeBMI h w = Some b -> Js.isFinite b = true.
Proof.
  unfold computeBMI. destruct h as [h|], w as [w|]; try discriminate.
  destruct (negb (Js.truthy h) || negb (Js.truthy w)); [discriminate|].
  destruct (Js.leb _ _); [discriminate|].
  destruct (Js.isFinite (Js.div w _)) eqn:Hfin; [|discriminate].
  intros H. injection H as <-.
  apply NumberFacts.roundTenths_finite; [assumption|].
  intros s m e Heq. exact (NumberFacts.div_mantissa _ _ _ _ _ Heq).
Qed.

Lemma computeBMI_negative_height (h : Js.number) (w : option Js.number) :
  Js.ltb h (Js.ofZ 0) = true -> computeBMI (Some h) w = None.
Proof.
  intros Hneg. unfold computeBMI. destruct w as [w|]; [|reflexivity].
  destruct (negb (Js.truthy h) || negb (Js.truthy w)); [reflexivity|].
  replace (Js.ofZ 100) with (S754_finite false 7036874417766400 (-46)) by (vm_compute; reflexivity).
  change (Js.ofZ 0) with (S754_zero false) in *.
  rewrite NumberFacts.div_negative by assumption. reflexivity.
Qed.

(** A result is the quotient of the weight by the squared height in
    metres, rounded to one decimal: the number [Number] reads in the text
    of [toFixed(1)]. *)
Lemma computeBMI_rounds (h w b : Js.number) :
  computeBMI (Some h) (Some w) = Some b ->
  let heightM := Js.div h (Js.ofZ 100) in
  let q := Js.div w (Js.mul heightM heightM) in
  b = Js.roundTenths q
  /\ (Js.leb (Js.ofZ (10 ^ 21)) (SFabs q) = false -> b = Js.stringToNumber (Js.toFixed1 q)).
Proof.
  unfold computeBMI. cbv zeta.
  destruct (negb (Js.truthy h) || negb (Js.truthy w)); [discriminate|].
  destruct (Js.leb _ _); [discriminate|].
  destruct (Js.isFinite (Js.div w _)) eqn:Hfin; [|discriminate].
  intros H. injection H as <-. split; [reflexivity|].
  intros Hlt. symmetry. apply ParseFacts.stringToNumber_toFixed1; assumption.
Qed.

End BmiFacts.

(** * Facts about what the normalizer reads *)

Module NormalizerReads.

Lemma stringVal_trimValue (v : value) : stringVal (trimValue v) = stringVal v.
Proof. destruct v; cbn; try reflexivity. rewrite StringFacts.trim_idem. reflexivity. Qed.

Lemma numberVal_trimValue (v : value) : numberVal (trimValue v) = numberVal v.
Proof. destruct v; cbn; try reflexivity. rewrite StringFacts.trim_idem. reflexivity. Qed.

Lemma prop_trimValue (raw : RawRecord) (k : string) :
  prop (trimValue <$> raw) k = trimValue (prop raw k).
Proof. unfold prop. rewrite lookup_fmap. destruct (raw !! k); reflexivity. Qed.

End NormalizerReads.

(** * Facts about reasons, titles and specialties *)

Module SignalFacts.

Lemma keyed_filter {A : Type} (key : A -> string) (P : A -> bool) (l : list A) (r : A) :
  List.NoDup (List.map key l) -> In r l ->
  (In (key r) (List.map key (List.filter P l)) <-> P r = true).
Proof.
  intros Hnd Hin. split.
  - intros H. apply List.in_map_iff in H. destruct H as (x & Hk & Hx).
    apply List.filter_In in Hx. destruct Hx as [Hx HP].
    assert (x = r) as <-; [|assumption].
    clear HP. induction l as [|a l IH]; [destruct Hin|].
    cbn in Hnd. apply List.NoDup_cons_iff in Hnd. destruct Hnd as [Hna Hnd].
    destruct Hin as [->|Hin], Hx as [->|Hx]; try reflexivity.
    + exfalso. apply Hna. rewrite <- Hk. apply List.in_map. assumption.
    + exfalso. apply Hna. rewrite Hk. apply List.in_map. assumption.
    + apply IH; assumption.
  - intros HP. apply List.in_map. apply List.filter_In. split; assumption.
Qed.

Lemma riskTable_NoDup : List.NoDup (List.map reasonText riskTable).
Proof.
  unfold riskTable. cbn [List.map reasonText].
  repeat (apply List.NoDup_cons; [cbn [In]; intuition discriminate|]). apply List.NoDup_nil.
Qed.

Lemma insightTable_NoDup : List.NoDup (List.map fst insightTable).
Proof.
  unfold insightTable. cbn [List.map fst].
  repeat (apply List.NoDup_cons; [cbn [In]; intuition discriminate|]). apply List.NoDup_nil.
Qed.

Lemma reasons_triggered (d : HealthSnapshot) :
  reasons (summarizeStatus d) = List.map reasonText (triggered d).
Proof.
  rewrite ScorerFacts.summarizeStatus_tally. cbn [reasons].
  rewrite ScorerFacts.tallyStatus_triggered. reflexivity.
Qed.

(** The reason of a row is listed exactly when the row holds. *)
Lemma reason_nth (d : HealthSnapshot) (n : nat) (r : RiskRow) :
  nth_error riskTable n = Some r ->
  (In (reasonText r) (reasons (summarizeStatus d)) <-> holds r d = true).
Proof.
  intros Hn. rewrite reasons_triggered. unfold triggered.
  apply (keyed_filter reasonText (fun r => holds r d)).
  - exact riskTable_NoDup.
  - eapply List.nth_error_In. eassumption.
Qed.

(** The title of a conditional insight is there exactly when its condition holds. *)
Lemma title_nth (d : HealthSnapshot) (n : nat) (r : string * (HealthSnapshot -> bool)) :
  nth_error insightTable n = Some r ->
  (In (fst r) (titlesOf d) <-> snd r d = true).
Proof.
  intros Hn. unfold titlesOf. rewrite InsightFacts.buildInsights_titles.
  assert (Hr : In r insightTable) by (eapply List.nth_error_In; eassumption).
  split.
  - intros [H|H].
    + exfalso. apply (List.in_map fst) in Hr. rewrite <- H in Hr.
      unfold insightTable in Hr. cbn [List.map fst In] in Hr. intuition discriminate.
    + apply (keyed_filter fst (fun r => snd r d) insightTable r insightTable_NoDup Hr).
      assumption.
  - intros H. right.
    apply (keyed_filter fst (fun r => snd r d) insightTable r insightTable_NoDup Hr).
    assumption.
Qed.

Lemma specialty_in (d : HealthSnapshot) :
  (In "Cardiology" (specialtiesOf d) <-> cardiologyTrigger d = true)
  /\ (In "Pulmonology" (specialtiesOf d) <-> pulmonologyTrigger d = true)
  /\ (In "Endocrinology" (specialtiesOf d) <-> endocrinologyTrigger d = true)
  /\ (In "Behavioral Health" (specialtiesOf d) <-> behavioralTrigger d = true).
Proof.
  unfold specialtiesOf.
  repeat split; intros H.
  all: try (apply List.in_map_iff in H; destruct H as (r & Hs & Hr);
            apply RecommendationFacts.in_buildRecommendations in Hr;
            destruct Hr as [[Ht ->]|[[Ht ->]|[[Ht ->]|[Ht ->]]]];
            cbn [Recommendation.specialty cardiologyRec pulmonologyRec endocrinologyRec behavioralRec] in Hs;
            first [discriminate Hs | exact Ht]).
  - apply List.in_map_iff. exists (cardiologyRec (symptomText d)). split; [reflexivity|].
    apply RecommendationFacts.in_buildRecommendations. auto.
  - apply List.in_map_iff. exists (pulmonologyRec d). split; [reflexivity|].
    apply RecommendationFacts.in_buildRecommendations. auto.
  - apply List.in_map_iff. exists endocrinologyRec. split; [reflexivity|].
    apply RecommendationFacts.in_buildRecommendations. auto.
  - apply List.in_map_iff. exists behavioralRec. split; [reflexivity|].
    apply RecommendationFacts.in_buildRecommendations. auto 6.
Qed.

(** Below six is below seven, on every float. *)
Lemma ltb_widen (x : Js.number) (m1 m2 : positive) (e : Z) :
  (m1 <= m2)%positive ->
  Js.ltb x (S754_finite false m1 e) = true -> Js.ltb x (S754_finite false m2 e) = true.
Proof.
  intros Hm. unfold Js.ltb, SFltb.
  destruct x as [s|s| |s m ex]; cbn [SFcompare]; try (intros H; exact H).
  destruct s; [intros; reflexivity|].
  destruct (Z.compare ex e); try (intros H; exact H).
  rewrite !Pos.compare_cont_spec. cbn [Pos.switch_Eq].
  destruct (Pos.compare_spec m m1) as [->|Hlt|Hgt]; intros H; try discriminate H.
  destruct (Pos.compare_spec m m2) as [->|Hlt'|Hgt']; try reflexivity; lia.
Qed.

Lemma ltb_6_7 (x : Js.number) :
  Js.ltb x (Js.ofZ 6) = true -> Js.ltb x (Js.ofZ 7) = true.
Proof.
  assert (H6 : Js.ofZ 6 = S754_finite false 6755399441055744 (-50)) by (vm_compute; reflexivity).
  assert (H7 : Js.ofZ 7 = S754_finite false 7881299347898368 (-50)) by (vm_compute; reflexivity).
  revert H6 H7. generalize (Js.ofZ 6) (Js.ofZ 7). intros k6 k7 -> ->.
  apply ltb_widen. lia.
Qed.

End SignalFacts.

(** * Facts about keyword search *)

Module KeywordFacts.

Lemma containsAny_nonempty (o : option string) (ks : list string) :
  forallb (fun k => negb (String.eqb k "")) ks = true ->
  containsAny o ks = true -> truthyString o = true.
Proof.
  intros Hks H. rewrite <- ScorerFacts.hasKeyword_containsAny in H by assumption.
  destruct o as [s|]; [|discriminate H]. cbn in *.
  destruct (String.eqb s ""); [discriminate H|reflexivity].
Qed.

Lemma containsAny_cons (o : option string) (k : string) (ks : list string) :
  containsAny o (k :: ks) = containsAny o [k] || containsAny o ks.
Proof. destruct o; cbn; [rewrite orb_false_r|]; reflexivity. Qed.

End KeywordFacts.

(** * Bounds on the tally *)

Module TallyFacts.

Ltac bound_check :=
  unfold flag;
  repeat match goal with |- context [if ?c then _ else _] => destruct c end;
  cbn [fst snd]; rewrite ?List.length_app; cbn [List.length]; lia.

Lemma checkBmi_within (b : option Js.number) (t : Tally) : within 2 t (checkBmi b t).
Proof. unfold within, checkBmi. destruct b; [|lia]. bound_check. Qed.

Lemma checkSleep_within (d : HealthSnapshot) (t : Tally) : within 1 t (checkSleep d t).
Proof. unfold within, checkSleep. bound_check. Qed.

Lemma checkStress_within (d : HealthSnapshot) (t : Tally) : within 1 t (checkStress d t).
Proof. unfold within, checkStress. bound_check. Qed.

Lemma checkSmoking_within (d : HealthSnapshot) (t : Tally) : within 2 t (checkSmoking d t).
Proof. unfold within, checkSmoking. bound_check. Qed.

Lemma checkAlcohol_within (d : HealthSnapshot) (t : Tally) : within 2 t (checkAlcohol d t).
Proof. unfold within, checkAlcohol. bound_check. Qed.

Lemma checkHeartRate_within (d : HealthSnapshot) (t : Tally) : within 1 t (checkHeartRate d t).
Proof. unfold within, checkHeartRate. bound_check. Qed.

Lemma checkTemperature_within (d : HealthSnapshot) (t : Tally) :
  within 1 t (checkTemperature d t).
Proof. unfold within, checkTemperature. bound_check. Qed.

Lemma checkSpo2_within (d : HealthSnapshot) (t : Tally) : within 1 t (checkSpo2 d t).
Proof. unfold within, checkSpo2. bound_check. Qed.

Lemma checkFamilyHistory_within (d : HealthSnapshot) (t : Tally) :
  within 1 t (checkFamilyHistory d t).
Proof. unfold within, checkFamilyHistory. bound_check. Qed.

Lemma checkConditions_within (d : HealthSnapshot) (t : Tally) :
  within 1 t (checkConditions d t).
Proof. unfold within, checkConditions. bound_check. Qed.

Lemma tallyStatus_within (d : HealthSnapshot) (b : option Js.number) :
  fst (tallyStatus d b) <= 13 /\ (List.length (snd (tallyStatus d b)) <= 10)%nat.
Proof.
  unfold tallyStatus. cbv zeta.
  pose proof (checkBmi_within b (0, [])) as H0.
  pose proof (checkSleep_within d (checkBmi b (0, []))) as H1.
  pose proof (checkStress_within d (checkSleep d (checkBmi b (0, [])))) as H2.
  set (t2 := checkStress d (checkSleep d (checkBmi b (0, [])))) in *.
  pose proof (checkSmoking_within d t2) as H3.
  pose proof (checkAlcohol_within d (checkSmoking d t2)) as H4.
  pose proof (checkHeartRate_within d (checkAlcohol d (checkSmoking d t2))) as H5.
  set (t5 := checkHeartRate d (checkAlcohol d (checkSmoking d t2))) in *.
  pose proof (checkTemperature_within d t5) as H6.
  pose proof (checkSpo2_within d (checkTemperature d t5)) as H7.
  pose proof (checkFamilyHistory_within d (checkSpo2 d (checkTemperature d t5))) as H8.
  pose proof (checkConditions_within d
                (checkFamilyHistory d (checkSpo2 d (checkTemperature d t5)))) as H9.
  unfold within in *. cbn [fst snd List.length] in H0. lia.
Qed.

End TallyFacts.

(** * The elements of the insight list *)

Module SeverityFacts.

Lemma In_pushIf {A : Type} (c : bool) (x i : A) (l : list A) :
  In i (pushIf c x l) <-> In i l \/ (c = true /\ i = x).
Proof.
  unfold pushIf. destruct c.
  - rewrite List.in_app_iff. cbn. intuition congruence.
  - intuition discriminate.
Qed.

(** The insights of [buildInsights], one case each. *)
Ltac insight_cases d Hin :=
  unfold buildInsights in Hin; cbv zeta in Hin;
  rewrite !In_pushIf in Hin; rewrite InsightFacts.bmi_summarizeStatus in Hin;
  let b := fresh "b" in
  let Hbmi := fresh "Hbmi" in
  destruct (bmiOf d) as [b|] eqn:Hbmi; rewrite ?In_pushIf in Hin; cbn [In] in Hin;
  decompose [or and] Hin; clear Hin; try contradiction; subst.

End SeverityFacts.

(** * Facts about the sign of the body mass index *)

Module SignFacts.
Import Js.

Lemma square_sign (x : number) : leb x (S754_zero false) = false -> positiveOrNaN (mul x x).
Proof.
  destruct x as [s|s| |s m e]; cbn; try discriminate; try (intros; exact I).
  - destruct s; [discriminate|intros; exact I].
  - destruct s; [discriminate|intros _].
    destruct (NumberFacts.binary_round_aux_spec false (Z.pos (m * m)) (e + e) loc_Exact)
      as (m2 & e2 & Hr & Hm2 & _); [lia|].
    unfold mul, SFmul. cbn [xorb]. rewrite Hr.
    destruct m2 as [|p|p]; [exact I| |lia].
    destruct (e2 <=? emax - prec); exact I.
Qed.

Lemma div_sign (w y : number) :
  ltb w (S754_zero false) = true -> positiveOrNaN y -> isFinite (div w y) = true ->
  nonPositive (div w y).
Proof.
  intros Hw Hy Hfin. unfold nonPositive.
  destruct y as [sy|sy| |sy my ey]; try destruct sy; try contradiction.
  - destruct w as [sw|sw| |sw mw ew]; try discriminate Hw; try discriminate Hfin.
  - destruct w as [sw|sw| |sw mw ew]; try discriminate Hw; try discriminate Hfin.
    destruct sw; [reflexivity|discriminate Hw].
  - destruct w; discriminate Hfin.
  - apply NumberFacts.div_negative. assumption.
Qed.

Lemma roundTenths_sign (q : number) : nonPositive q -> nonPositive (roundTenths q).
Proof.
  unfold nonPositive. destruct q as [s|s| |s m e]; try (intros H; exact H).
  destruct s; [intros _|intros H; discriminate H].
  unfold roundTenths.
  destruct (leb (ofZ (10 ^ 21)) (SFabs (S754_finite true m e))); [reflexivity|].
  destruct (tenths m e) as [|n|n]; try reflexivity.
  apply NumberFacts.div_negative. reflexivity.
Qed.

Lemma below_positive (b : number) (mk : positive) (ek : Z) :
  nonPositive b -> truthy b = true ->
  geb b (S754_finite false mk ek) = false /\ ltb b (S754_finite false mk ek) = true.
Proof.
  unfold nonPositive.
  destruct b as [s|s| |s m e]; try discriminate; destruct s; try discriminate; intros _ _;
    split; reflexivity.
Qed.

Lemma nonPositive_underweight (b : number) :
  nonPositive b -> truthy b = true ->
  geb b (ofZ 30) = false /\ geb b (ofZ 25) = false /\ bmiCategory b = underweight.
Proof.
  intros Hb Ht. unfold bmiCategory.
  assert (H30 : exists m e, ofZ 30 = S754_finite false m e) by (vm_compute; eauto).
  assert (H25 : exists m e, ofZ 25 = S754_finite false m e) by (vm_compute; eauto).
  assert (H18 : exists m e, ofDecimal false 185 (-1) = S754_finite false m e)
    by (vm_compute; eauto).
  revert H30 H25 H18.
  generalize (ofZ 30) (ofZ 25) (ofDecimal false 185 (-1)).
  intros k30 k25 k18 (m30 & e30 & ->) (m25 & e25 & ->) (m18 & e18 & ->).
  rewrite (proj1 (below_positive b m30 e30 Hb Ht)), (proj1 (below_positive b m25 e25 Hb Ht)),
    (proj2 (below_positive b m18 e18 Hb Ht)).
  repeat split.
Qed.

Lemma computeBMI_sign (h w b : number) :
  ltb w (ofZ 0) = true -> computeBMI (Some h) (Some w) = Some b -> nonPositive b.
Proof.
  intros Hw Hb. unfold computeBMI in Hb.
  destruct (negb (truthy h) || negb (truthy w)); [discriminate Hb|].
  change (ofZ 0) with (S754_zero false) in *.
  destruct (leb (div h (ofZ 100)) (S754_zero false)) eqn:Hhm; [discriminate Hb|].
  destruct (isFinite (div w (mul (div h (ofZ 100)) (div h (ofZ 100))))) eqn:Hfin;
    [|discriminate Hb].
  injection Hb as <-.
  apply roundTenths_sign. apply div_sign; [assumption| |assumption].
  apply square_sign. assumption.
Qed.

End SignFacts.

(** * Facts about the texts of the pages *)

Module PageFacts.

Lemma numberVal_blank (s : string) :
  Js.trim s = "" -> numberVal (VString s) = Some (S754_zero false).
Proof. intros H. unfold numberVal. rewrite H. reflexivity. Qed.

Lemma allPlain_neq (s t : string) : allPlain s = true -> allPlain t = false -> s <> t.
Proof. intros Hs Ht ->. rewrite Hs in Ht. discriminate Ht. Qed.

(** What [toFixed(1)] writes for a number that is not finite. *)
Lemma toFixed1_not_finite (q : Js.number) :
  Js.isFinite q = false -> In (Js.toFixed1 q) ["Infinity"; "-Infinity"; "NaN"].
Proof.
  destruct q as [s|s| |s m e]; try discriminate; intros _; cbn.
  - destruct s; cbn; tauto.
  - tauto.
Qed.

End PageFacts.

(** * Facts about the cells of the dashboard *)

Module CellFacts.

Lemma numberToString_nonempty (x : Js.number) : Js.numberToString x <> "".
Proof.
  destruct x as [s|s| |s m e].
  - discriminate.
  - destruct s; discriminate.
  - discriminate.
  - apply (StringFacts.numberToString_plain (S754_finite s m e)). reflexivity.
Qed.

Lemma formatNumber_nonempty (o : option Js.number) (suffix : option string) :
  Dashboard.formatNumber o suffix <> "".
Proof.
  unfold Dashboard.formatNumber. destruct o as [x|]; [|discriminate].
  destruct suffix as [sfx|]; [|apply numberToString_nonempty].
  destruct (String.eqb sfx ""); [apply numberToString_nonempty|].
  apply StringFacts.append_nonempty_l. apply numberToString_nonempty.
Qed.

Lemma fieldText_nonempty (o : option string) :
  trimmedOrAbsent o -> Dashboard.fieldText o <> "".
Proof. destruct o as [s|]; cbn; [intros [H _]; exact H|discriminate]. Qed.

End CellFacts.

(** * Enumerated insight details *)

Module DetailFacts.

(** The values a field can have when the condition [H] on it holds. *)
Ltac enumerate f H :=
  let s := fresh "s" in
  destruct f as [s|]; unfold truthyString, strictEq in H; [|discriminate H];
  repeat match type of H with
         | context [String.eqb s ?k] =>
             let E := fresh "E" in
             revert H; destruct (String.eqb s k) eqn:E; intros H;
             [apply String.eqb_eq in E; subst s;
              first [discriminate H | vm_compute; tauto]|]
         end;
  discriminate H.

End DetailFacts.

(** * Facts about the questionnaire *)

Module FormFacts.
Import Questionnaire.

Lemma numberOrUndefined_finite (v : string) : finiteOrAbsent (numberOrUndefined v).
Proof.
  unfold numberOrUndefined. destruct (String.eqb (Js.trim v) ""); [exact I|].
  destruct (Js.isFinite (Js.stringToNumber (Js.trim v))) eqn:H; [exact H|exact I].
Qed.

Lemma initial_shape : reachableShape initial.
Proof.
  unfold reachableShape, initial. cbn. repeat split; try lia; repeat constructor.
Qed.

Ltac split_shape H :=
  let Hr := fresh "Hrange" in
  let Hn := fresh "Hname" in
  let Hf := fresh "Hfin" in
  let Hu := fresh "Hnum" in
  let Hs := fresh "Hstr" in
  destruct H as (Hr & Hn & Hf & Hu & Hs).

Ltac shape_goal Hname :=
  unfold reachableShape; cbn [currentStep data error];
  split; [lia|split; [intros ?; first [assumption | lia | apply Hname; lia]
                     |repeat split; assumption]].

Lemma handleNext_shape (f : Form) : reachableShape f -> reachableShape (handleNext f).
Proof.
  intros H. split_shape H. unfold handleNext, validateStep, stepCount.
  destruct (Z.eqb_spec (currentStep f) 0) as [H0|H0]; cbn [andb].
  - destruct (blankText (full_name (data f))) eqn:Hb.
    + shape_goal Hname.
    + rewrite H0. cbn [Z.eqb]. shape_goal Hname.
  - destruct (Z.eqb_spec (currentStep f) 2) as [H2|H2].
    + destruct (blankField _); shape_goal Hname.
    + shape_goal Hname.
Qed.

Lemma handleBack_shape (f : Form) : reachableShape f -> reachableShape (handleBack f).
Proof. intros H. split_shape H. unfold handleBack. shape_goal Hname. Qed.

Lemma onChange_shape (f : Form) (c : Control) (v : string) :
  currentStep f = stepOf c -> reachableShape f -> reachableShape (updateData (onChange c v) f).
Proof.
  intros Hstep H. split_shape H.
  pose proof (numberOrUndefined_finite v) as Hv.
  unfold numericFields, unaskedNumbers, unaskedStrings in *.
  unfold reachableShape, updateData. cbn [currentStep data].
  unfold numericFields, unaskedNumbers, unaskedStrings.
  repeat match goal with H : List.Forall _ (_ :: _) |- _ =>
    apply List.Forall_cons_iff in H; destruct H as [? H] end.
  destruct c; cbn in Hstep |- *;
    (split; [assumption|split; [first [assumption | intros; lia]|]]);
    repeat split; repeat (apply List.Forall_cons; [assumption|]); try apply List.Forall_nil.
Qed.

Lemma react_shape (f : Form) (e : Event) : reachableShape f -> reachableShape (react f e).
Proof.
  intros H. destruct e as [| |c v|s|s]; cbn [react].
  - destruct (currentStep f =? stepCount - 1); [assumption|apply handleNext_shape; assumption].
  - destruct (currentStep f =? 0); [assumption|apply handleBack_shape; assumption].
  - destruct (Z.eqb_spec (currentStep f) (stepOf c)); [|assumption].
    apply onChange_shape; assumption.
  - split_shape H. unfold reachableShape, updateData. cbn. repeat split; assumption || lia.
  - split_shape H. unfold reachableShape, updateData. cbn. repeat split; assumption || lia.
Qed.

Lemma run_shape (events : list Event) :
  forall f, reachableShape f -> reachableShape (run events f).
Proof.
  induction events as [|e events IH]; intros f H; [exact H|].
  cbn [run fold_left]. apply IH. apply react_shape. exact H.
Qed.

Lemma reachable_shape (events : list Event) : reachableShape (run events initial).
Proof. apply run_shape. exact initial_shape. Qed.

(** The three cases in which [handleSubmit] calls [onSubmit]. *)
Lemma handleSubmit_submitted (voice : Voice) (f : Form) (p : HealthSnapshot) :
  handleSubmit voice f = Submitted p ->
  currentStep f = 2
  /\ blankText (full_name (data f)) = false
  /\ exists s, symptoms_current (data f) = Some s /\ blankText s = false
     /\ p = with_full_name (Js.trim (full_name (data f)))
              (with_symptoms_current (Some (Js.trim s))
                 (with_location (location (data f) ≫= fun l => nonEmpty (Js.trim l)) (data f))).
Proof.
  unfold handleSubmit, stepCount.
  destruct (Z.eqb_spec (currentStep f) (3 - 1)) as [Hs|Hs]; cbn [negb]; [|discriminate].
  destruct (_ && _); [discriminate|].
  unfold validateStep. rewrite Hs. cbn [Z.eqb andb Pos.eqb].
  destruct (symptoms_current (data f)) as [s|] eqn:Hsym; cbn [blankField]; [|discriminate].
  destruct (blankText s) eqn:Hb; [discriminate|].
  fold (blankText (full_name (data f))).
  destruct (blankText (full_name (data f))) eqn:Hn; [discriminate|].
  intros H. injection H as <-.
  split; [lia|]. split; [reflexivity|]. exists s. repeat split. exact Hb.
Qed.

(** The stored object read back: every field goes through its coercion
    again. *)
Lemma read_back (s : HealthSnapshot) :
  normalizeOnboardingData (Some (toRaw s)) =
  mkSnapshot
    (default "" (stringVal (VString (full_name s)))) (numberVal (ofNumber (age s)))
    (stringVal (ofString (sex s))) (numberVal (ofNumber (height s)))
    (numberVal (ofNumber (weight s))) (stringVal (ofString (blood_type s)))
    (stringVal (ofString (allergies s))) (stringVal (ofString (conditions s)))
    (stringVal (ofString (medications s))) (stringVal (ofString (medical_history s)))
    (stringVal (ofString (past_reports s))) (stringVal (ofString (prescriptions s)))
    (stringVal (ofString (symptoms_current s))) (stringVal (ofString (symptoms_past s)))
    (stringVal (ofString (location s))) (stringVal (ofString (smoking_status s)))
    (stringVal (ofString (alcohol_consumption s)))
    (stringVal (ofString (exercise_frequency s))) (stringVal (ofString (diet_type s)))
    (numberVal (ofNumber (sleep_hours s))) (stringVal (ofString (stress_level s)))
    (stringVal (ofString (family_history s))) (stringVal (ofString (health_goals s)))
    (stringVal (ofString (emergency_contact_name s)))
    (stringVal (ofString (emergency_contact_phone s)))
    (stringVal (ofString (blood_pressure s))) (numberVal (ofNumber (heart_rate s)))
    (numberVal (ofNumber (temperature_c s))) (numberVal (ofNumber (spo2 s))) None None None.
Proof.
  unfold normalizeOnboardingData. cbv zeta.
  change (default ∅ (Some (toRaw s))) with (toRaw s).
  repeat match goal with
  | |- context [prop (toRaw s) ?k] =>
      let v := eval vm_compute in (prop (toRaw s) k) in
      change (prop (toRaw s) k) with v
  end.
  destruct s. reflexivity.
Qed.

End FormFacts.

(** * Facts about a profile that comes from the questionnaire *)

Module ProfileFacts.
Import Questionnaire.

Lemma trimmed_trim (s : string) : blankText s = false -> trimmed (Js.trim s).
Proof.
  unfold blankText, trimmed. intros H. split.
  - intros Heq. rewrite Heq in H. discriminate H.
  - apply StringFacts.trim_idem.
Qed.

Lemma trimmedOrAbsent_trim (o : option string) :
  trimmedOrAbsent (o ≫= fun l => nonEmpty (Js.trim l)).
Proof.
  destruct o as [l|]; [|exact I]. cbn [mbind option_bind]. unfold nonEmpty.
  destruct (String.eqb (Js.trim l) "") eqn:H; [exact I|].
  apply trimmed_trim. exact H.
Qed.

(** The tally of a snapshot without the fields the questionnaire leaves out. *)
Lemma unasked_tally (d : HealthSnapshot) (b : option Js.number) :
  Forall (eq None) (unaskedNumbers d) -> Forall (eq None) (unaskedStrings d) ->
  tallyStatus d b = checkConditions d (checkBmi b (0, [])) /\ behavioralTrigger d = false.
Proof.
  unfold unaskedNumbers, unaskedStrings. intros Hn Hs.
  repeat match goal with H : List.Forall _ (_ :: _) |- _ =>
    apply List.Forall_cons_iff in H; destruct H as [? H] end.
  unfold tallyStatus, behavioralTrigger. cbv zeta.
  unfold checkSleep, checkStress, checkSmoking, checkAlcohol, checkHeartRate,
    checkTemperature, checkSpo2, checkFamilyHistory.
  repeat match goal with H : None = _ |- _ => rewrite <- H; clear H end.
  split; reflexivity.
Qed.

Lemma levelOf_action (score : Z) : levelOf score = action <-> 4 <= score.
Proof.
  unfold levelOf. destruct (Z.leb_spec 4 score); [tauto|].
  destruct (2 <=? score); split; try discriminate; lia.
Qed.

Lemma unasked_reasons (d : HealthSnapshot) (b : option Js.number) :
  let t := checkConditions d (checkBmi b (0, [])) in
  fst t <= 3
  /\ incl (snd t) ["BMI in obese range"; "BMI in overweight range"; "Chronic condition risk"].
Proof.
  cbv zeta. unfold checkConditions, checkBmi, flag.
  destruct b as [b|];
    repeat match goal with |- context [if ?c then _ else _] => destruct c end;
    cbn [fst snd List.app]; (split; [lia|]); intros r Hr; cbn [In] in *; tauto.
Qed.

End ProfileFacts.

(** * The test suite of the source, run on the model *)

Module Tests.

Example computes_BMI :
  computeBMI (Some (Js.ofZ 180)) (Some (Js.ofZ 81)) = Some (Js.ofZ 25)
  /\ computeBMI None (Some (Js.ofZ 81)) = None.
Proof. split; vm_compute; reflexivity. Qed.

Example normalizes_onboarding_data :
  let normalized := normalizeOnboardingData (Some normalizeFixture) in
  full_name normalized = "Jane"
  /\ age normalized = Some (Js.ofZ 30)
  /\ height normalized = Some (Js.ofZ 170)
  /\ weight normalized = None
  /\ symptoms_current normalized = Some "cough"
  /\ location normalized = Some "Mumbai"
  /\ heart_rate normalized = Some (Js.ofZ 110)
  /\ temperature_c normalized = Some (Js.ofDecimal false 382 (-1)).
Proof. vm_compute. repeat split. Qed.

Example builds_insights_and_recommendations :
  let data := normalizeOnboardingData (Some dashboardFixture) in
  List.map HealthInsight.title (buildInsights data) =
    [ "Overall status"; "Sleep hygiene"; "Current symptoms"; "Stress load"; "Tobacco risk";
      "Family history flags"; "Chronic conditions" ]
  /\ List.map Recommendation.specialty (buildRecommendations data) =
    [ "Cardiology"; "Pulmonology"; "Behavioral Health" ].
Proof. vm_compute. split; reflexivity. Qed.

(** A height below zero, a weight so small that the quotient rounds to
    zero, and a height so small that the quotient overflows. *)
Example computeBMI_edge_cases :
  computeBMI (Some (Js.ofZ (-170))) (Some (Js.ofZ 70)) = None
  /\ computeBMI (Some (Js.ofZ 180)) (Some (Js.ofDecimal false 1 (-1))) = Some (S754_zero false)
  /\ computeBMI (Some (Js.ofDecimal false 1 (-200))) (Some (Js.ofZ 70)) = None.
Proof. vm_compute. repeat split. Qed.

Example String_of_numbers :
  List.map (fun s => Js.numberToString (Js.stringToNumber s))
    [ "32.9"; "0.1"; "1e21"; "-38.25"; "0.000001"; "1e-7"; "5e-324"; "123.456" ]
  = [ "32.9"; "0.1"; "1e+21"; "-38.25"; "0.000001"; "1e-7"; "5e-324"; "123.456" ].
Proof. vm_compute. reflexivity. Qed.

(** From [10^21] on, where [toFixed] writes [String(x)], [Number] reads
    the text back as [x] on these values. *)
Example toFixed1_large :
  Forall (fun s =>
            let x := Js.stringToNumber s in
            Js.stringToNumber (Js.toFixed1 x) = Js.roundTenths x)
    [ "1e21"; "-1e21"; "123456789012345678901234"; "1.5e300"; "1.7976931348623157e308" ].
Proof. repeat (apply List.Forall_cons; [vm_compute; reflexivity|]). apply List.Forall_nil. Qed.

(** Keywords are searched in the lower-cased text. *)
Example keyword_search :
  containsAny (Some "Chest PAIN at night") ["chest pain"; "shortness of breath"] = true
  /\ hasKeyword (Some "Father had a STROKE") ["heart"; "cardiac"; "stroke"] = true
  /\ hasKeyword (Some "") ["heart"] = false
  /\ hasKeyword (Some "asthma") ["heart"; "cardiac"; "stroke"] = false.
Proof. vm_compute. repeat split. Qed.

(** The test of components/HealthDashboard. *)
Example renders_profile_and_recommendations :
  let d := normalizeOnboardingData (Some profileFixture) in
  Dashboard.cells d (Some "Jane Doe") (Some "jane@example.com") =
    [ "Jane Doe"; "Action needed"; "jane@example.com"; "32"; "female"; "170 cm"; "70 kg";
      "24.2"; "Mumbai"; "Diabetes type 2"; "HbA1c 7.2%"; "Metformin 500mg BID";
      "Hypertension"; "Not provided"; "Penicillin"; "O+"; "Not provided"; "light";
      "vegetarian"; "regular"; "moderate"; "6h"; "high";
      "Chest pain and shortness of breath"; "Occasional dizziness"; "Not provided";
      "105 bpm"; "37.9°C"; "93%"; "Not provided"; "Not provided"; "Not provided" ]
  /\ List.map Recommendation.title (buildRecommendations d) =
     [ "Cardiology consult"; "Lung health review"; "Stress & mood support" ]
  /\ In "SpO₂ 93% — below typical baseline." (List.map HealthInsight.detail (buildInsights d))
  /\ Overview.bmiStat (Some d) = "24.2".
Proof. vm_compute. repeat split; tauto. Qed.

(** The tests of components/MultiStepOnboarding. *)
Example requires_full_name_before_continuing :
  Questionnaire.error (Questionnaire.run [Questionnaire.Continue] Questionnaire.initial)
  = Some "Full name is required".
Proof. reflexivity. Qed.

Example prevents_empty_submission_via_keyboard :
  Questionnaire.handleSubmit Questionnaire.NoVoice Questionnaire.initial = Questionnaire.Ignored.
Proof. reflexivity. Qed.

Example cannot_reach_step_2_without_filling_name :
  Questionnaire.currentStep
    (Questionnaire.run [Questionnaire.Continue; Questionnaire.Continue] Questionnaire.initial)
  = 0.
Proof. reflexivity. Qed.

Example requires_symptoms_before_finishing :
  Questionnaire.handleSubmit Questionnaire.NoVoice
    (Questionnaire.run
       [ Questionnaire.Change Questionnaire.FullName "Jane Doe"; Questionnaire.Continue;
         Questionnaire.Continue ]
       Questionnaire.initial)
  = Questionnaire.Rejected "Please describe your current symptoms".
Proof. vm_compute. reflexivity. Qed.

Example collects_data_across_steps_and_submits :
  Questionnaire.handleSubmit Questionnaire.NoVoice
    (Questionnaire.run Questionnaire.collectsData Questionnaire.initial)
  = Questionnaire.Submitted Questionnaire.collectedPayload.
Proof. vm_compute. reflexivity. Qed.

End Tests.

(** * The claims *)

(** C1: [summarizeStatus] runs its risk checks in the fixed order of the
    risk table, and every check that triggers appends exactly one reason
    and adds its score delta: the score is the sum of the deltas of the
    rows that hold and the reasons are their reasons in table order.  The
    level is [action] from a score of 4, [watch] from 2 to 3, [good]
    below.  On the snapshot normalized from [{height:170, weight:95,
    sleep_hours:5, stress_level:"high", smoking_status:"regular",
    alcohol_consumption:"moderate"}] the level is [action] and the reasons
    hold "BMI in obese range" and "Low sleep (<6h)". *)
Theorem summarizeStatus_risk_table :
  (forall data : HealthSnapshot,
      tallyStatus data (bmiOf data) = (scoreOf (triggered data), List.map reasonText (triggered data))
      /\ reasons (summarizeStatus data) = List.map reasonText (triggered data)
      /\ level (summarizeStatus data) = levelMapping (scoreOf (triggered data)))
  /\ (let status := summarizeStatus (normalizeOnboardingData (Some riskFixture)) in
      level status = action
      /\ In "BMI in obese range" (reasons status)
      /\ In "Low sleep (<6h)" (reasons status)).
Proof.
  split.
  - intros data. rewrite ScorerFacts.summarizeStatus_tally. cbv zeta. cbn [reasons level].
    rewrite ScorerFacts.tallyStatus_triggered. cbn [fst snd].
    rewrite ScorerFacts.levelOf_mapping. auto.
  - vm_compute. intuition.
Qed.

(** C2: a numeric field whose raw value is the empty string, or holds
    white space only, is normalized to the number 0 and not to absent:
    [Number("")] is 0.  [numberOrUndefined], the coercion of the
    onboarding form for the same fields, gives absent on the same
    strings. *)
Theorem numberVal_blank_is_zero :
  (forall s : string, Js.trim s = "" ->
      numberVal (VString s) = Some (S754_zero false) /\ numberOrUndefined s = None)
  /\ numberVal (VString "") = Some (S754_zero false)
  /\ age (normalizeOnboardingData (Some blankAge)) = Some (S754_zero false).
Proof.
  split; [|split; vm_compute; reflexivity].
  intros s Hs. unfold numberVal, numberOrUndefined. rewrite Hs. split; reflexivity.
Qed.

(** C3: whatever the input, [null] and [undefined] included, every
    numeric field of the snapshot [normalizeOnboardingData] returns is a
    finite number or absent, every string field is a non-empty trimmed
    string or absent, and [full_name] is the empty string or a non-empty
    trimmed string. *)
Theorem normalize_invariant (raw : option RawRecord) :
  wellFormed (normalizeOnboardingData raw).
Proof. apply NormalizerFacts.normalize_wellFormed. Qed.

(** C4: the list [buildInsights] returns is never empty; its first element
    is titled "Overall status" and has severity high, medium or low
    exactly when the level is action, watch or good; the titles of the
    other elements are those of the insight table, in its order, whose
    condition holds. *)
Theorem buildInsights_order (data : HealthSnapshot) :
  exists (first : HealthInsight.t) (rest : list HealthInsight.t),
    buildInsights data = first :: rest
    /\ HealthInsight.title first = "Overall status"
    /\ (HealthInsight.severity first = high <-> level (summarizeStatus data) = action)
    /\ (HealthInsight.severity first = medium <-> level (summarizeStatus data) = watch)
    /\ (HealthInsight.severity first = low <-> level (summarizeStatus data) = good)
    /\ List.map HealthInsight.title rest =
       List.map fst (List.filter (fun r => snd r data) insightTable)
    /\ List.map fst insightTable =
       [ "Body composition"; "Sleep hygiene"; "Heart rate"; "Fever signal";
         "Oxygen saturation"; "Current symptoms"; "Stress load"; "Activity level";
         "Tobacco risk"; "Alcohol use"; "Family history flags"; "Chronic conditions" ].
Proof.
  destruct (InsightFacts.buildInsights_head data) as [rest Hrest].
  exists (overallInsight (summarizeStatus data)), rest.
  split; [assumption|]. split; [reflexivity|].
  pose proof (InsightFacts.buildInsights_titles data) as Ht. rewrite Hrest in Ht.
  cbn [List.map] in Ht. injection Ht as Ht.
  cbn [overallInsight HealthInsight.severity].
  destruct (level (summarizeStatus data));
    (repeat split; [intros; congruence || discriminate ..|exact Ht]).
Qed.

(** C5: [buildRecommendations] returns at most 4 recommendations with
    pairwise distinct specialties, and they are the first 4 entries that
    [add] leaves when the rules that fire run in evaluation order.  For
    any list of candidates, [add] keeps exactly the first candidate of
    each specialty, so a longer rule set is capped and deduplicated in the
    same way. *)
Theorem buildRecommendations_capped_distinct :
  (forall data : HealthSnapshot,
      (List.length (buildRecommendations data) <= 4)%nat
      /\ List.NoDup (List.map Recommendation.specialty (buildRecommendations data))
      /\ buildRecommendations data = firstn 4 (addAll (firedRecommendations data)))
  /\ (forall cands : list Recommendation.t,
        (List.length (firstn 4 (addAll cands)) <= 4)%nat
        /\ List.NoDup (List.map Recommendation.specialty (firstn 4 (addAll cands)))
        /\ forall r, In r (addAll cands) <-> List.find (sameSpecialty r) cands = Some r).
Proof.
  assert (Hgen : forall cands : list Recommendation.t,
        (List.length (firstn 4 (addAll cands)) <= 4)%nat
        /\ List.NoDup (List.map Recommendation.specialty (firstn 4 (addAll cands)))
        /\ forall r, In r (addAll cands) <-> List.find (sameSpecialty r) cands = Some r).
  { intros cands. split; [apply List.firstn_le_length|]. split.
    - rewrite <- List.firstn_map. apply RecommendationFacts.NoDup_firstn.
      apply RecommendationFacts.addAll_NoDup.
    - intros r. apply RecommendationFacts.addAll_first. }
  split; [|exact Hgen]. intros data. unfold buildRecommendations.
  rewrite RecommendationFacts.collect_addAll.
  destruct (Hgen (firedRecommendations data)) as (Hlen & Hnd & _). auto.
Qed.

(** C6: the symptom text of [buildRecommendations] is [symptoms_current],
    else [conditions], else [symptoms_past], else the empty string.  A
    Cardiology recommendation is in the result exactly when that text
    contains "chest pain", "shortness of breath" or "palpitations", or
    [family_history] contains "heart" or "cardiac", or [conditions]
    contains "hypertension"; its urgency is high when the text contains
    "chest pain" or "shortness of breath" and medium otherwise; no entry
    has the specialty "Primary Care". *)
Theorem cardiology_rule (data : HealthSnapshot) :
  let symptoms := symptomText data in
  let out := buildRecommendations data in
  symptoms =
    match symptoms_current data, conditions data, symptoms_past data with
    | Some s, _, _ => s
    | None, Some c, _ => c
    | None, None, Some p => p
    | None, None, None => ""
    end
  /\ ((exists r, In r out /\ Recommendation.specialty r = "Cardiology") <->
      containsAny (Some symptoms) ["chest pain"; "shortness of breath"; "palpitations"] = true
      \/ containsAny (family_history data) ["heart"; "cardiac"] = true
      \/ containsAny (conditions data) ["hypertension"] = true)
  /\ (forall r, In r out -> Recommendation.specialty r = "Cardiology" ->
        Recommendation.urgency r =
        if containsAny (Some symptoms) ["chest pain"; "shortness of breath"]
        then high else medium)
  /\ (forall r, In r out -> Recommendation.specialty r <> "Primary Care").
Proof.
  cbv zeta. split; [|split; [|split]].
  - unfold symptomText, orElse.
    destruct (symptoms_current data), (conditions data), (symptoms_past data); reflexivity.
  - rewrite <- RecommendationFacts.cardiologyTrigger_spec. split.
    + intros (r & Hin & Hs). apply RecommendationFacts.in_buildRecommendations in Hin.
      destruct Hin as [[H _]|[[_ ->]|[[_ ->]|[_ ->]]]]; [assumption|discriminate..].
    + intros H. exists (cardiologyRec (symptomText data)). split; [|reflexivity].
      apply RecommendationFacts.in_buildRecommendations. left. split; [assumption|reflexivity].
  - intros r Hin Hs. apply RecommendationFacts.in_buildRecommendations in Hin.
    destruct Hin as [[_ ->]|[[_ ->]|[[_ ->]|[_ ->]]]]; try discriminate.
    cbn [cardiologyRec Recommendation.urgency].
    rewrite ScorerFacts.hasKeyword_containsAny by reflexivity. reflexivity.
  - intros r Hin. apply RecommendationFacts.in_buildRecommendations in Hin.
    destruct Hin as [[_ ->]|[[_ ->]|[[_ ->]|[_ ->]]]]; discriminate.
Qed.

(** C7: [computeBMI(180, 81)] is 25; [computeBMI] is absent when the
    height or the weight is missing, when the weight is zero, when the
    height is zero and when the height is negative; a result that is not
    absent is a finite number, never [Infinity] or [NaN], and is the
    weight divided by the squared height in metres, rounded to one
    decimal. *)
Theorem computeBMI_guarded :
  computeBMI (Some (Js.ofZ 180)) (Some (Js.ofZ 81)) = Some (Js.ofZ 25)
  /\ (forall w, computeBMI None w = None)
  /\ (forall h, computeBMI h None = None)
  /\ (forall h s, computeBMI h (Some (S754_zero s)) = None)
  /\ (forall w s, computeBMI (Some (S754_zero s)) w = None)
  /\ (forall h w, Js.ltb h (Js.ofZ 0) = true -> computeBMI (Some h) w = None)
  /\ (forall h w b, computeBMI h w = Some b -> Js.isFinite b = true)
  /\ (forall h w b, computeBMI (Some h) (Some w) = Some b ->
        let heightM := Js.div h (Js.ofZ 100) in
        b = Js.roundTenths (Js.div w (Js.mul heightM heightM))).
Proof.
  split; [vm_compute; reflexivity|].
  split; [reflexivity|].
  split; [intros [h|]; reflexivity|].
  split; [intros [h|] s; [|reflexivity]; unfold computeBMI; cbn [Js.truthy negb];
          rewrite orb_true_r; reflexivity|].
  split; [intros [w|] s; reflexivity|].
  split; [exact BmiFacts.computeBMI_negative_height|].
  split; [exact BmiFacts.computeBMI_finite|].
  intros h w b H. exact (proj1 (BmiFacts.computeBMI_rounds h w b H)).
Qed.

(** C8: [normalizeOnboardingData] is idempotent: the snapshot it returns,
    read as a raw record and normalized again, comes back field for
    field. *)
Theorem normalize_idempotent (raw : option RawRecord) :
  normalizeOnboardingData (Some (toRaw (normalizeOnboardingData raw))) =
  normalizeOnboardingData raw.
Proof.
  apply NormalizerFacts.normalize_fixed; [apply NormalizerFacts.normalize_wellFormed|reflexivity..].
Qed.

(** C9: with [score] and [reasons] the two variables of [summarizeStatus]
    when its checks have run, [reasons.length <= score <= 2 *
    reasons.length]; the reasons are empty exactly when the score is 0; a
    result of level [action] has at least two reasons and a result of
    level [good] at most one. *)
Theorem reasons_bound_score (data : HealthSnapshot) :
  let score := fst (tallyStatus data (bmiOf data)) in
  let status := summarizeStatus data in
  reasons status = snd (tallyStatus data (bmiOf data))
  /\ level status = levelOf score
  /\ Z.of_nat (List.length (reasons status)) <= score <= 2 * Z.of_nat (List.length (reasons status))
  /\ (reasons status = [] <-> score = 0)
  /\ (level status = action -> (2 <= List.length (reasons status))%nat)
  /\ (level status = good -> (List.length (reasons status) <= 1)%nat).
Proof.
  cbv zeta. rewrite ScorerFacts.summarizeStatus_tally. cbv zeta. cbn [reasons level].
  rewrite ScorerFacts.tallyStatus_triggered. cbn [fst snd].
  pose proof (ScorerFacts.score_bounds _ (ScorerFacts.triggered_deltas data)) as Hb.
  set (rs := List.map reasonText (triggered data)) in *.
  set (sc := scoreOf (triggered data)) in *.
  clearbody rs sc.
  split; [reflexivity|]. split; [reflexivity|]. split; [assumption|].
  split; [|split].
  - destruct rs as [|r rs]; cbn [List.length] in Hb; split; intros H; try reflexivity;
      try discriminate; lia.
  - unfold levelOf. destruct (Z.leb_spec 4 sc); [lia|]. destruct (2 <=? sc); discriminate.
  - unfold levelOf. destruct (Z.leb_spec 4 sc); [discriminate|].
    destruct (Z.leb_spec 2 sc); [discriminate|]. lia.
Qed.

(** C10: the titles of the insights [buildInsights] returns are pairwise
    distinct: they are among the thirteen titles and each of them occurs
    at most once. *)
Theorem buildInsights_titles_distinct (data : HealthSnapshot) :
  List.NoDup (List.map HealthInsight.title (buildInsights data))
  /\ incl (List.map HealthInsight.title (buildInsights data)) allTitles
  /\ (forall t, (count_occ string_dec (List.map HealthInsight.title (buildInsights data)) t <= 1)%nat)
  /\ allTitles =
     [ "Overall status"; "Body composition"; "Sleep hygiene"; "Heart rate"; "Fever signal";
       "Oxygen saturation"; "Current symptoms"; "Stress load"; "Activity level";
       "Tobacco risk"; "Alcohol use"; "Family history flags"; "Chronic conditions" ].
Proof.
  assert (Hnd : List.NoDup (List.map HealthInsight.title (buildInsights data))).
  { rewrite InsightFacts.buildInsights_titles.
    pose proof InsightFacts.allTitles_NoDup as H. unfold allTitles in H.
    inversion H as [|? ? Hnot Hrest]; subst. constructor.
    - intros Hin. apply Hnot. apply List.in_map_iff in Hin. destruct Hin as (r & Hr & Hin).
      apply List.filter_In in Hin. rewrite <- Hr.
      exact (List.in_map fst insightTable r (proj1 Hin)).
    - apply InsightFacts.NoDup_map_filter. assumption. }
  split; [assumption|]. split; [apply InsightFacts.titles_incl|].
  split; [|reflexivity]. apply List.NoDup_count_occ. assumption.
Qed.

(** * Further properties of the engine and of the pages *)

(** X1: [normalizeOnboardingData] reads the twenty-nine keys of [declaredKeys] and
    nothing else: two raw records that agree on them give the same snapshot,
    whatever other keys either of them holds. *)
Theorem normalize_reads_declared_keys (raw1 raw2 : RawRecord) :
  Forall (fun k => raw1 !! k = raw2 !! k) declaredKeys ->
  normalizeOnboardingData (Some raw1) = normalizeOnboardingData (Some raw2).
Proof.
  intros H. unfold normalizeOnboardingData, prop.
  change (default ∅ (Some raw1)) with raw1. change (default ∅ (Some raw2)) with raw2.
  repeat match goal with
         | |- context [raw1 !! ?k] =>
             rewrite (proj1 (List.Forall_forall _ _) H k) by (cbn; tauto)
         end.
  reflexivity.
Qed.

Lemma normalize_reads_declared_keys_witness :
  normalizeOnboardingData (Some normalizeFixture)
  = normalizeOnboardingData (Some (delete "unknown" normalizeFixture)).
Proof.
  apply normalize_reads_declared_keys.
  unfold declaredKeys. repeat (apply List.Forall_cons; [vm_compute; reflexivity|]).
  apply List.Forall_nil.
Defined.

(** X2: white space around the strings of a raw record never shows in the
    snapshot: trimming every string value beforehand changes nothing, for
    text fields and for numbers given as text alike. *)
Theorem normalize_ignores_padding (raw : RawRecord) :
  normalizeOnboardingData (Some (trimValue <$> raw)) = normalizeOnboardingData (Some raw).
Proof.
  unfold normalizeOnboardingData.
  change (default ∅ (Some (trimValue <$> raw))) with (trimValue <$> raw).
  rewrite !NormalizerReads.prop_trimValue,
    !NormalizerReads.stringVal_trimValue, !NormalizerReads.numberVal_trimValue.
  reflexivity.
Qed.

(** X3: [summarizeStatus], [buildInsights] and [buildRecommendations] depend on
    fourteen fields only (height, weight, sleep, heart rate, temperature,
    SpO2, stress, smoking, alcohol, exercise, family history, conditions,
    current and past symptoms): name, age, sex, blood pressure, medications,
    allergies and the rest never change a status, an insight or a
    recommendation. *)
Theorem engine_reads_fourteen_fields (d1 d2 : HealthSnapshot) :
  engineNumbers d1 = engineNumbers d2 ->
  engineStrings d1 = engineStrings d2 ->
  summarizeStatus d1 = summarizeStatus d2
  /\ buildInsights d1 = buildInsights d2
  /\ buildRecommendations d1 = buildRecommendations d2.
Proof.
  destruct d1, d2. unfold engineNumbers, engineStrings. cbn.
  intros Hn Hs. injection Hn as -> -> -> -> -> ->. injection Hs as -> -> -> -> -> -> -> ->.
  repeat split.
Qed.

Lemma engine_reads_fourteen_fields_witness :
  summarizeStatus (Questionnaire.with_age (Some (Js.ofZ 40)) worstCase)
  = summarizeStatus worstCase
  /\ buildInsights (Questionnaire.with_age (Some (Js.ofZ 40)) worstCase)
     = buildInsights worstCase
  /\ buildRecommendations (Questionnaire.with_age (Some (Js.ofZ 40)) worstCase)
     = buildRecommendations worstCase.
Proof.
  apply engine_reads_fourteen_fields; reflexivity.
Defined.

(** X4: the reasons of a status are pairwise distinct, there are at most ten of
    them and the score behind the level is at most 13; [worstCase] reaches
    both bounds. *)
Theorem reasons_distinct_and_bounded :
  (forall d : HealthSnapshot,
      List.NoDup (reasons (summarizeStatus d))
      /\ (List.length (reasons (summarizeStatus d)) <= 10)%nat
      /\ fst (tallyStatus d (bmiOf d)) <= 13)
  /\ List.length (reasons (summarizeStatus worstCase)) = 10%nat
  /\ fst (tallyStatus worstCase (bmiOf worstCase)) = 13.
Proof.
  split; [|split; vm_compute; reflexivity].
  intros d. split; [|split].
  - rewrite SignalFacts.reasons_triggered. unfold triggered.
    apply InsightFacts.NoDup_map_filter. exact SignalFacts.riskTable_NoDup.
  - rewrite ScorerFacts.summarizeStatus_tally. cbn [reasons].
    apply TallyFacts.tallyStatus_within.
  - apply TallyFacts.tallyStatus_within.
Qed.

(** X5: stress, heart rate, temperature, oxygen saturation and alcohol are judged
    alike by the scorer and by the insight generator: the reason is listed
    exactly when the insight is there, and the stress reason exactly when
    Behavioral Health is recommended. *)
Theorem signals_scored_and_explained (d : HealthSnapshot) :
  let R := reasons (summarizeStatus d) in
  let T := titlesOf d in
  (In "Elevated stress" R <-> In "Stress load" T)
  /\ (In "Elevated stress" R <-> In "Behavioral Health" (specialtiesOf d))
  /\ (In "Elevated heart rate" R <-> In "Heart rate" T)
  /\ (In "Fever-range temperature" R <-> In "Fever signal" T)
  /\ (In "Low oxygen saturation" R <-> In "Oxygen saturation" T)
  /\ (In "Heavy alcohol intake" R \/ In "Moderate alcohol intake" R <-> In "Alcohol use" T).
Proof.
  cbv zeta.
  pose proof (SignalFacts.reason_nth d 3 _ eq_refl) as R3.
  pose proof (SignalFacts.reason_nth d 6 _ eq_refl) as R6.
  pose proof (SignalFacts.reason_nth d 7 _ eq_refl) as R7.
  pose proof (SignalFacts.reason_nth d 8 _ eq_refl) as R8.
  pose proof (SignalFacts.reason_nth d 9 _ eq_refl) as R9.
  pose proof (SignalFacts.reason_nth d 10 _ eq_refl) as R10.
  pose proof (SignalFacts.title_nth d 2 _ eq_refl) as T2.
  pose proof (SignalFacts.title_nth d 3 _ eq_refl) as T3.
  pose proof (SignalFacts.title_nth d 4 _ eq_refl) as T4.
  pose proof (SignalFacts.title_nth d 6 _ eq_refl) as T6.
  pose proof (SignalFacts.title_nth d 9 _ eq_refl) as T9.
  cbn [reasonText holds fst snd] in *.
  destruct (SignalFacts.specialty_in d) as (_ & _ & _ & Hb).
  unfold behavioralTrigger in Hb. rewrite <- ScorerFacts.strictEq_among2 in Hb.
  rewrite R3, R6, R7, R8, R9, R10, T2, T3, T4, T6, T9, Hb.
  repeat split; try tauto.
  - unfold among. destruct (alcohol_consumption d) as [s|]; cbn [existsb]; [|intuition discriminate].
    destruct (String.eqb s "heavy"), (String.eqb s "moderate"); cbn; intuition discriminate.
  - unfold among. destruct (alcohol_consumption d) as [s|]; cbn [existsb]; [|intuition discriminate].
    destruct (String.eqb s "heavy"), (String.eqb s "moderate"); cbn; intuition discriminate.
Qed.

(** X6: a BMI reason, the low-sleep reason, the smoking-habit reason and the
    chronic-condition reason each come with the insight on the same subject. *)
Theorem reasons_explained (d : HealthSnapshot) :
  let R := reasons (summarizeStatus d) in
  let T := titlesOf d in
  (In "BMI in obese range" R \/ In "BMI in overweight range" R -> In "Body composition" T)
  /\ (In "Low sleep (<6h)" R -> In "Sleep hygiene" T)
  /\ (In "Smoking habit" R -> In "Tobacco risk" T)
  /\ (In "Chronic condition risk" R -> In "Chronic conditions" T).
Proof.
  cbv zeta.
  pose proof (SignalFacts.reason_nth d 0 _ eq_refl) as R0.
  pose proof (SignalFacts.reason_nth d 1 _ eq_refl) as R1.
  pose proof (SignalFacts.reason_nth d 2 _ eq_refl) as R2.
  pose proof (SignalFacts.reason_nth d 4 _ eq_refl) as R4.
  pose proof (SignalFacts.reason_nth d 12 _ eq_refl) as R12.
  pose proof (SignalFacts.title_nth d 0 _ eq_refl) as T0.
  pose proof (SignalFacts.title_nth d 1 _ eq_refl) as T1.
  pose proof (SignalFacts.title_nth d 8 _ eq_refl) as T8.
  pose proof (SignalFacts.title_nth d 11 _ eq_refl) as T11.
  cbn [reasonText holds fst snd] in *.
  rewrite R0, R1, R2, R4, R12, T0, T1, T8, T11. clear.
  assert (Hb : forall k, Js.isFinite k = true -> Js.truthy k = true ->
                 Js.ltb k (Js.ofZ 0) = false ->
                 present (bmiOf d) (fun b => Js.geb b k) = true -> truthyNumber (bmiOf d) = true).
  { intros k H1 H2 H3. destruct (bmiOf d) as [b|]; cbn; [|intros H; exact H].
    destruct (Js.truthy b) eqn:Hb; [reflexivity|].
    rewrite ScorerFacts.geb_falsy by assumption. intros H; exact H. }
  repeat split.
  - intros [H|H].
    + revert H. apply Hb; vm_compute; reflexivity.
    + apply andb_prop in H. destruct H as [_ H]. revert H. apply Hb; vm_compute; reflexivity.
  - destruct (sleep_hours d) as [x|]; cbn; [|intros H; exact H]. apply SignalFacts.ltb_6_7.
  - unfold among. destruct (smoking_status d) as [s|]; cbn; [|intros H; exact H].
    destruct (String.eqb s "regular"); [reflexivity|intros H; discriminate H].
  - apply KeywordFacts.containsAny_nonempty. reflexivity.
Qed.

(** X7: where the scorer and the insight generator part: a former smoker is
    scored but gets no tobacco insight; a family history that names only
    "cardiac" is scored without an insight and one that names only "cancer"
    gets the insight without a score; sleep from six to below seven hours
    gets the insight without a reason. *)
Theorem signals_without_counterpart (d : HealthSnapshot) :
  let R := reasons (summarizeStatus d) in
  let T := titlesOf d in
  (In "Smoking history" R /\ ~ In "Tobacco risk" T <-> smoking_status d = Some "former")
  /\ (In "Cardiovascular family history" R /\ ~ In "Family history flags" T <->
      containsAny (family_history d) ["cardiac"] = true
      /\ containsAny (family_history d) ["heart"; "stroke"; "cancer"] = false)
  /\ (In "Family history flags" T /\ ~ In "Cardiovascular family history" R <->
      containsAny (family_history d) ["cancer"] = true
      /\ containsAny (family_history d) ["heart"; "cardiac"; "stroke"] = false)
  /\ (In "Sleep hygiene" T /\ ~ In "Low sleep (<6h)" R <->
      present (sleep_hours d) (fun x => Js.ltb x (Js.ofZ 7) && negb (Js.ltb x (Js.ofZ 6))) = true).
Proof.
  cbv zeta.
  pose proof (SignalFacts.reason_nth d 2 _ eq_refl) as R2.
  pose proof (SignalFacts.reason_nth d 5 _ eq_refl) as R5.
  pose proof (SignalFacts.reason_nth d 11 _ eq_refl) as R11.
  pose proof (SignalFacts.title_nth d 1 _ eq_refl) as T1.
  pose proof (SignalFacts.title_nth d 8 _ eq_refl) as T8.
  pose proof (SignalFacts.title_nth d 10 _ eq_refl) as T10.
  cbn [reasonText holds fst snd] in *.
  rewrite R2, R5, R11, T1, T8, T10. clear.
  split; [|split; [|split]].
  - unfold among. destruct (smoking_status d) as [s|]; cbn [existsb].
    + destruct (String.eqb_spec s "regular") as [->|H1]; [cbn; intuition discriminate|].
      destruct (String.eqb_spec s "occasional") as [->|H2]; [cbn; intuition discriminate|].
      destruct (String.eqb_spec s "former") as [->|H3]; cbn; [intuition discriminate|].
      split; [intros [H _]; discriminate H|intros H; congruence].
    + split; [intros [H _]; discriminate H|intros H; discriminate H].
  - rewrite (KeywordFacts.containsAny_cons _ "heart" ["cardiac"; "stroke"]),
      (KeywordFacts.containsAny_cons _ "cardiac" ["stroke"]),
      (KeywordFacts.containsAny_cons _ "heart" ["stroke"; "cancer"]),
      (KeywordFacts.containsAny_cons _ "stroke" ["cancer"]).
    destruct (containsAny (family_history d) ["heart"]),
      (containsAny (family_history d) ["cardiac"]),
      (containsAny (family_history d) ["stroke"]),
      (containsAny (family_history d) ["cancer"]); cbn; intuition discriminate.
  - rewrite (KeywordFacts.containsAny_cons _ "heart" ["cardiac"; "stroke"]),
      (KeywordFacts.containsAny_cons _ "cardiac" ["stroke"]),
      (KeywordFacts.containsAny_cons _ "heart" ["stroke"; "cancer"]),
      (KeywordFacts.containsAny_cons _ "stroke" ["cancer"]).
    destruct (containsAny (family_history d) ["heart"]),
      (containsAny (family_history d) ["cardiac"]),
      (containsAny (family_history d) ["stroke"]),
      (containsAny (family_history d) ["cancer"]); cbn; intuition discriminate.
  - destruct (sleep_hours d) as [x|]; cbn [present]; [|intuition discriminate].
    destruct (Js.ltb x (Js.ofZ 6)) eqn:H6.
    + rewrite (SignalFacts.ltb_6_7 x H6). cbn. intuition discriminate.
    + destruct (Js.ltb x (Js.ofZ 7)); cbn; intuition discriminate.
Qed.

(** X8: the severity of an insight follows the reasons of the status: sleep,
    tobacco and alcohol insights are [high] exactly when the low-sleep,
    smoking-habit and heavy-alcohol reasons are listed, the body composition
    insight is [medium] exactly with the overweight reason and [high] with the
    obese one. *)
Theorem insight_severity_and_reasons (d : HealthSnapshot) :
  let R := reasons (summarizeStatus d) in
  Forall (fun i =>
            (HealthInsight.title i = "Sleep hygiene" ->
             (HealthInsight.severity i = high <-> In "Low sleep (<6h)" R))
            /\ (HealthInsight.title i = "Tobacco risk" ->
                (HealthInsight.severity i = high <-> In "Smoking habit" R))
            /\ (HealthInsight.title i = "Alcohol use" ->
                (HealthInsight.severity i = high <-> In "Heavy alcohol intake" R))
            /\ (HealthInsight.title i = "Body composition" ->
                (HealthInsight.severity i = medium <-> In "BMI in overweight range" R)
                /\ (In "BMI in obese range" R -> HealthInsight.severity i = high)))
    (buildInsights d).
Proof.
  cbv zeta.
  pose proof (SignalFacts.reason_nth d 0 _ eq_refl) as R0.
  pose proof (SignalFacts.reason_nth d 1 _ eq_refl) as R1.
  pose proof (SignalFacts.reason_nth d 2 _ eq_refl) as R2.
  pose proof (SignalFacts.reason_nth d 4 _ eq_refl) as R4.
  pose proof (SignalFacts.reason_nth d 6 _ eq_refl) as R6.
  cbn [reasonText holds fst snd] in *.
  apply List.Forall_forall. intros i Hin.
  rewrite R0, R1, R2, R4, R6. clear R0 R1 R2 R4 R6.
  SeverityFacts.insight_cases d Hin.
  all: cbn [HealthInsight.title HealthInsight.severity overallInsight bodyInsight].
  all: repeat match goal with |- _ /\ _ => split end; intros Ht; try discriminate Ht; clear Ht.
  all: rewrite ?ScorerFacts.strictEq_among1; change present with defined.
  all: try rewrite Hbmi; cbn [defined].
  all: try (unfold bmiCategory; destruct (Js.geb b (Js.ofZ 30)), (Js.geb b (Js.ofZ 25)),
              (Js.ltb b (Js.ofDecimal false 185 (-1))); cbn; intuition discriminate).
  all: match goal with |- context [if ?c then _ else _] => destruct c end;
    intuition discriminate.
Qed.

(** X9: no detail text is built from a missing field: the numeric insights print
    the recorded number, the symptom and condition insights a recorded
    non-empty text, and the stress, activity, tobacco and alcohol insights one
    of two fixed sentences ("very_high" is printed as "very high"). *)
Theorem insight_details_print_recorded_values (d : HealthSnapshot) :
  Forall (fun i =>
    let title := HealthInsight.title i in
    let detail := HealthInsight.detail i in
    (title = "Sleep hygiene" ->
     exists x, sleep_hours d = Some x
               /\ detail = "Average sleep " ++ Js.numberToString x ++ "h — below the 7–9h target.")
    /\ (title = "Heart rate" ->
        exists x, heart_rate d = Some x
                  /\ detail = "Resting heart rate " ++ Js.numberToString x
                              ++ " bpm — above normal range.")
    /\ (title = "Fever signal" ->
        exists x, temperature_c d = Some x
                  /\ detail = "Temperature " ++ Js.numberToString x ++ "°C.")
    /\ (title = "Oxygen saturation" ->
        exists x, spo2 d = Some x
                  /\ detail = "SpO₂ " ++ Js.numberToString x ++ "% — below typical baseline.")
    /\ (title = "Current symptoms" ->
        exists s, symptoms_current d = Some s /\ s <> "" /\ detail = s)
    /\ (title = "Stress load" ->
        In detail ["Reported stress: high"; "Reported stress: very high"])
    /\ (title = "Activity level" -> In detail ["Exercise: sedentary."; "Exercise: light."])
    /\ (title = "Tobacco risk" ->
        In detail ["Smoking status: regular."; "Smoking status: occasional."])
    /\ (title = "Alcohol use" -> In detail ["Alcohol intake: heavy."; "Alcohol intake: moderate."])
    /\ (title = "Chronic conditions" ->
        exists c, conditions d = Some c /\ c <> "" /\ detail = "Reported: " ++ c ++ "."))
    (buildInsights d).
Proof.
  apply List.Forall_forall. intros i Hin. cbv zeta.
  SeverityFacts.insight_cases d Hin.
  all: cbn [HealthInsight.title HealthInsight.detail overallInsight bodyInsight].
  all: repeat match goal with |- _ /\ _ => split end; intros Ht; try discriminate Ht; clear Ht.
  all: try match goal with
           | H : defined ?f _ = true |- exists x, ?f = Some x /\ _ =>
               destruct f as [x|]; [exists x; split; reflexivity|discriminate H]
           | H : truthyString ?f = true |- exists s, ?f = Some s /\ _ =>
               destruct f as [s|]; [|discriminate H];
               exists s; repeat split; intros ->; discriminate H
           end.
  all: match goal with
       | H : _ = true |- In (_ ++ showString (option_map _ ?f)) _ =>
           DetailFacts.enumerate f H
       | H : _ = true |- In (_ ++ showString ?f ++ _) _ => DetailFacts.enumerate f H
       end.
Qed.

(** X10: a negative weight is not rejected as a negative height is: the BMI it
    gives is zero or below, and when it is not zero the profile gets a
    "Body composition" insight of category underweight and severity [high],
    with no BMI reason in the status. *)
Theorem negative_weight_reads_underweight (d : HealthSnapshot) (w b : Js.number) :
  weight d = Some w -> Js.ltb w (Js.ofZ 0) = true -> bmiOf d = Some b ->
  Js.leb b (Js.ofZ 0) = true
  /\ (Js.truthy b = true ->
      In (bodyInsight b) (buildInsights d)
      /\ HealthInsight.detail (bodyInsight b)
         = "BMI " ++ Js.numberToString b ++ " (underweight)."
      /\ HealthInsight.severity (bodyInsight b) = high
      /\ ~ In "BMI in obese range" (reasons (summarizeStatus d))
      /\ ~ In "BMI in overweight range" (reasons (summarizeStatus d))).
Proof.
  intros Hw Hneg Hbmi.
  assert (Hnp : nonPositive b).
  { unfold bmiOf in Hbmi. rewrite Hw in Hbmi.
    destruct (height d) as [h|]; [|discriminate Hbmi].
    exact (SignFacts.computeBMI_sign h w b Hneg Hbmi). }
  split; [exact Hnp|]. intros Ht.
  destruct (SignFacts.nonPositive_underweight b Hnp Ht) as (H30 & H25 & Hcat).
  pose proof (SignalFacts.reason_nth d 0 _ eq_refl) as R0.
  pose proof (SignalFacts.reason_nth d 1 _ eq_refl) as R1.
  cbn [reasonText holds] in R0, R1. rewrite R0, R1, Hbmi. cbn [present].
  rewrite H30, H25. unfold bodyInsight. rewrite Hcat.
  cbn [HealthInsight.detail HealthInsight.severity categoryName].
  repeat split; try (intros H; discriminate H).
  unfold buildInsights. cbv zeta. rewrite !SeverityFacts.In_pushIf.
  rewrite InsightFacts.bmi_summarizeStatus, Hbmi, SeverityFacts.In_pushIf.
  do 11 left. right. split; [exact Ht|]. unfold bodyInsight. rewrite Hcat. reflexivity.
Qed.

Lemma negative_weight_reads_underweight_witness :
  Js.leb (Js.ofDecimal true 242 (-1)) (Js.ofZ 0) = true
  /\ (Js.truthy (Js.ofDecimal true 242 (-1)) = true ->
      In (bodyInsight (Js.ofDecimal true 242 (-1)))
        (buildInsights (Questionnaire.with_weight (Some (Js.ofZ (-70))) worstCase))
      /\ HealthInsight.detail (bodyInsight (Js.ofDecimal true 242 (-1)))
         = "BMI " ++ Js.numberToString (Js.ofDecimal true 242 (-1)) ++ " (underweight)."
      /\ HealthInsight.severity (bodyInsight (Js.ofDecimal true 242 (-1))) = high
      /\ ~ In "BMI in obese range"
           (reasons (summarizeStatus (Questionnaire.with_weight (Some (Js.ofZ (-70))) worstCase)))
      /\ ~ In "BMI in overweight range"
           (reasons (summarizeStatus (Questionnaire.with_weight (Some (Js.ofZ (-70))) worstCase)))).
Proof.
  apply (negative_weight_reads_underweight
           (Questionnaire.with_weight (Some (Js.ofZ (-70))) worstCase) (Js.ofZ (-70))).
  - reflexivity.
  - vm_compute. reflexivity.
  - vm_compute. reflexivity.
Defined.

(** X11: [buildRecommendations] returns the recommendations of the rules that
    fire, in the order Cardiology, Pulmonology, Endocrinology, Behavioral
    Health; neither the duplicate check of [add] nor [slice(0, 4)] ever
    drops one. *)
Theorem recommendations_in_rule_order (d : HealthSnapshot) :
  buildRecommendations d = firedRecommendations d
  /\ collectRecommendations d = buildRecommendations d
  /\ specialtiesOf d =
     ((if cardiologyTrigger d then ["Cardiology"] else [])
      ++ (if pulmonologyTrigger d then ["Pulmonology"] else [])
      ++ (if endocrinologyTrigger d then ["Endocrinology"] else [])
      ++ (if behavioralTrigger d then ["Behavioral Health"] else []))%list.
Proof.
  unfold specialtiesOf, buildRecommendations.
  rewrite RecommendationFacts.collect_addAll.
  unfold firedRecommendations, recommendationRules.
  destruct (cardiologyTrigger d), (pulmonologyTrigger d), (endocrinologyTrigger d),
    (behavioralTrigger d); repeat split.
Qed.

(** X12: when Pulmonology, Endocrinology and Behavioral Health are recommended,
    and with what urgency: only Cardiology can be [high], and the only [low]
    recommendation is Pulmonology for someone who is not a regular smoker. *)
Theorem specialist_rules (d : HealthSnapshot) :
  let out := buildRecommendations d in
  let symptoms := symptomText d in
  ((exists r, In r out /\ Recommendation.specialty r = "Pulmonology") <->
   containsAny (Some symptoms) ["cough"; "wheez"; "asthma"] = true
   \/ smoking_status d = Some "regular")
  /\ ((exists r, In r out /\ Recommendation.specialty r = "Endocrinology") <->
      containsAny (Some symptoms) ["blood sugar"; "glucose"] = true
      \/ containsAny (conditions d) ["diab"] = true)
  /\ ((exists r, In r out /\ Recommendation.specialty r = "Behavioral Health") <->
      stress_level d = Some "high" \/ stress_level d = Some "very_high")
  /\ (forall r, In r out ->
        (Recommendation.urgency r = high -> Recommendation.specialty r = "Cardiology")
        /\ (Recommendation.urgency r = low <->
            Recommendation.specialty r = "Pulmonology" /\ smoking_status d <> Some "regular")).
Proof.
  cbv zeta.
  assert (Hreg : strictEq (smoking_status d) "regular" = true <-> smoking_status d = Some "regular").
  { destruct (smoking_status d) as [s|]; cbn; [|intuition discriminate].
    destruct (String.eqb_spec s "regular"); intuition congruence. }
  assert (Hst : forall k, strictEq (stress_level d) k = true <-> stress_level d = Some k).
  { intros k. destruct (stress_level d) as [s|]; cbn; [|intuition discriminate].
    destruct (String.eqb_spec s k); intuition congruence. }
  assert (Hex : forall s, (exists r, In r (buildRecommendations d) /\ Recommendation.specialty r = s)
                          <-> In s (specialtiesOf d)).
  { intros s. unfold specialtiesOf. rewrite List.in_map_iff.
    split; intros (r & H1 & H2); exists r; tauto. }
  destruct (SignalFacts.specialty_in d) as (_ & Hp & He & Hb).
  rewrite !Hex, Hp, He, Hb. clear Hex Hp He Hb.
  unfold pulmonologyTrigger, endocrinologyTrigger, behavioralTrigger.
  rewrite !ScorerFacts.hasKeyword_containsAny by reflexivity.
  rewrite !orb_true_iff, Hreg, !Hst.
  split; [tauto|split; [tauto|split; [tauto|]]].
  intros r Hin. apply RecommendationFacts.in_buildRecommendations in Hin.
  destruct Hin as [[_ ->]|[[_ ->]|[[_ ->]|[_ ->]]]];
    cbn [Recommendation.urgency Recommendation.specialty cardiologyRec pulmonologyRec
         endocrinologyRec behavioralRec].
  - split; [reflexivity|].
    destruct (hasKeyword _ _); split; try (intros H; discriminate H); intros [H _]; discriminate H.
  - rewrite <- Hreg. destruct (strictEq (smoking_status d) "regular").
    + split; [intros H; discriminate H|].
      split; [intros H; discriminate H|]. intros [_ H]. exfalso. apply H. reflexivity.
    + split; [intros H; discriminate H|].
      split; [intros _; split; [reflexivity|intros H; discriminate H]|reflexivity].
  - split; [intros H; discriminate H|].
    split; [intros H; discriminate H|intros [H _]; discriminate H].
  - split; [intros H; discriminate H|].
    split; [intros H; discriminate H|intros [H _]; discriminate H].
Qed.

(** X13: a raw record whose [sleep_hours] is a blank string is read as zero hours:
    the dashboard shows "Not provided" for Sleep while the status lists
    "Low sleep (<6h)" and a high-severity insight reports "Average sleep 0h". *)
Theorem blank_sleep_is_scored_not_shown (raw : RawRecord) (s : string) :
  raw !! "sleep_hours" = Some (VString s) -> Js.trim s = "" ->
  Dashboard.sleepCell (normalizeOnboardingData (Some raw)) = "Not provided"
  /\ In "Low sleep (<6h)" (reasons (summarizeStatus (normalizeOnboardingData (Some raw))))
  /\ exists i, In i (buildInsights (normalizeOnboardingData (Some raw)))
               /\ HealthInsight.title i = "Sleep hygiene"
               /\ HealthInsight.detail i = "Average sleep 0h — below the 7–9h target."
               /\ HealthInsight.severity i = high.
Proof.
  intros Hraw Hs.
  assert (Hsl : sleep_hours (normalizeOnboardingData (Some raw)) = Some (S754_zero false)).
  { unfold normalizeOnboardingData. cbn [sleep_hours]. unfold prop.
    change (default ∅ (Some raw)) with raw. rewrite Hraw. cbn [default].
    apply PageFacts.numberVal_blank. assumption. }
  set (d := normalizeOnboardingData (Some raw)) in *.
  assert (H6 : Js.ltb (S754_zero false) (Js.ofZ 6) = true) by (vm_compute; reflexivity).
  assert (H7 : Js.ltb (S754_zero false) (Js.ofZ 7) = true) by (vm_compute; reflexivity).
  split; [|split].
  - unfold Dashboard.sleepCell. rewrite Hsl. reflexivity.
  - apply (SignalFacts.reason_nth d 2 _ eq_refl). cbn [holds]. rewrite Hsl. exact H6.
  - eexists. split; [|split; [|split]].
    + unfold buildInsights. cbv zeta. rewrite !SeverityFacts.In_pushIf.
      do 10 left. right. split; [|reflexivity]. rewrite Hsl. exact H7.
    + reflexivity.
    + cbn [HealthInsight.detail]. rewrite Hsl. reflexivity.
    + cbn [HealthInsight.severity]. rewrite Hsl. cbn [defined]. rewrite H6. reflexivity.
Qed.

Lemma blank_sleep_is_scored_not_shown_witness :
  Dashboard.sleepCell (normalizeOnboardingData (Some {[ "sleep_hours" := VString " " ]}))
  = "Not provided"
  /\ In "Low sleep (<6h)"
       (reasons (summarizeStatus
                   (normalizeOnboardingData (Some {[ "sleep_hours" := VString " " ]}))))
  /\ exists i, In i (buildInsights
                       (normalizeOnboardingData (Some {[ "sleep_hours" := VString " " ]})))
               /\ HealthInsight.title i = "Sleep hygiene"
               /\ HealthInsight.detail i = "Average sleep 0h — below the 7–9h target."
               /\ HealthInsight.severity i = high.
Proof.
  apply (blank_sleep_is_scored_not_shown {[ "sleep_hours" := VString " " ]} " ");
    vm_compute; reflexivity.
Defined.

(** X14: a raw record whose [spo2] is a blank string is read as 0%: the dashboard
    shows "0%", the status lists "Low oxygen saturation" and a high-severity
    insight reports "SpO₂ 0%". *)
Theorem blank_oxygen_reading_is_flagged (raw : RawRecord) (s : string) :
  raw !! "spo2" = Some (VString s) -> Js.trim s = "" ->
  Dashboard.spo2Cell (normalizeOnboardingData (Some raw)) = "0%"
  /\ In "Low oxygen saturation" (reasons (summarizeStatus (normalizeOnboardingData (Some raw))))
  /\ exists i, In i (buildInsights (normalizeOnboardingData (Some raw)))
               /\ HealthInsight.title i = "Oxygen saturation"
               /\ HealthInsight.detail i = "SpO₂ 0% — below typical baseline."
               /\ HealthInsight.severity i = high.
Proof.
  intros Hraw Hs.
  assert (Hsp : spo2 (normalizeOnboardingData (Some raw)) = Some (S754_zero false)).
  { unfold normalizeOnboardingData. cbn [spo2]. unfold prop.
    change (default ∅ (Some raw)) with raw. rewrite Hraw. cbn [default].
    apply PageFacts.numberVal_blank. assumption. }
  set (d := normalizeOnboardingData (Some raw)) in *.
  assert (H94 : Js.ltb (S754_zero false) (Js.ofZ 94) = true) by (vm_compute; reflexivity).
  split; [|split].
  - unfold Dashboard.spo2Cell. rewrite Hsp. reflexivity.
  - apply (SignalFacts.reason_nth d 10 _ eq_refl). cbn [holds]. rewrite Hsp. exact H94.
  - eexists. split; [|split; [|split]].
    + unfold buildInsights. cbv zeta. rewrite !SeverityFacts.In_pushIf.
      do 7 left. right. split; [|reflexivity]. rewrite Hsp. exact H94.
    + reflexivity.
    + cbn [HealthInsight.detail]. rewrite Hsp. reflexivity.
    + reflexivity.
Qed.

Lemma blank_oxygen_reading_is_flagged_witness :
  Dashboard.spo2Cell (normalizeOnboardingData (Some {[ "spo2" := VString "" ]})) = "0%"
  /\ In "Low oxygen saturation"
       (reasons (summarizeStatus (normalizeOnboardingData (Some {[ "spo2" := VString "" ]}))))
  /\ exists i, In i (buildInsights (normalizeOnboardingData (Some {[ "spo2" := VString "" ]})))
               /\ HealthInsight.title i = "Oxygen saturation"
               /\ HealthInsight.detail i = "SpO₂ 0% — below typical baseline."
               /\ HealthInsight.severity i = high.
Proof.
  apply (blank_oxygen_reading_is_flagged {[ "spo2" := VString "" ]} "");
    vm_compute; reflexivity.
Defined.

(** X15: the BMI cell of the dashboard shows a number exactly when the insights
    hold "Body composition", and that insight prints the text of the cell. *)
Theorem bmi_cell_matches_insight (d : HealthSnapshot) :
  (Dashboard.bmiCell d <> "Not enough data" <-> In "Body composition" (titlesOf d))
  /\ Forall (fun i =>
               HealthInsight.title i = "Body composition" ->
               exists category,
                 In category ["obese"; "overweight"; "underweight"; "healthy"]
                 /\ HealthInsight.detail i
                    = "BMI " ++ Dashboard.bmiCell d ++ " (" ++ category ++ ").")
       (buildInsights d).
Proof.
  pose proof (SignalFacts.title_nth d 0 _ eq_refl) as T0. cbn [fst snd] in T0.
  split.
  - rewrite T0. unfold Dashboard.bmiCell. fold (bmiOf d).
    destruct (bmiOf d) as [b|] eqn:Hb; cbn [truthyNumber]; [|intuition discriminate].
    destruct (Js.truthy b); [|intuition discriminate].
    split; [reflexivity|intros _].
    apply PageFacts.allPlain_neq; [|reflexivity].
    apply StringFacts.numberToString_plain. exact (BmiFacts.computeBMI_finite _ _ _ Hb).
  - apply List.Forall_forall. intros i Hin.
    SeverityFacts.insight_cases d Hin.
    all: cbn [HealthInsight.title HealthInsight.detail overallInsight bodyInsight].
    all: intros Ht; try discriminate Ht; clear Ht.
    unfold Dashboard.bmiCell. fold (bmiOf d). rewrite Hbmi.
    match goal with H : Js.truthy b = true |- _ => rewrite H end.
    exists (categoryName (bmiCategory b)). split; [|reflexivity].
    destruct (bmiCategory b); cbn; tauto.
Qed.

(** X16: no cell of the profile card is empty for a normalized record, unless the
    user's e-mail is the empty string: absent fields read "Not provided" or
    "Not enough data". *)
Theorem dashboard_cells_are_never_blank (raw : RawRecord) (userName userEmail : option string) :
  userEmail <> Some "" ->
  Forall (fun cell => cell <> "")
    (Dashboard.cells (normalizeOnboardingData (Some raw)) userName userEmail).
Proof.
  intros Hemail.
  destruct (NormalizerFacts.normalize_wellFormed (Some raw)) as (_ & Hs & _).
  set (d := normalizeOnboardingData (Some raw)) in *.
  unfold stringFields in Hs.
  repeat match goal with H : List.Forall _ (_ :: _) |- _ =>
    apply List.Forall_cons_iff in H; destruct H as [? H] end.
  unfold Dashboard.cells.
  repeat (apply List.Forall_cons;
          [first [ apply CellFacts.formatNumber_nonempty
                 | apply CellFacts.fieldText_nonempty; assumption
                 | idtac ]|]); try apply List.Forall_nil.
  - unfold Dashboard.heading.
    destruct (String.eqb_spec (full_name d) ""); cbn [negb]; [|assumption].
    destruct userName as [n|]; cbn; [|discriminate].
    destruct (String.eqb_spec n ""); cbn; [discriminate|assumption].
  - destruct (level (summarizeStatus d)); discriminate.
  - destruct userEmail as [e|]; cbn; [congruence|discriminate].
  - unfold Dashboard.bmiCell. destruct (computeBMI _ _) as [b|]; [|discriminate].
    destruct (Js.truthy b); [apply CellFacts.numberToString_nonempty|discriminate].
  - unfold Dashboard.sleepCell. destruct (sleep_hours d) as [x|]; [|discriminate].
    destruct (Js.truthy x); [|discriminate].
    apply StringFacts.append_nonempty_l. apply CellFacts.numberToString_nonempty.
  - unfold Dashboard.temperatureCell. destruct (temperature_c d) as [x|]; [|discriminate].
    apply StringFacts.append_nonempty_l. apply CellFacts.numberToString_nonempty.
  - unfold Dashboard.spo2Cell. destruct (spo2 d) as [x|]; [|discriminate].
    apply StringFacts.append_nonempty_l. apply CellFacts.numberToString_nonempty.
Qed.

Lemma dashboard_cells_are_never_blank_witness :
  Forall (fun cell => cell <> "")
    (Dashboard.cells (normalizeOnboardingData (Some normalizeFixture)) None None).
Proof.
  apply (dashboard_cells_are_never_blank normalizeFixture None None). discriminate.
Defined.

(** X17: the BMI of the overview page is the text of the BMI of [computeBMI]:
    whenever [computeBMI] returns a number below 10^21 in size, the page
    shows a text that [Number] reads back as that number. *)
Theorem overview_bmi_reads_as_engine_bmi (h w : option Js.number) (b : Js.number) :
  computeBMI h w = Some b -> Js.leb (Js.ofZ (10 ^ 21)) (SFabs b) = false ->
  exists s, Overview.computeBMI h w = Some s /\ Js.stringToNumber s = b.
Proof.
  intros Hb Hlt. unfold computeBMI in Hb. unfold Overview.computeBMI.
  destruct h as [h|], w as [w|]; try discriminate Hb.
  destruct (negb (Js.truthy h) || negb (Js.truthy w)); [discriminate Hb|].
  cbv zeta in *.
  destruct (Js.leb (Js.div h (Js.ofZ 100)) (Js.ofZ 0)); [discriminate Hb|].
  set (q := Js.div w (Js.mul (Js.div h (Js.ofZ 100)) (Js.div h (Js.ofZ 100)))) in *.
  destruct (Js.isFinite q) eqn:Hfin; [|discriminate Hb].
  injection Hb as Hb. eexists. split; [reflexivity|].
  rewrite <- Hb. apply ParseFacts.stringToNumber_toFixed1; [assumption|].
  destruct (Js.leb (Js.ofZ (10 ^ 21)) (SFabs q)) eqn:Hq; [|reflexivity].
  exfalso. clearbody q. destruct q as [sq|sq| |sq mq eq]; try discriminate Hfin.
  - rewrite NumberFacts.ofZ_1e21 in Hq. discriminate Hq.
  - unfold Js.roundTenths in Hb. rewrite Hq in Hb. subst b. rewrite Hq in Hlt. discriminate Hlt.
Qed.

Lemma overview_bmi_reads_as_engine_bmi_witness :
  exists s, Overview.computeBMI (Some (Js.ofZ 180)) (Some (Js.ofZ 81)) = Some s
            /\ Js.stringToNumber s = Js.ofZ 25.
Proof.
  apply (overview_bmi_reads_as_engine_bmi (Some (Js.ofZ 180)) (Some (Js.ofZ 81)) (Js.ofZ 25));
    vm_compute; reflexivity.
Defined.

(** X18: the overview page computes a BMI for every truthy height and weight; when
    [computeBMI] returns [null] for them, the height is not positive or the
    page shows "Infinity", "-Infinity" or "NaN". *)
Theorem overview_bmi_without_guards (h w : Js.number) :
  Js.truthy h = true -> Js.truthy w = true ->
  exists s, Overview.computeBMI (Some h) (Some w) = Some s
            /\ (computeBMI (Some h) (Some w) = None ->
                Js.leb (Js.div h (Js.ofZ 100)) (Js.ofZ 0) = true
                \/ In s ["Infinity"; "-Infinity"; "NaN"]).
Proof.
  intros Hh Hw. unfold Overview.computeBMI, computeBMI. rewrite Hh, Hw. cbn [negb orb].
  cbv zeta. eexists. split; [reflexivity|].
  destruct (Js.leb (Js.div h (Js.ofZ 100)) (Js.ofZ 0)); [intros _; left; reflexivity|].
  destruct (Js.isFinite _) eqn:Hfin; [intros H; discriminate H|].
  intros _. right. apply PageFacts.toFixed1_not_finite. assumption.
Qed.

Lemma overview_bmi_without_guards_witness :
  exists s, Overview.computeBMI (Some (Js.ofZ (-170))) (Some (Js.ofZ 70)) = Some s
            /\ (computeBMI (Some (Js.ofZ (-170))) (Some (Js.ofZ 70)) = None ->
                Js.leb (Js.div (Js.ofZ (-170)) (Js.ofZ 100)) (Js.ofZ 0) = true
                \/ In s ["Infinity"; "-Infinity"; "NaN"]).
Proof.
  apply (overview_bmi_without_guards (Js.ofZ (-170)) (Js.ofZ 70)); reflexivity.
Defined.

(** X19: the health status of the overview page is decided by two insights: it is
    "Needs Attention" exactly when "Current symptoms" is an insight, "Under
    Care" when it is not and "Chronic conditions" is, "Stable" otherwise and
    for no data; the risk level plays no part, so the page can say "Stable"
    where the dashboard says "Action needed". *)
Theorem overview_status_from_insights :
  (forall d : HealthSnapshot,
      let st := Overview.status (Overview.getHealthStatus (Some d)) in
      (st = "Needs Attention" <-> In "Current symptoms" (titlesOf d))
      /\ (st = "Under Care" <->
          ~ In "Current symptoms" (titlesOf d) /\ In "Chronic conditions" (titlesOf d))
      /\ (st = "Stable" <->
          ~ In "Current symptoms" (titlesOf d) /\ ~ In "Chronic conditions" (titlesOf d)))
  /\ Overview.status (Overview.getHealthStatus None) = "Stable"
  /\ (exists d, Overview.status (Overview.getHealthStatus (Some d)) = "Stable"
                /\ Dashboard.statusLabel (level (summarizeStatus d)) = "Action needed").
Proof.
  split; [|split; [reflexivity|]].
  - intros d. cbv zeta.
    pose proof (SignalFacts.title_nth d 5 _ eq_refl) as T5.
    pose proof (SignalFacts.title_nth d 11 _ eq_refl) as T11.
    cbn [fst snd] in T5, T11. rewrite T5, T11.
    unfold Overview.getHealthStatus. cbn [mbind option_bind].
    destruct (truthyString (symptoms_current d)), (truthyString (conditions d));
      cbn [Overview.status]; intuition congruence.
  - exists (Questionnaire.with_conditions None worstCase). split; vm_compute; reflexivity.
Qed.

(** * Further properties of the questionnaire *)

Import Questionnaire.

(** X20: whatever the user does, [currentStep] stays an index of [STEPS]. *)
Theorem questionnaire_step_in_range (events : list Event) :
  0 <= currentStep (run events initial) < stepCount.
Proof.
  destruct (FormFacts.reachable_shape events) as (H & _). unfold stepCount. lia.
Qed.

(** X21: the questionnaire is past its first step only with a full name that is
    not blank, so the second name check of [handleSubmit] never rejects a
    submission. *)
Theorem name_is_checked_on_the_first_step (events : list Event) :
  (0 < currentStep (run events initial) ->
   blankText (full_name (data (run events initial))) = false)
  /\ (forall voice, handleSubmit voice (run events initial) <> Rejected "Full name is required").
Proof.
  destruct (FormFacts.reachable_shape events) as (Hr & Hn & _).
  split; [exact Hn|]. intros voice. unfold handleSubmit, stepCount.
  destruct (Z.eqb_spec (currentStep (run events initial)) (3 - 1)) as [Hs|Hs]; cbn [negb];
    [|discriminate].
  destruct (_ && _); [discriminate|].
  unfold validateStep. rewrite Hs. cbn [Z.eqb andb Pos.eqb].
  destruct (blankField _); [discriminate|].
  fold (blankText (full_name (data (run events initial)))).
  rewrite Hn by lia.
  destruct (symptoms_current _) as [s|]; [|discriminate].
  destruct (blankText s); discriminate.
Qed.

(** X22: [handleSubmit] calls [onSubmit] on the last step only, with the name and
    the symptoms trimmed and not empty, the location trimmed or absent, and
    every other field as entered. *)
Theorem submitted_payload_is_trimmed (voice : Voice) (f : Form) (p : HealthSnapshot) :
  handleSubmit voice f = Submitted p ->
  currentStep f = stepCount - 1
  /\ full_name p = Js.trim (full_name (data f)) /\ trimmed (full_name p)
  /\ (exists s, symptoms_current (data f) = Some s
                /\ symptoms_current p = Some (Js.trim s) /\ trimmed (Js.trim s))
  /\ trimmedOrAbsent (location p)
  /\ numericFields p = numericFields (data f)
  /\ List.map (fun field => field p) [sex; blood_type; allergies; conditions; medications;
                                      medical_history; past_reports; prescriptions; symptoms_past]
     = List.map (fun field => field (data f))
         [sex; blood_type; allergies; conditions; medications; medical_history; past_reports;
          prescriptions; symptoms_past].
Proof.
  intros H. apply FormFacts.handleSubmit_submitted in H.
  destruct H as (Hs & Hn & s & Hsym & Hb & ->).
  cbn [full_name symptoms_current location with_full_name with_symptoms_current with_location].
  split; [exact Hs|]. split; [reflexivity|].
  split; [apply ProfileFacts.trimmed_trim; exact Hn|].
  split; [exists s; repeat split; try assumption; apply ProfileFacts.trimmed_trim; exact Hb|].
  split; [apply ProfileFacts.trimmedOrAbsent_trim|].
  split; reflexivity.
Qed.

Lemma submitted_payload_is_trimmed_witness :
  currentStep (run collectsData initial) = stepCount - 1
  /\ full_name collectedPayload = Js.trim (full_name (data (run collectsData initial)))
  /\ trimmed (full_name collectedPayload)
  /\ (exists s, symptoms_current (data (run collectsData initial)) = Some s
                /\ symptoms_current collectedPayload = Some (Js.trim s) /\ trimmed (Js.trim s))
  /\ trimmedOrAbsent (location collectedPayload)
  /\ numericFields collectedPayload = numericFields (data (run collectsData initial))
  /\ List.map (fun field => field collectedPayload)
       [sex; blood_type; allergies; conditions; medications; medical_history; past_reports;
        prescriptions; symptoms_past]
     = List.map (fun field => field (data (run collectsData initial)))
         [sex; blood_type; allergies; conditions; medications; medical_history; past_reports;
          prescriptions; symptoms_past].
Proof.
  apply (submitted_payload_is_trimmed NoVoice (run collectsData initial) collectedPayload).
  vm_compute. reflexivity.
Defined.

(** X23: a payload the questionnaire submits has no lifestyle field, no vital sign
    and no emergency contact, since no step of [STEPS] asks for them, and
    every number in it is finite. *)
Theorem questionnaire_leaves_lifestyle_unasked
    (events : list Event) (voice : Voice) (p : HealthSnapshot) :
  handleSubmit voice (run events initial) = Submitted p ->
  Forall (eq None) (unaskedNumbers p)
  /\ Forall (eq None) (unaskedStrings p)
  /\ Forall finiteOrAbsent (numericFields p).
Proof.
  intros H. apply FormFacts.handleSubmit_submitted in H.
  destruct H as (_ & _ & s & _ & _ & ->).
  destruct (FormFacts.reachable_shape events) as (_ & _ & Hf & Hn & Hs).
  repeat split; assumption.
Qed.

Lemma questionnaire_leaves_lifestyle_unasked_witness :
  Forall (eq None) (unaskedNumbers collectedPayload)
  /\ Forall (eq None) (unaskedStrings collectedPayload)
  /\ Forall finiteOrAbsent (numericFields collectedPayload).
Proof.
  apply (questionnaire_leaves_lifestyle_unasked collectsData NoVoice collectedPayload).
  vm_compute. reflexivity.
Defined.

(** X24: when the payload the questionnaire submits is stored and normalized
    again, name, symptoms, location and numbers are kept; the level is never
    [action], the only possible reasons are the two about BMI and the one
    about chronic conditions, "Current symptoms" is an insight, the overview
    page says "Needs Attention" and Behavioral Health is never recommended. *)
Theorem onboarded_profile_never_needs_action
    (events : list Event) (voice : Voice) (p : HealthSnapshot) :
  handleSubmit voice (run events initial) = Submitted p ->
  let d := normalizeOnboardingData (Some (toRaw p)) in
  full_name d = full_name p
  /\ symptoms_current d = symptoms_current p
  /\ location d = location p
  /\ numericFields d = numericFields p
  /\ level (summarizeStatus d) <> action
  /\ incl (reasons (summarizeStatus d))
       ["BMI in obese range"; "BMI in overweight range"; "Chronic condition risk"]
  /\ In "Current symptoms" (titlesOf d)
  /\ Overview.status (Overview.getHealthStatus (Some d)) = "Needs Attention"
  /\ ~ In "Behavioral Health" (specialtiesOf d).
Proof.
  intros H. apply FormFacts.handleSubmit_submitted in H.
  destruct H as (_ & Hname & s & _ & Hs & ->).
  destruct (FormFacts.reachable_shape events) as (_ & _ & Hf & Hun & Hus).
  set (f := run events initial) in *. cbv zeta.
  set (p := with_full_name _ _).
  assert (Hfp : Forall finiteOrAbsent (numericFields p)) by exact Hf.
  assert (Hunp : Forall (eq None) (unaskedNumbers p)) by exact Hun.
  assert (Husp : Forall (eq None) (unaskedStrings p)) by exact Hus.
  assert (Hnp : full_name p = Js.trim (full_name (data f))) by reflexivity.
  assert (Hsp : symptoms_current p = Some (Js.trim s)) by reflexivity.
  assert (Hlp : location p = (location (data f) ≫= fun l => nonEmpty (Js.trim l)))
    by reflexivity.
  clearbody p. clear Hf Hun Hus.
  rewrite FormFacts.read_back.
  set (d := mkSnapshot _ _ _ _ _ _ _ _ _ _ _ _ _ _ _ _ _ _ _ _ _ _ _ _ _ _ _ _ _ _ _ _).
  assert (Hdn : full_name d = full_name p).
  { subst d. cbn [full_name]. apply NormalizerFacts.full_name_fixed. right.
    rewrite Hnp. apply ProfileFacts.trimmed_trim. exact Hname. }
  assert (Hds : symptoms_current d = symptoms_current p).
  { subst d. cbn [symptoms_current]. apply NormalizerFacts.stringVal_ofString.
    rewrite Hsp. apply ProfileFacts.trimmed_trim. exact Hs. }
  assert (Hdl : location d = location p).
  { subst d. cbn [location]. apply NormalizerFacts.stringVal_ofString.
    rewrite Hlp. apply ProfileFacts.trimmedOrAbsent_trim. }
  assert (Hdf : numericFields d = numericFields p).
  { subst d. unfold numericFields in *.
    cbn [age height weight sleep_hours heart_rate temperature_c spo2].
    repeat match goal with H : List.Forall _ (_ :: _) |- _ =>
      apply List.Forall_cons_iff in H; destruct H as [? H] end.
    rewrite !NormalizerFacts.numberVal_ofNumber by assumption. reflexivity. }
  assert (Hdun : Forall (eq None) (unaskedNumbers d)).
  { subst d. unfold unaskedNumbers in *. cbn [sleep_hours heart_rate temperature_c spo2].
    repeat match goal with H : List.Forall _ (_ :: _) |- _ =>
      apply List.Forall_cons_iff in H; destruct H as [? H] end.
    repeat match goal with H : None = _ |- _ => rewrite <- H; clear H end.
    repeat constructor. }
  assert (Hdus : Forall (eq None) (unaskedStrings d)).
  { subst d. unfold unaskedStrings in *.
    cbn [smoking_status alcohol_consumption exercise_frequency diet_type stress_level
         family_history health_goals emergency_contact_name emergency_contact_phone
         blood_pressure diagnosis treatment_plan doctor_notes].
    repeat match goal with H : List.Forall _ (_ :: _) |- _ =>
      apply List.Forall_cons_iff in H; destruct H as [? H] end.
    repeat match goal with H : None = _ |- _ => rewrite <- H; clear H end.
    repeat constructor. }
  clearbody d.
  destruct (ProfileFacts.unasked_tally d (bmiOf d) Hdun Hdus) as [Ht Hb].
  destruct (ProfileFacts.unasked_reasons d (bmiOf d)) as [Hscore Hincl].
  rewrite <- Ht in Hscore, Hincl.
  assert (Htruthy : truthyString (symptoms_current d) = true).
  { rewrite Hds, Hsp. cbn [truthyString]. unfold blankText in Hs. rewrite Hs. reflexivity. }
  repeat split; try assumption.
  - rewrite ScorerFacts.summarizeStatus_tally. cbn [level].
    rewrite ProfileFacts.levelOf_action. lia.
  - rewrite ScorerFacts.summarizeStatus_tally. cbn [reasons]. exact Hincl.
  - apply (SignalFacts.title_nth d 5 _ eq_refl). exact Htruthy.
  - unfold Overview.getHealthStatus. cbn [mbind option_bind]. rewrite Htruthy. reflexivity.
  - intros Hin. apply (SignalFacts.specialty_in d) in Hin. rewrite Hb in Hin. discriminate Hin.
Qed.

Lemma onboarded_profile_never_needs_action_witness :
  full_name (normalizeOnboardingData (Some (toRaw collectedPayload))) = full_name collectedPayload
  /\ symptoms_current (normalizeOnboardingData (Some (toRaw collectedPayload)))
     = symptoms_current collectedPayload
  /\ location (normalizeOnboardingData (Some (toRaw collectedPayload))) = location collectedPayload
  /\ numericFields (normalizeOnboardingData (Some (toRaw collectedPayload)))
     = numericFields collectedPayload
  /\ level (summarizeStatus (normalizeOnboardingData (Some (toRaw collectedPayload)))) <> action
  /\ incl (reasons (summarizeStatus (normalizeOnboardingData (Some (toRaw collectedPayload)))))
       ["BMI in obese range"; "BMI in overweight range"; "Chronic condition risk"]
  /\ In "Current symptoms" (titlesOf (normalizeOnboardingData (Some (toRaw collectedPayload))))
  /\ Overview.status
       (Overview.getHealthStatus (Some (normalizeOnboardingData (Some (toRaw collectedPayload)))))
     = "Needs Attention"
  /\ ~ In "Behavioral Health"
       (specialtiesOf (normalizeOnboardingData (Some (toRaw collectedPayload)))).
Proof.
  apply (onboarded_profile_never_needs_action collectsData NoVoice collectedPayload).
  vm_compute. reflexivity.
Defined.

(** X25: a user who types a name, continues twice and types symptoms, neither of
    them blank, gets the payload submitted, with both texts trimmed. *)
Theorem straight_path_submits (name symptoms : string) (voice : Voice) :
  blankText name = false -> blankText symptoms = false ->
  handleSubmit voice
    (run [Change FullName name; Continue; Continue; Change SymptomsCurrent symptoms] initial)
  = Submitted
      (with_full_name (Js.trim name)
         (with_symptoms_current (Some (Js.trim symptoms)) (emptyData ""))).
Proof.
  intros Hn Hs.
  assert (Hne : nonEmpty symptoms = Some symptoms).
  { unfold nonEmpty. destruct (String.eqb_spec symptoms "") as [->|]; [|reflexivity].
    discriminate Hs. }
  assert (H1 : forall d, blankText (full_name d) = false ->
                 handleNext (mkForm 0 d None) = mkForm 1 d None).
  { intros d Hd. unfold handleNext, validateStep. cbn [currentStep data].
    rewrite Hd. reflexivity. }
  unfold run. cbn [fold_left].
  change (react initial (Change FullName name))
    with (mkForm 0 (with_full_name name (emptyData "")) None).
  change (react (mkForm 0 (with_full_name name (emptyData "")) None) Continue)
    with (handleNext (mkForm 0 (with_full_name name (emptyData "")) None)).
  rewrite H1 by exact Hn.
  change (react (mkForm 1 (with_full_name name (emptyData "")) None) Continue)
    with (mkForm 2 (with_full_name name (emptyData "")) None).
  change (react (mkForm 2 (with_full_name name (emptyData "")) None)
            (Change SymptomsCurrent symptoms))
    with (mkForm 2 (with_symptoms_current (nonEmpty symptoms)
                      (with_full_name name (emptyData ""))) None).
  rewrite Hne.
  unfold handleSubmit, validateStep.
  cbn [currentStep data error symptoms_current full_name location with_symptoms_current
       with_full_name emptyData blankField].
  rewrite Hs. fold (blankText name). rewrite Hn.
  destruct voice; reflexivity.
Qed.

Lemma straight_path_submits_witness :
  handleSubmit NoVoice
    (run [Change FullName " Jane Doe"; Continue; Continue; Change SymptomsCurrent "cough "]
       initial)
  = Submitted
      (with_full_name (Js.trim " Jane Doe")
         (with_symptoms_current (Some (Js.trim "cough ")) (emptyData ""))).
Proof.
  apply (straight_path_submits " Jane Doe" "cough " NoVoice); reflexivity.
Defined.
